(** * ComputeEngineSSHHook: a shallow embedding of
    [airflow/providers/google/cloud/hooks/compute_ssh.py]

    The hook obtains an SSH session to a Compute Engine instance.  Its
    collaborators (the Compute Engine and OS Login hooks, paramiko, the
    clock, the random generator) are not part of the file; they are
    gathered in a record [Env] of oracles.  Every oracle reads the history
    of collaborator calls made so far, so a collaborator may answer
    differently each time it is called.  A method of the hook is a function
    from the history to an outcome (a value or a raised exception) and the
    list of calls the method added to the history.

    Strings are Python [str] values restricted to code points below 128.
    Calls to [self.log.info] are left out: no collaborator observes them. *)

From Stdlib Require Import ZArith List String Ascii Bool Lia.
From Stdlib Require Import Floats.PrimFloat Floats.SpecFloat Floats.FloatOps.
From Stdlib Require Uint63.
From stdpp Require Import base option list gmap strings pretty.

Open Scope string_scope.
Open Scope list_scope.
Open Scope Z_scope.

(** ** Strings *)

Module Str.

(** The line feed and the double quote, which string literals here do
    not spell. *)
Definition nl : string := String (ascii_of_nat 10) EmptyString.
Definition dq : string := String (ascii_of_nat 34) EmptyString.

(** [needle in hay] of Python. *)
Fixpoint contains (needle hay : string) : bool :=
  if String.prefix needle hay then true
  else match hay with
       | EmptyString => false
       | String _ rest => contains needle rest
       end.

Definition lower_ascii (c : ascii) : ascii :=
  let n := nat_of_ascii c in
  if ((65 <=? n)%nat && (n <=? 90)%nat)%bool then ascii_of_nat (n + 32) else c.

(** [s.lower()] *)
Fixpoint lower (s : string) : string :=
  match s with
  | EmptyString => EmptyString
  | String c rest => String (lower_ascii c) (lower rest)
  end.

(** [c.isspace()] below 128: tab to carriage return, the four
    separators 28..31 and the space. *)
Definition is_space (c : ascii) : bool :=
  let n := nat_of_ascii c in
  (((9 <=? n)%nat && (n <=? 13)%nat) || ((28 <=? n)%nat && (n <=? 32)%nat))%bool.

Fixpoint lstrip (s : string) : string :=
  match s with
  | String c rest => if is_space c then lstrip rest else s
  | EmptyString => EmptyString
  end.

Fixpoint rev_acc (s acc : string) : string :=
  match s with
  | EmptyString => acc
  | String c rest => rev_acc rest (String c acc)
  end.

Definition rev (s : string) : string := rev_acc s EmptyString.

(** [s.strip()] *)
Definition strip (s : string) : string := rev (lstrip (rev (lstrip s))).

Definition is_empty (s : string) : bool :=
  match s with EmptyString => true | _ => false end.

(** [old.join(...)]-free [s.replace(c, by)] for a one-character [c]. *)
Fixpoint replace_char (c : ascii) (by_ : string) (s : string) : string :=
  match s with
  | EmptyString => EmptyString
  | String d rest =>
      (if Ascii.eqb c d then by_ else String d EmptyString) +:+ replace_char c by_ rest
  end.

(** [sep.join(parts)] *)
Fixpoint join (sep : string) (parts : list string) : string :=
  match parts with
  | [] => EmptyString
  | [p] => p
  | p :: rest => p +:+ sep +:+ join sep rest
  end.

Fixpoint forallb_str (p : ascii -> bool) (s : string) : bool :=
  match s with
  | EmptyString => true
  | String c rest => p c && forallb_str p rest
  end.

End Str.

(** ** Python values met in a connection's extra fields *)

Inductive pyval : Type :=
| PNone
| PBool (b : bool)
| PInt (z : Z)
| PStr (s : string).

(** [bool(v)] *)
Definition truthy (v : pyval) : bool :=
  match v with
  | PNone => false
  | PBool b => b
  | PInt z => negb (z =? 0)
  | PStr s => negb (Str.is_empty s)
  end.

(** [bool(s)] for [s : str | None] *)
Definition truthy_str (s : option string) : bool :=
  match s with
  | Some s => negb (Str.is_empty s)
  | None => false
  end.

(** [str(v)] *)
Definition py_str (v : pyval) : string :=
  match v with
  | PNone => "None"
  | PBool true => "True"
  | PBool false => "False"
  | PInt z => pretty z
  | PStr s => s
  end.

Definition py_str_opt (s : option string) : string :=
  match s with Some s => s | None => "None" end.

(** [type(v)] as an f-string prints it *)
Definition py_type (v : pyval) : string :=
  match v with
  | PNone => "<class 'NoneType'>"
  | PBool _ => "<class 'bool'>"
  | PInt _ => "<class 'int'>"
  | PStr _ => "<class 'str'>"
  end.

(** ** Exceptions

    The three classes the hook tells apart, each standing for itself and
    its subclasses, and one constructor for every other class, named by
    [cls]; the name [OSError] stands for [OSError] and its subclasses. *)

Inductive Exc : Type :=
| HttpError (status : Z) (text : string)
| AirflowException (msg : string)
| SSHException (msg : string)
| OtherError (cls msg : string).

(** [str(exc)] *)
Definition exc_str (e : Exc) : string :=
  match e with
  | HttpError _ t => t
  | AirflowException m => m
  | SSHException m => m
  | OtherError _ m => m
  end.

Inductive Result (A : Type) : Type :=
| Ok (a : A)
| Raise (e : Exc).
Arguments Ok {A} a.
Arguments Raise {A} e.

(** ** Data *)

(** What [NOTSET | None | int] holds for [cmd_timeout]. *)
Inductive CmdTimeout : Type :=
| NOTSET
| TimeoutNone
| TimeoutInt (seconds : Z).

Definition CMD_TIMEOUT : Z := 10.

(** The attributes of [ComputeEngineSSHHook] set by [__init__].
    [instance_name] and [zone] may be replaced by whatever [_get_field]
    returns, so they hold Python values. *)
Record ComputeEngineSSHHook : Type := mkHook {
  gcp_conn_id : string;
  instance_name : pyval;
  zone : pyval;
  user : option string;
  project_id : option string;
  hostname : option string;
  use_internal_ip : bool;
  use_iap_tunnel : bool;
  use_oslogin : bool;
  expire_time : Z;
  cmd_timeout : CmdTimeout;
  max_retries : Z;
  impersonation_chain : option string
}.

(** [__init__] with its default arguments.  [PROVIDE_PROJECT_ID], the
    default of [project_id], is declared in another module and is taken
    as a parameter. *)
Definition init_defaults (PROVIDE_PROJECT_ID : option string) : ComputeEngineSSHHook :=
  {| gcp_conn_id := "google_cloud_default";
     instance_name := PNone;
     zone := PNone;
     user := Some "root";
     project_id := PROVIDE_PROJECT_ID;
     hostname := None;
     use_internal_ip := false;
     use_iap_tunnel := false;
     use_oslogin := true;
     expire_time := 300;
     cmd_timeout := NOTSET;
     max_retries := 10;
     impersonation_chain := None |}.

(** An Airflow [Connection], as far as the hook reads it. *)
Record Connection : Type := mkConnection {
  conn_type : string;
  login : option string;
  host : option string;
  extra : option string;
  extra_dejson : gmap string pyval
}.

(** Instance metadata: the dict under ["metadata"], with its ["items"]
    list of [{"key": ..., "value": ...}] dicts and its other entries. *)
Record Metadata : Type := mkMetadata {
  items : option (list (gmap string string));
  other_entries : gmap string string
}.

Record InstanceInfo : Type := mkInstanceInfo {
  info_metadata : option Metadata
}.

(** A paramiko key: [get_name()] and [get_base64()]. *)
Record PKey : Type := mkPKey {
  get_name : string;
  get_base64 : string
}.

Record SshPublicKey : Type := mkSshPublicKey {
  key : string;
  expiration_time_usec : Z
}.

Record PosixAccount : Type := mkPosixAccount {
  username : string
}.

(** [response.login_profile.posix_accounts] *)
Record ImportSshPublicKeyResponse : Type := mkImportResponse {
  posix_accounts : list PosixAccount
}.

Record ProxyCommand : Type := mkProxyCommand {
  command_line : string
}.

(** [_GCloudAuthorizedSSHClient]: [decorator] holds the authorization
    scope the client entered, named by its number. *)
Record GCloudAuthorizedSSHClient : Type := mkClient {
  decorator : option nat
}.

(** ** Collaborator calls *)

(** The two places that call [time.sleep]. *)
Inductive SleepSite : Type :=
| OuterBackoff   (* get_conn, after a failed publish+handshake cycle *)
| InnerWait.     (* _connect_to_instance, between connect attempts *)

Inductive Event : Type :=
| Ev_get_connection (conn_id : string)
| Ev_project_id
| Ev_get_instance_address (zone resource_id : pyval) (project_id : option string)
    (use_internal_ip : bool)
| Ev_RSAKey_generate (bits : Z)
| Ev_get_instance_info (zone resource_id : pyval) (project_id : option string)
| Ev_set_instance_metadata (zone resource_id : pyval) (metadata : Metadata)
    (project_id : option string)
| Ev_get_credentials_email
| Ev_time
| Ev_import_ssh_public_key (user : string) (ssh_public_key : SshPublicKey)
    (project_id : option string)
| Ev_ProxyCommand (command_line : string)
| Ev_gcloud_enter (scope : nat) (entered : bool)
| Ev_gcloud_exit (scope : nat)
| Ev_connect (hostname : string) (username : option string) (pkey : PKey)
    (sock : option ProxyCommand) (look_for_keys : bool)
| Ev_close
| Ev_randint (a b : Z)
| Ev_sleep (site : SleepSite) (seconds : Z).

Definition Trace : Type := list Event.

(** The collaborators.  Each oracle is given the history before the call
    and the call's arguments. *)
Record Env : Type := mkEnv {
  (* BaseHook.get_connection *)
  env_get_connection : Trace -> string -> Result (option Connection);
  (* ComputeEngineHook._get_field(name, default) *)
  env_get_field : string -> pyval -> pyval;
  (* ComputeEngineHook.project_id *)
  env_project_id : Trace -> Result (option string);
  (* ComputeEngineHook.get_instance_address *)
  env_get_instance_address :
    Trace -> pyval -> pyval -> option string -> bool -> Result string;
  (* ComputeEngineHook.get_instance_info *)
  env_get_instance_info :
    Trace -> pyval -> pyval -> option string -> Result InstanceInfo;
  (* ComputeEngineHook.set_instance_metadata *)
  env_set_instance_metadata :
    Trace -> pyval -> pyval -> Metadata -> option string -> Result unit;
  (* OSLoginHook._get_credentials_email *)
  env_get_credentials_email : Trace -> Result string;
  (* OSLoginHook.import_ssh_public_key *)
  env_import_ssh_public_key :
    Trace -> string -> SshPublicKey -> option string ->
    Result ImportSshPublicKeyResponse;
  (* time.time() *)
  env_time : Trace -> float;
  (* random.randint(a, b) *)
  env_randint : Trace -> Z -> Z -> Z;
  (* paramiko.RSAKey.generate(bits) followed by write_private_key *)
  env_RSAKey_generate : Trace -> Z -> Result PKey;
  (* paramiko.ProxyCommand(command_line) *)
  env_ProxyCommand : Trace -> string -> Result ProxyCommand;
  (* provide_authorized_gcloud().__enter__() *)
  env_gcloud_enter : Trace -> Result unit;
  (* paramiko.SSHClient.connect *)
  env_connect :
    Trace -> string -> option string -> PKey -> option ProxyCommand -> bool ->
    Result unit
}.

(** ** The monad of a method that reads [self] *)

Definition M (A : Type) : Type := Trace -> Result A * Trace.

Definition ret {A} (a : A) : M A := fun _ => (Ok a, []).

Definition raise {A} (e : Exc) : M A := fun _ => (Raise e, []).

Definition bind {A B} (m : M A) (f : A -> M B) : M B :=
  fun h =>
    let '(r, d) := m h in
    match r with
    | Ok a => let '(r', d') := f a (h ++ d) in (r', d ++ d')
    | Raise e => (Raise e, d)
    end.

(** [try: m except Exception as exc: handler(exc)]; the handler chooses
    the classes it catches by raising the others again. *)
Definition try_except {A} (m : M A) (handler : Exc -> M A) : M A :=
  fun h =>
    let '(r, d) := m h in
    match r with
    | Ok a => (Ok a, d)
    | Raise e => let '(r', d') := handler e (h ++ d) in (r', d ++ d')
    end.

(** One call of a collaborator: the oracle answers from the history, and
    the call is added to it. *)
Definition call {A} (ev : Event) (oracle : Trace -> Result A) : M A :=
  fun h => (oracle h, [ev]).

Definition of_result {A} (r : Result A) : M A := fun _ => (r, []).

Declare Scope m_scope.
Delimit Scope m_scope with M.
Notation "x <- m ;; k" := (bind m (fun x => k))
  (at level 100, m at next level, right associativity) : m_scope.
Notation "m ;;; k" := (bind m (fun _ => k))
  (at level 100, right associativity) : m_scope.
Open Scope m_scope.

(** ** Attribute assignment: [self.f = v] *)

Definition set_instance_name (v : pyval) (self : ComputeEngineSSHHook) : ComputeEngineSSHHook :=
  {| gcp_conn_id := gcp_conn_id self; instance_name := v; zone := zone self;
     user := user self; project_id := project_id self;
     hostname := hostname self; use_internal_ip := use_internal_ip self;
     use_iap_tunnel := use_iap_tunnel self; use_oslogin := use_oslogin self;
     expire_time := expire_time self; cmd_timeout := cmd_timeout self;
     max_retries := max_retries self;
     impersonation_chain := impersonation_chain self |}.

Definition set_zone (v : pyval) (self : ComputeEngineSSHHook) : ComputeEngineSSHHook :=
  {| gcp_conn_id := gcp_conn_id self; instance_name := instance_name self;
     zone := v; user := user self; project_id := project_id self;
     hostname := hostname self; use_internal_ip := use_internal_ip self;
     use_iap_tunnel := use_iap_tunnel self; use_oslogin := use_oslogin self;
     expire_time := expire_time self; cmd_timeout := cmd_timeout self;
     max_retries := max_retries self;
     impersonation_chain := impersonation_chain self |}.

Definition set_user (v : option string) (self : ComputeEngineSSHHook) : ComputeEngineSSHHook :=
  {| gcp_conn_id := gcp_conn_id self; instance_name := instance_name self;
     zone := zone self; user := v; project_id := project_id self;
     hostname := hostname self; use_internal_ip := use_internal_ip self;
     use_iap_tunnel := use_iap_tunnel self; use_oslogin := use_oslogin self;
     expire_time := expire_time self; cmd_timeout := cmd_timeout self;
     max_retries := max_retries self;
     impersonation_chain := impersonation_chain self |}.

Definition set_project_id (v : option string) (self : ComputeEngineSSHHook) : ComputeEngineSSHHook :=
  {| gcp_conn_id := gcp_conn_id self; instance_name := instance_name self;
     zone := zone self; user := user self; project_id := v;
     hostname := hostname self; use_internal_ip := use_internal_ip self;
     use_iap_tunnel := use_iap_tunnel self; use_oslogin := use_oslogin self;
     expire_time := expire_time self; cmd_timeout := cmd_timeout self;
     max_retries := max_retries self;
     impersonation_chain := impersonation_chain self |}.

Definition set_hostname (v : option string) (self : ComputeEngineSSHHook) : ComputeEngineSSHHook :=
  {| gcp_conn_id := gcp_conn_id self; instance_name := instance_name self;
     zone := zone self; user := user self; project_id := project_id self;
     hostname := v; use_internal_ip := use_internal_ip self;
     use_iap_tunnel := use_iap_tunnel self; use_oslogin := use_oslogin self;
     expire_time := expire_time self; cmd_timeout := cmd_timeout self;
     max_retries := max_retries self;
     impersonation_chain := impersonation_chain self |}.

Definition set_use_internal_ip (v : bool) (self : ComputeEngineSSHHook) : ComputeEngineSSHHook :=
  {| gcp_conn_id := gcp_conn_id self; instance_name := instance_name self;
     zone := zone self; user := user self; project_id := project_id self;
     hostname := hostname self; use_internal_ip := v;
     use_iap_tunnel := use_iap_tunnel self; use_oslogin := use_oslogin self;
     expire_time := expire_time self; cmd_timeout := cmd_timeout self;
     max_retries := max_retries self;
     impersonation_chain := impersonation_chain self |}.

Definition set_use_iap_tunnel (v : bool) (self : ComputeEngineSSHHook) : ComputeEngineSSHHook :=
  {| gcp_conn_id := gcp_conn_id self; instance_name := instance_name self;
     zone := zone self; user := user self; project_id := project_id self;
     hostname := hostname self; use_internal_ip := use_internal_ip self;
     use_iap_tunnel := v; use_oslogin := use_oslogin self;
     expire_time := expire_time self; cmd_timeout := cmd_timeout self;
     max_retries := max_retries self;
     impersonation_chain := impersonation_chain self |}.

Definition set_use_oslogin (v : bool) (self : ComputeEngineSSHHook) : ComputeEngineSSHHook :=
  {| gcp_conn_id := gcp_conn_id self; instance_name := instance_name self;
     zone := zone self; user := user self; project_id := project_id self;
     hostname := hostname self; use_internal_ip := use_internal_ip self;
     use_iap_tunnel := use_iap_tunnel self; use_oslogin := v;
     expire_time := expire_time self; cmd_timeout := cmd_timeout self;
     max_retries := max_retries self;
     impersonation_chain := impersonation_chain self |}.

Definition set_expire_time (v : Z) (self : ComputeEngineSSHHook) : ComputeEngineSSHHook :=
  {| gcp_conn_id := gcp_conn_id self; instance_name := instance_name self;
     zone := zone self; user := user self; project_id := project_id self;
     hostname := hostname self; use_internal_ip := use_internal_ip self;
     use_iap_tunnel := use_iap_tunnel self; use_oslogin := use_oslogin self;
     expire_time := v; cmd_timeout := cmd_timeout self;
     max_retries := max_retries self;
     impersonation_chain := impersonation_chain self |}.

Definition set_cmd_timeout (v : CmdTimeout) (self : ComputeEngineSSHHook) : ComputeEngineSSHHook :=
  {| gcp_conn_id := gcp_conn_id self; instance_name := instance_name self;
     zone := zone self; user := user self; project_id := project_id self;
     hostname := hostname self; use_internal_ip := use_internal_ip self;
     use_iap_tunnel := use_iap_tunnel self; use_oslogin := use_oslogin self;
     expire_time := expire_time self; cmd_timeout := v;
     max_retries := max_retries self;
     impersonation_chain := impersonation_chain self |}.

Definition set_max_retries (v : Z) (self : ComputeEngineSSHHook) : ComputeEngineSSHHook :=
  {| gcp_conn_id := gcp_conn_id self; instance_name := instance_name self;
     zone := zone self; user := user self; project_id := project_id self;
     hostname := hostname self; use_internal_ip := use_internal_ip self;
     use_iap_tunnel := use_iap_tunnel self; use_oslogin := use_oslogin self;
     expire_time := expire_time self; cmd_timeout := cmd_timeout self;
     max_retries := v; impersonation_chain := impersonation_chain self |}.

(** ** Python built-ins used by the hook *)

Definition digit_of (c : ascii) : option Z :=
  let n := nat_of_ascii c in
  if ((48 <=? n)%nat && (n <=? 57)%nat)%bool then Some (Z.of_nat n - 48) else None.

(** Decimal digits, with single underscores between digits. *)
Fixpoint parse_digits (s : string) (acc : Z) (after_digit : bool) : option Z :=
  match s with
  | EmptyString => if after_digit then Some acc else None
  | String c rest =>
      match digit_of c with
      | Some d => parse_digits rest (10 * acc + d) true
      | None =>
          if (Ascii.eqb c "_" && after_digit)%bool then parse_digits rest acc false
          else None
      end
  end.

(** [int(s)] for a string: surrounding whitespace, an optional sign,
    digits. *)
Definition py_int_str (s : string) : option Z :=
  match Str.strip s with
  | String "+" rest => parse_digits rest 0 false
  | String "-" rest => Z.opp <$> parse_digits rest 0 false
  | t => parse_digits t 0 false
  end.

(** [int(v)] *)
Definition py_int (v : pyval) : Result Z :=
  match v with
  | PNone => Raise (OtherError "TypeError" "int() argument must be a string, a bytes-like object or a real number, not 'NoneType'")
  | PBool b => Ok (if b then 1 else 0)
  | PInt z => Ok z
  | PStr s =>
      match py_int_str s with
      | Some z => Ok z
      | None => Raise (OtherError "ValueError" ("invalid literal for int() with base 10: '" +:+ s +:+ "'"))
      end
  end.

(** [float(z)] for an int, rounded to the nearest double;
    [OverflowError] when no finite double is near. *)
Definition float_of_int (z : Z) : Result float :=
  let f := SF2Prim (binary_normalize prec emax z 0 false) in
  if PrimFloat.is_infinity f
  then Raise (OtherError "OverflowError" "int too large to convert to float")
  else Ok f.

(** [int(f)] for a float: truncation toward zero. *)
Definition int_of_float (f : float) : Result Z :=
  match Prim2SF f with
  | S754_zero _ => Ok 0
  | S754_finite s m e =>
      let v := if 0 <=? e then Z.pos m * 2 ^ e else Z.pos m / 2 ^ (- e) in
      Ok (if s then - v else v)
  | S754_infinity _ =>
      Raise (OtherError "OverflowError" "cannot convert float infinity to integer")
  | S754_nan =>
      Raise (OtherError "ValueError" "cannot convert float NaN to integer")
  end.

(** [shlex.quote] *)
Definition shlex_safe (c : ascii) : bool :=
  let n := nat_of_ascii c in
  (((48 <=? n)%nat && (n <=? 57)%nat)        (* 0-9 *)
   || ((65 <=? n)%nat && (n <=? 90)%nat)     (* A-Z *)
   || ((97 <=? n)%nat && (n <=? 122)%nat)    (* a-z *)
   || existsb (Ascii.eqb c) ["_"; "@"; "%"; "+"; "="; ":"; ","; "."; "/"; "-"]%char)%bool.

Definition shlex_quote (s : string) : string :=
  if Str.is_empty s then "''"
  else if Str.forallb_str shlex_safe s then s
  else "'" +:+ Str.replace_char "'" ("'" +:+ Str.dq +:+ "'" +:+ Str.dq +:+ "'") s +:+ "'".

(** [repr] of a list of plain strings, as an f-string prints it. *)
Definition repr_str_list (l : list string) : string :=
  "[" +:+ Str.join ", " (map (fun s => "'" +:+ s +:+ "'") l) +:+ "]".

(** [range(n)] *)
Definition range (n : Z) : list Z := map Z.of_nat (seq 0 (Z.to_nat n)).

(** ** _load_connection_config *)

Definition _boolify (value : pyval) : bool :=
  match value with
  | PBool b => b
  | PStr s =>
      if String.eqb (Str.lower s) "false" then false
      else if String.eqb (Str.lower s) "true" then true
      else false
  | _ => false
  end.

Definition intify (key : string) (value : pyval) (default : Z) : Result Z :=
  match value with
  | PNone => Ok default
  | _ =>
      if match value with PStr s => Str.is_empty (Str.strip s) | _ => false end
      then Ok default
      else
        match py_int value with
        | Ok z => Ok z
        | Raise (OtherError cls m) =>
            if String.eqb cls "ValueError" then
              Raise (AirflowException
                ("The " +:+ key +:+ " field should be a integer. Current value: "
                 +:+ Str.dq +:+ py_str value +:+ Str.dq +:+ " (type: " +:+ py_type value
                 +:+ "). Please check the connection configuration."))
            else Raise (OtherError cls m)
        | Raise e => Raise e
        end
  end.

(** Lines 194-200: the [cmd_timeout] of the connection's extra. *)
Definition load_cmd_timeout (conn : Connection) (self : ComputeEngineSSHHook)
  : Result unit * ComputeEngineSSHHook :=
  match extra conn with
  | None => (Ok tt, self)
  | Some _ =>
      let extra_options := extra_dejson conn in
      match extra_options !! "cmd_timeout", cmd_timeout self with
      | Some v, NOTSET =>
          if truthy v then
            match py_int v with
            | Ok z => (Ok tt, set_cmd_timeout (TimeoutInt z) self)
            | Raise e => (Raise e, self)
            end
          else (Ok tt, set_cmd_timeout TimeoutNone self)
      | _, _ => (Ok tt, self)
      end
  end.

(** Lines 180-203: the body run for a connection of type [gcpssh]. *)
Definition load_gcpssh (env : Env) (conn : Connection) (self : ComputeEngineSSHHook)
  : Result unit * ComputeEngineSSHHook :=
  let self := set_instance_name (env_get_field env "instance_name" (instance_name self)) self in
  let self := set_zone (env_get_field env "zone" (zone self)) self in
  let self := set_user (if truthy_str (login conn) then login conn else user self) self in
  let self := set_hostname (if truthy_str (host conn) then host conn else hostname self) self in
  let self := set_use_internal_ip (_boolify (env_get_field env "use_internal_ip" PNone)) self in
  let self := set_use_iap_tunnel (_boolify (env_get_field env "use_iap_tunnel" PNone)) self in
  let self := set_use_oslogin (_boolify (env_get_field env "use_oslogin" PNone)) self in
  match intify "expire_time" (env_get_field env "expire_time" PNone) (expire_time self) with
  | Raise e => (Raise e, self)
  | Ok t =>
      let self := set_expire_time t self in
      match load_cmd_timeout conn self with
      | (Raise e, self) => (Raise e, self)
      | (Ok _, self) =>
          (Ok tt,
           match cmd_timeout self with
           | NOTSET => set_cmd_timeout (TimeoutInt CMD_TIMEOUT) self
           | _ => self
           end)
      end
  end.

(** [_load_connection_config] assigns attributes of [self]; the hook it
    leaves is returned next to the outcome, also when it raises. *)
Definition _load_connection_config (env : Env) (self : ComputeEngineSSHHook)
  : Trace -> (Result unit * ComputeEngineSSHHook) * Trace :=
  fun h =>
    let ev := [Ev_get_connection (gcp_conn_id self)] in
    match env_get_connection env h (gcp_conn_id self) with
    | Raise e => ((Raise e, self), ev)
    | Ok None => ((Ok tt, self), ev)
    | Ok (Some conn) =>
        if String.eqb (conn_type conn) "gcpssh"
        then (load_gcpssh env conn self, ev)
        else ((Ok tt, self), ev)
    end.

(** ** _generate_ssh_key *)

Definition _generate_ssh_key (env : Env) (user : option string) : M (PKey * string) :=
  try_except
    (pkey_obj <- call (Ev_RSAKey_generate 2048) (fun h => env_RSAKey_generate env h 2048);;
     let pubkey :=
       get_name pkey_obj +:+ " " +:+ get_base64 pkey_obj +:+ " " +:+ py_str_opt user in
     ret (pkey_obj, pubkey))
    (fun err =>
       match err with
       | SSHException _ =>
           raise (AirflowException ("Error encountered creating ssh keys, " +:+ exc_str err))
       | OtherError cls _ =>
           if String.eqb cls "OSError"
           then raise (AirflowException ("Error encountered creating ssh keys, " +:+ exc_str err))
           else raise err
       | _ => raise err
       end).

(** ** _authorize_compute_engine_instance_metadata *)

(** The [for item in items: ... break / else: ...] search of lines
    318-325. *)
Inductive KeySearch : Type :=
| NoSshKeysItem
| Prepended (items' : list (gmap string string))
| SearchRaised (e : Exc).

Fixpoint prepend_to_ssh_keys (keys : string) (items : list (gmap string string))
  : KeySearch :=
  match items with
  | [] => NoSshKeysItem
  | item :: rest =>
      if decide (item !! "key" = Some "ssh-keys") then
        match item !! "value" with
        | Some v => Prepended (<["value" := keys +:+ v]> item :: rest)
        | None => SearchRaised (OtherError "KeyError" "'value'")
        end
      else
        match prepend_to_ssh_keys keys rest with
        | Prepended rest' => Prepended (item :: rest')
        | r => r
        end
  end.

(** Lines 317-325: the metadata after the key line [keys] is put in. *)
Definition add_keys_to_metadata (keys : string) (metadata : Metadata) : Result Metadata :=
  let items_ := default [] (items metadata) in
  match prepend_to_ssh_keys keys items_ with
  | Prepended items' =>
      Ok {| items := Some items'; other_entries := other_entries metadata |}
  | NoSshKeysItem =>
      let new_dict : gmap string string := <["key" := "ssh-keys"]> {["value" := keys]} in
      Ok {| items := Some (items_ ++ [new_dict]); other_entries := other_entries metadata |}
  | SearchRaised e => Raise e
  end.

Definition _authorize_compute_engine_instance_metadata
    (env : Env) (self : ComputeEngineSSHHook) (pubkey : string) : M unit :=
  instance_info <-
    call (Ev_get_instance_info (zone self) (instance_name self) (project_id self))
         (fun h => env_get_instance_info env h (zone self) (instance_name self) (project_id self));;
  keys <-
    match user self with
    | Some u => ret (u +:+ ":" +:+ pubkey +:+ Str.nl)
    | None =>
        raise (OtherError "TypeError" "unsupported operand type(s) for +: 'NoneType' and 'str'")
    end;;
  metadata <-
    match info_metadata instance_info with
    | Some m => ret m
    | None => raise (OtherError "KeyError" "'metadata'")
    end;;
  metadata <- of_result (add_keys_to_metadata keys metadata);;
  call (Ev_set_instance_metadata (zone self) (instance_name self) metadata (project_id self))
       (fun h => env_set_instance_metadata env h (zone self) (instance_name self) metadata
                   (project_id self)).

(** ** _authorize_os_login *)

(** Line 334: [int((time.time() + self.expire_time) * 1000000)], in
    double-precision arithmetic. *)
Definition expiration_usec (now : float) (expire_time : Z) : Result Z :=
  match float_of_int expire_time with
  | Raise e => Raise e
  | Ok e => int_of_float (PrimFloat.mul (PrimFloat.add now e) 1000000%float)
  end.

Definition _authorize_os_login
    (env : Env) (self : ComputeEngineSSHHook) (pubkey : string) : M string :=
  username0 <- call Ev_get_credentials_email (env_get_credentials_email env);;
  now <- call Ev_time (fun h => Ok (env_time env h));;
  expiration <- of_result (expiration_usec now (expire_time self));;
  let ssh_public_key := {| key := pubkey; expiration_time_usec := expiration |} in
  response <-
    call (Ev_import_ssh_public_key username0 ssh_public_key (project_id self))
         (fun h => env_import_ssh_public_key env h username0 ssh_public_key (project_id self));;
  match posix_accounts response with
  | account :: _ => ret (username account)
  | [] => raise (OtherError "IndexError" "list index out of range")
  end.

(** ** _GCloudAuthorizedSSHClient *)

Module Client.

(** The number of the next authorization scope: how many were asked for
    so far. *)
Definition fresh_scope (h : Trace) : nat :=
  length (List.filter (fun ev => match ev with Ev_gcloud_enter _ _ => true | _ => false end) h).

Definition new : GCloudAuthorizedSSHClient := {| decorator := None |}.

(** [connect]: the scope is entered, then [super().connect] is called.
    Nothing is done when [super().connect] raises. *)
Definition connect (env : Env) (self : GCloudAuthorizedSSHClient)
    (hostname : string) (username : option string) (pkey : PKey)
    (sock : option ProxyCommand) (look_for_keys : bool)
  : Trace -> (Result unit * GCloudAuthorizedSSHClient) * Trace :=
  fun h =>
    let scope := fresh_scope h in
    let self := {| decorator := Some scope |} in
    match env_gcloud_enter env h with
    | Raise e => ((Raise e, self), [Ev_gcloud_enter scope false])
    | Ok _ =>
        let d := [Ev_gcloud_enter scope true] in
        ((env_connect env (h ++ d) hostname username pkey sock look_for_keys, self),
         d ++ [Ev_connect hostname username pkey sock look_for_keys])
    end.

Definition close (self : GCloudAuthorizedSSHClient)
  : Trace -> (Result unit * GCloudAuthorizedSSHClient) * Trace :=
  fun _ =>
    ((Ok tt, {| decorator := None |}),
     match decorator self with
     | Some scope => [Ev_gcloud_exit scope]
     | None => []
     end ++ [Ev_close]).

(** [__exit__]: the scope is left, and [super().__exit__] closes the
    client. *)
Definition __exit__ (self : GCloudAuthorizedSSHClient)
  : Trace -> (Result unit * GCloudAuthorizedSSHClient) * Trace :=
  fun h =>
    let d :=
      match decorator self with
      | Some scope => [Ev_gcloud_exit scope]
      | None => []
      end in
    let '((r, self'), d') := close {| decorator := None |} (h ++ d) in
    ((r, self'), d ++ d').

End Client.

(** The scopes entered and not left, oldest first. *)
Fixpoint open_scopes_from (opened : list nat) (t : Trace) : list nat :=
  match t with
  | [] => opened
  | Ev_gcloud_enter scope true :: rest => open_scopes_from (opened ++ [scope]) rest
  | Ev_gcloud_exit scope :: rest =>
      open_scopes_from (List.filter (fun s => negb (Nat.eqb s scope)) opened) rest
  | _ :: rest => open_scopes_from opened rest
  end.

Definition open_scopes (t : Trace) : list nat := open_scopes_from [] t.

(** ** _connect_to_instance *)

Definition max_time_to_wait : Z := 5.

(** Lines 290-301: one connect attempt, the body of the [try]. *)
Definition connect_attempt (env : Env) (user : option string) (hostname : string)
    (pkey : PKey) (proxy_command : option string) : M GCloudAuthorizedSSHClient :=
  let client := Client.new in
  sock <-
    match proxy_command with
    | Some cmd =>
        if truthy_str proxy_command
        then p <- call (Ev_ProxyCommand cmd) (fun h => env_ProxyCommand env h cmd);; ret (Some p)
        else ret None
    | None => ret None
    end;;
  fun h =>
    let '((r, client), d) := Client.connect env client hostname user pkey sock false h in
    match r with
    | Ok _ => (Ok client, d)
    | Raise e => (Raise e, d)
    end.

(** Lines 288-307: the loop over [time_to_wait]. *)
Fixpoint connect_loop (env : Env) (user : option string) (hostname : string)
    (pkey : PKey) (proxy_command : option string) (waits : list Z)
  : M GCloudAuthorizedSSHClient :=
  match waits with
  | [] => raise (AirflowException "Can not connect to instance")
  | time_to_wait :: rest =>
      r <- try_except
             (client <- connect_attempt env user hostname pkey proxy_command;;
              ret (Some client))
             (fun exc =>
                match exc with
                | SSHException _ =>
                    if time_to_wait =? max_time_to_wait then raise exc else ret None
                | _ => raise exc
                end);;
      match r with
      | Some client => ret client
      | None =>
          call (Ev_sleep InnerWait time_to_wait) (fun _ => Ok tt);;;
          connect_loop env user hostname pkey proxy_command rest
      end
  end.

Definition _connect_to_instance (env : Env) (user : option string) (hostname : string)
    (pkey : PKey) (proxy_command : option string) : M GCloudAuthorizedSSHClient :=
  connect_loop env user hostname pkey proxy_command (range (max_time_to_wait + 1)).

(** ** get_conn *)

Definition max_delay : Z := 10.

(** Lines 250-264: the tunnel command, or [None]. *)
Definition proxy_command_of (self : ComputeEngineSSHHook) : option string :=
  if use_iap_tunnel self then
    let proxy_command_args :=
      ["gcloud"; "compute"; "start-iap-tunnel"; py_str (instance_name self); "22";
       "--listen-on-stdin";
       "--project=" +:+ py_str_opt (project_id self);
       "--zone=" +:+ py_str (zone self);
       "--verbosity=warning"]
      ++ (if truthy_str (impersonation_chain self)
          then ["--impersonate-service-account=" +:+ py_str_opt (impersonation_chain self)]
          else []) in
    Some (Str.join " " (map shlex_quote proxy_command_args))
  else None.

(** Lines 244-265: one publish+handshake cycle, the body of the [try]. *)
Definition publish_and_connect (env : Env) (self : ComputeEngineSSHHook)
    (hostname : string) (privkey : PKey) (pubkey : string)
  : M GCloudAuthorizedSSHClient :=
  user <-
    (if use_oslogin self
     then u <- _authorize_os_login env self pubkey;; ret (Some u)
     else _authorize_compute_engine_instance_metadata env self pubkey;;; ret (user self));;
  let proxy_command := proxy_command_of self in
  _connect_to_instance env user hostname privkey proxy_command.

(** Lines 268-270: the condition of the first branch of the handler. *)
Definition precondition_failed (exc : Exc) : bool :=
  match exc with
  | HttpError status _ => status =? 412
  | AirflowException msg => Str.contains "412 PRECONDITION FAILED" msg
  | _ => false
  end.

(** Lines 242-280: the [for retry in range(self.max_retries + 1)] loop;
    the value is [sshclient] when the loop ends. *)
Fixpoint get_conn_loop (env : Env) (self : ComputeEngineSSHHook)
    (hostname : string) (privkey : PKey) (pubkey : string) (retries : list Z)
  : M (option GCloudAuthorizedSSHClient) :=
  match retries with
  | [] => ret None
  | retry :: rest =>
      try_except
        (sshclient <- publish_and_connect env self hostname privkey pubkey;;
         ret (Some sshclient))
        (fun exc =>
           match exc with
           | OtherError _ _ => raise exc
           | _ =>
               (if precondition_failed exc then ret tt
                else match exc with
                     | SSHException _ => ret tt
                     | _ => raise exc
                     end);;;
               if retry =? max_retries self
               then raise (AirflowException "Maximum retries exceeded. Aborting operation.")
               else
                 delay <- call (Ev_randint 0 max_delay)
                               (fun h => Ok (env_randint env h 0 max_delay));;
                 call (Ev_sleep OuterBackoff delay) (fun _ => Ok tt);;;
                 get_conn_loop env self hostname privkey pubkey rest
           end)
  end.

(** [not getattr(self, k)] for the three required attributes. *)
Definition attr_missing (self : ComputeEngineSSHHook) (k : string) : bool :=
  if String.eqb k "instance_name" then negb (truthy (instance_name self))
  else if String.eqb k "zone" then negb (truthy (zone self))
  else if String.eqb k "project_id" then negb (truthy_str (project_id self))
  else false.

Definition missing_fields (self : ComputeEngineSSHHook) : list string :=
  List.filter (attr_missing self) ["instance_name"; "zone"; "project_id"].

Definition missing_message (self : ComputeEngineSSHHook) : string :=
  "Required parameters are missing: " +:+ repr_str_list (missing_fields self)
  +:+ ". These parameters be passed either as keyword parameter or as extra field in Airflow connection definition. Both are not set!".

(** Line 212: [not self.instance_name or not self.zone or not
    self.project_id]. *)
Definition required_missing (self : ComputeEngineSSHHook) : bool :=
  negb (truthy (instance_name self)) || negb (truthy (zone self))
  || negb (truthy_str (project_id self)).

(** Lines 228-236: the address the session is opened to. *)
Definition resolve_hostname (env : Env) (self : ComputeEngineSSHHook) : M string :=
  if negb (truthy_str (hostname self)) then
    call (Ev_get_instance_address (zone self) (instance_name self) (project_id self)
            (use_internal_ip self || use_iap_tunnel self))
         (fun h => env_get_instance_address env h (zone self) (instance_name self)
                     (project_id self) (use_internal_ip self || use_iap_tunnel self))
  else ret (py_str_opt (hostname self)).

(** Lines 211-283: [get_conn] once the attributes of [self] are settled. *)
Definition get_conn_configured (env : Env) (self : ComputeEngineSSHHook)
  : M GCloudAuthorizedSSHClient :=
  if required_missing self
  then raise (AirflowException (missing_message self))
  else
    hostname <- resolve_hostname env self;;
    keypair <- _generate_ssh_key env (user self);;
    let '(privkey, pubkey) := keypair in
    sshclient <- get_conn_loop env self hostname privkey pubkey (range (max_retries self + 1));;
    match sshclient with
    | None => raise (AirflowException "Unable to establish SSH connection.")
    | Some sshclient => ret sshclient
    end.

(** Lines 208-209: the project of the Compute Engine hook, when [self]
    has none. *)
Definition default_project_id (env : Env) (self : ComputeEngineSSHHook)
  : Trace -> (Result unit * ComputeEngineSSHHook) * Trace :=
  fun h =>
    if negb (truthy_str (project_id self)) then
      match env_project_id env h with
      | Ok p => ((Ok tt, set_project_id p self), [Ev_project_id])
      | Raise e => ((Raise e, self), [Ev_project_id])
      end
    else ((Ok tt, self), []).

Definition get_conn (env : Env) (self : ComputeEngineSSHHook)
  : Trace -> (Result GCloudAuthorizedSSHClient * ComputeEngineSSHHook) * Trace :=
  fun h =>
    let '((r, self), d0) := _load_connection_config env self h in
    match r with
    | Raise e => ((Raise e, self), d0)
    | Ok _ =>
        let '((r, self), d1) := default_project_id env self (h ++ d0) in
        match r with
        | Raise e => ((Raise e, self), d0 ++ d1)
        | Ok _ =>
            let '(r, d2) := get_conn_configured env self (h ++ d0 ++ d1) in
            ((r, self), d0 ++ d1 ++ d2)
        end
    end.

(** The three flags of a hook. *)
Definition flags (self : ComputeEngineSSHHook) : bool * bool * bool :=
  (use_internal_ip self, use_iap_tunnel self, use_oslogin self).

(** ** Observations on a trace *)

Definition count (p : Event -> bool) (t : Trace) : nat := length (List.filter p t).

Definition is_keygen (ev : Event) : bool :=
  match ev with Ev_RSAKey_generate _ => true | _ => false end.

Definition is_connect (ev : Event) : bool :=
  match ev with Ev_connect _ _ _ _ _ => true | _ => false end.

Definition is_address_lookup (ev : Event) : bool :=
  match ev with Ev_get_instance_address _ _ _ _ => true | _ => false end.

(** The two calls of the backoff, lines 278 and 280. *)
Definition is_backoff (ev : Event) : bool :=
  match ev with
  | Ev_randint _ _ => true
  | Ev_sleep OuterBackoff _ => true
  | _ => false
  end.

(** The calls that publish a key. *)
Definition is_publish (ev : Event) : bool :=
  match ev with
  | Ev_import_ssh_public_key _ _ _ => true
  | Ev_set_instance_metadata _ _ _ _ => true
  | _ => false
  end.

(** What [get_conn] calls before it checks the required attributes. *)
Definition is_config_call (ev : Event) : bool :=
  match ev with
  | Ev_get_connection _ => true
  | Ev_project_id => true
  | _ => false
  end.

(** The seconds slept between connect attempts, in order. *)
Definition inner_waits (t : Trace) : list Z :=
  omap (fun ev => match ev with Ev_sleep InnerWait s => Some s | _ => None end) t.

(** The keys handed to the OS Login registry, in order. *)
Definition registered_keys (t : Trace) : list string :=
  omap (fun ev => match ev with
                  | Ev_import_ssh_public_key _ k _ => Some (key k)
                  | _ => None
                  end) t.

(** The first item of the list whose ["key"] is ["ssh-keys"]. *)
Fixpoint find_ssh_keys (items : list (gmap string string)) : option (gmap string string) :=
  match items with
  | [] => None
  | item :: rest =>
      if decide (item !! "key" = Some "ssh-keys") then Some item else find_ssh_keys rest
  end.

Definition ssh_keys_value (metadata : Metadata) : option string :=
  item ← find_ssh_keys (default [] (items metadata)); item !! "value".

(** The event publishes the public key [pubkey]: it registers it, or it
    writes metadata whose [ssh-keys] value starts with its line for
    [user]. *)
Definition publishes (user : option string) (pubkey : string) (ev : Event) : Prop :=
  match ev with
  | Ev_import_ssh_public_key _ k _ => key k = pubkey
  | Ev_set_instance_metadata _ _ metadata _ =>
      exists u old, user = Some u /\
        ssh_keys_value metadata = Some ((u +:+ ":" +:+ pubkey +:+ Str.nl) +:+ old)
  | _ => True
  end.

(** The event, when it is a connect call, is made to [address]. *)
Definition connects_to_address (address : string) (ev : Event) : Prop :=
  match ev with
  | Ev_connect hostname' _ _ _ _ => hostname' = address
  | _ => True
  end.

(** The event, when it is a connect call, logs in as [username]. *)
Definition connects_as (username : option string) (ev : Event) : Prop :=
  match ev with
  | Ev_connect _ username' _ _ _ => username' = username
  | _ => True
  end.

(** The calls one publish+handshake cycle can make. *)
Inductive cycle_event (self : ComputeEngineSSHHook) (hostname : string) (privkey : PKey)
    (pubkey : string) : Event -> Prop :=
| ce_credentials_email :
    use_oslogin self = true ->
    cycle_event self hostname privkey pubkey Ev_get_credentials_email
| ce_time :
    use_oslogin self = true ->
    cycle_event self hostname privkey pubkey Ev_time
| ce_import email k :
    use_oslogin self = true -> key k = pubkey ->
    cycle_event self hostname privkey pubkey
      (Ev_import_ssh_public_key email k (project_id self))
| ce_instance_info :
    use_oslogin self = false ->
    cycle_event self hostname privkey pubkey
      (Ev_get_instance_info (zone self) (instance_name self) (project_id self))
| ce_set_metadata metadata u old :
    use_oslogin self = false -> user self = Some u ->
    ssh_keys_value metadata = Some ((u +:+ ":" +:+ pubkey +:+ Str.nl) +:+ old) ->
    cycle_event self hostname privkey pubkey
      (Ev_set_instance_metadata (zone self) (instance_name self) metadata (project_id self))
| ce_proxy_command cmd :
    proxy_command_of self = Some cmd ->
    cycle_event self hostname privkey pubkey (Ev_ProxyCommand cmd)
| ce_gcloud_enter scope entered :
    cycle_event self hostname privkey pubkey (Ev_gcloud_enter scope entered)
| ce_connect username sock :
    cycle_event self hostname privkey pubkey
      (Ev_connect hostname username privkey sock false)
| ce_inner_wait seconds :
    0 <= seconds < max_time_to_wait ->
    cycle_event self hostname privkey pubkey (Ev_sleep InnerWait seconds).

(** The calls the retry loop of [get_conn] can make. *)
Inductive loop_event (self : ComputeEngineSSHHook) (hostname : string) (privkey : PKey)
    (pubkey : string) : Event -> Prop :=
| le_cycle ev :
    cycle_event self hostname privkey pubkey ev ->
    loop_event self hostname privkey pubkey ev
| le_randint :
    loop_event self hostname privkey pubkey (Ev_randint 0 max_delay)
| le_backoff delay :
    loop_event self hostname privkey pubkey (Ev_sleep OuterBackoff delay).

(** A failure after which [get_conn] goes on to the retry budget: a
    precondition failure of the metadata write, or a failure of the
    handshake. *)
Definition retryable (exc : Exc) : Prop :=
  (exists text, exc = HttpError 412 text)
  \/ (exists before after,
        exc = AirflowException (before +:+ "412 PRECONDITION FAILED" +:+ after))
  \/ (exists msg, exc = SSHException msg).

(** The handler of lines 267-275 catches the three classes and goes on
    to the retry budget for these failures, raising the others again. *)
Definition handled (exc : Exc) : bool :=
  precondition_failed exc || match exc with SSHException _ => true | _ => false end.

Definition max_retries_exceeded : Exc :=
  AirflowException "Maximum retries exceeded. Aborting operation.".

(** ** Properties of what a method adds to the history *)

Section Emits.

Context {A : Type}.

(** Every call a method adds to the history satisfies [P]. *)
Definition emits (P : Event -> Prop) (m : M A) : Prop :=
  forall h, Forall P (m h).2.

End Emits.

(** ** Scenarios *)

Module Scenario.

Definition vm1 : ComputeEngineSSHHook :=
  set_instance_name (PStr "vm1")
    (set_zone (PStr "us-central1-a") (init_defaults (Some "p1"))).

Definition key0 : PKey := {| get_name := "ssh-rsa"; get_base64 := "AAAAB3Nza0" |}.

Definition alice_item : gmap string string :=
  <["key" := "ssh-keys"]> {["value" := "alice:KEY1" +:+ Str.nl]}.

Definition alice_metadata : Metadata :=
  {| items := Some [alice_item]; other_entries := {["fingerprint" := "h0Zb9N1k"]} |}.

(** Collaborators that all answer; the [n]-th generated key has the
    text [AAAAB3Nza] followed by [n], and connect succeeds once
    [failing_connects] calls of it have failed. *)
Definition env (failing_connects : nat) (write : Result unit) : Env :=
  {| env_get_connection := fun _ _ =>
       Ok (Some {| conn_type := "google_cloud_platform"; login := None; host := None;
                   extra := None; extra_dejson := ∅ |});
     env_get_field := fun _ default => default;
     env_project_id := fun _ => Ok (Some "p1");
     env_get_instance_address := fun _ _ _ _ internal =>
       Ok (if internal then "10.128.0.2" else "34.72.10.5");
     env_get_instance_info := fun _ _ _ _ => Ok {| info_metadata := Some alice_metadata |};
     env_set_instance_metadata := fun _ _ _ _ _ => write;
     env_get_credentials_email := fun _ => Ok "sa@p1.iam.gserviceaccount.com";
     env_import_ssh_public_key := fun _ _ _ _ =>
       Ok {| posix_accounts := [ {| username := "sa_p1" |}; {| username := "ext_sa" |} ] |};
     env_time := fun _ => 1700000000.5%float;
     env_randint := fun _ a _ => a + 3;
     env_RSAKey_generate := fun h _ =>
       Ok {| get_name := "ssh-rsa"; get_base64 := "AAAAB3Nza" +:+ pretty (count is_keygen h) |};
     env_ProxyCommand := fun _ c => Ok {| command_line := c |};
     env_gcloud_enter := fun _ => Ok tt;
     env_connect := fun h _ _ _ _ _ =>
       if (count is_connect h <? failing_connects)%nat
       then Raise (SSHException "Error reading SSH protocol banner")
       else Ok tt |}.

(** A connection of type [gcpssh] without extra fields. *)
Definition gcpssh_env : Env :=
  {| env_get_connection := fun _ _ =>
       Ok (Some {| conn_type := "gcpssh"; login := None; host := None;
                   extra := None; extra_dejson := ∅ |});
     env_get_field := fun _ default => default;
     env_project_id := env_project_id (env 0 (Ok tt));
     env_get_instance_address := env_get_instance_address (env 0 (Ok tt));
     env_get_instance_info := env_get_instance_info (env 0 (Ok tt));
     env_set_instance_metadata := env_set_instance_metadata (env 0 (Ok tt));
     env_get_credentials_email := env_get_credentials_email (env 0 (Ok tt));
     env_import_ssh_public_key := env_import_ssh_public_key (env 0 (Ok tt));
     env_time := env_time (env 0 (Ok tt));
     env_randint := env_randint (env 0 (Ok tt));
     env_RSAKey_generate := env_RSAKey_generate (env 0 (Ok tt));
     env_ProxyCommand := env_ProxyCommand (env 0 (Ok tt));
     env_gcloud_enter := env_gcloud_enter (env 0 (Ok tt));
     env_connect := env_connect (env 0 (Ok tt)) |}.

End Scenario.

(** ** Further observations *)

(** The attributes [_load_connection_config] never assigns. *)
Definition kept_attributes (self : ComputeEngineSSHHook)
  : string * option string * Z * option string :=
  (gcp_conn_id self, project_id self, max_retries self, impersonation_chain self).

(** The attributes lines 180-184 assign. *)
Definition target_attributes (self : ComputeEngineSSHHook)
  : pyval * pyval * option string * option string :=
  (instance_name self, zone self, user self, hostname self).

(** The message of the [AirflowException] that [intify] raises. *)
Definition intify_message (key : string) (value : pyval) : string :=
  "The " +:+ key +:+ " field should be a integer. Current value: "
  +:+ Str.dq +:+ py_str value +:+ Str.dq +:+ " (type: " +:+ py_type value
  +:+ "). Please check the connection configuration.".

Definition is_project_call (ev : Event) : bool :=
  match ev with Ev_project_id => true | _ => false end.

(** The calls that leave a scope or close a client. *)
Definition is_release (ev : Event) : bool :=
  match ev with
  | Ev_gcloud_exit _ => true
  | Ev_close => true
  | _ => false
  end.

(** ** Further scenarios *)

Module Cases.

(** [env] with another answer of [_get_field]. *)
Definition with_get_field (get_field : string -> pyval -> pyval) (env : Env) : Env :=
  {| env_get_connection := env_get_connection env;
     env_get_field := get_field;
     env_project_id := env_project_id env;
     env_get_instance_address := env_get_instance_address env;
     env_get_instance_info := env_get_instance_info env;
     env_set_instance_metadata := env_set_instance_metadata env;
     env_get_credentials_email := env_get_credentials_email env;
     env_import_ssh_public_key := env_import_ssh_public_key env;
     env_time := env_time env;
     env_randint := env_randint env;
     env_RSAKey_generate := env_RSAKey_generate env;
     env_ProxyCommand := env_ProxyCommand env;
     env_gcloud_enter := env_gcloud_enter env;
     env_connect := env_connect env |}.

(** A [gcpssh] connection whose [expire_time] field reads [soon]. *)
Definition bad_expire_env : Env :=
  with_get_field
    (fun name default => if String.eqb name "expire_time" then PStr "soon" else default)
    Scenario.gcpssh_env.

(** [env] with another answer of [import_ssh_public_key]. *)
Definition with_import (answer : Trace -> string -> SshPublicKey -> option string -> Result ImportSshPublicKeyResponse) (env : Env) : Env :=
  {| env_get_connection := env_get_connection env;
     env_get_field := env_get_field env;
     env_project_id := env_project_id env;
     env_get_instance_address := env_get_instance_address env;
     env_get_instance_info := env_get_instance_info env;
     env_set_instance_metadata := env_set_instance_metadata env;
     env_get_credentials_email := env_get_credentials_email env;
     env_import_ssh_public_key := answer;
     env_time := env_time env;
     env_randint := env_randint env;
     env_RSAKey_generate := env_RSAKey_generate env;
     env_ProxyCommand := env_ProxyCommand env;
     env_gcloud_enter := env_gcloud_enter env;
     env_connect := env_connect env |}.

(** [env] with another answer of [RSAKey.generate]. *)
Definition with_keygen (answer : Trace -> Z -> Result PKey) (env : Env) : Env :=
  {| env_get_connection := env_get_connection env;
     env_get_field := env_get_field env;
     env_project_id := env_project_id env;
     env_get_instance_address := env_get_instance_address env;
     env_get_instance_info := env_get_instance_info env;
     env_set_instance_metadata := env_set_instance_metadata env;
     env_get_credentials_email := env_get_credentials_email env;
     env_import_ssh_public_key := env_import_ssh_public_key env;
     env_time := env_time env;
     env_randint := env_randint env;
     env_RSAKey_generate := answer;
     env_ProxyCommand := env_ProxyCommand env;
     env_gcloud_enter := env_gcloud_enter env;
     env_connect := env_connect env |}.


(** [env] whose [get_connection] returns [conn]. *)
Definition with_connection (conn : Connection) (env : Env) : Env :=
  {| env_get_connection := (fun _ _ => Ok (Some conn));
     env_get_field := env_get_field env;
     env_project_id := env_project_id env;
     env_get_instance_address := env_get_instance_address env;
     env_get_instance_info := env_get_instance_info env;
     env_set_instance_metadata := env_set_instance_metadata env;
     env_get_credentials_email := env_get_credentials_email env;
     env_import_ssh_public_key := env_import_ssh_public_key env;
     env_time := env_time env;
     env_randint := env_randint env;
     env_RSAKey_generate := env_RSAKey_generate env;
     env_ProxyCommand := env_ProxyCommand env;
     env_gcloud_enter := env_gcloud_enter env;
     env_connect := env_connect env |}.

(** A [gcpssh] connection that names the host. *)
Definition host_connection : Connection :=
  {| conn_type := "gcpssh"; login := Some "deploy"; host := Some "10.0.0.5";
     extra := None; extra_dejson := ∅ |}.

End Cases.

(** The calls of the handshake: the tunnel process, the authorization
    scope, the connect call and the wait between attempts. *)
Definition is_handshake (ev : Event) : bool :=
  match ev with
  | Ev_ProxyCommand _ => true
  | Ev_gcloud_enter _ _ => true
  | Ev_connect _ _ _ _ _ => true
  | Ev_sleep InnerWait _ => true
  | _ => false
  end.

(** Lines 244-248: the publishing step of a cycle, with the user the
    handshake logs in as. *)
Definition publish (env : Env) (self : ComputeEngineSSHHook) (pubkey : string)
  : M (option string) :=
  if use_oslogin self
  then u <- _authorize_os_login env self pubkey;; ret (Some u)
  else _authorize_compute_engine_instance_metadata env self pubkey;;; ret (user self).

(** The error [get_conn] raises when the loop ends without a client. *)
Definition unable_to_connect : Exc :=
  AirflowException "Unable to establish SSH connection.".

(** [env] whose metadata write is always rejected as a precondition
    failure, for the hook [vm1] publishing to the metadata. *)
Module Contention.

Definition env : Env := Scenario.env 0 (Raise (HttpError 412 "Precondition Failed")).

Definition hook (retries : Z) : ComputeEngineSSHHook :=
  set_use_oslogin false (set_max_retries retries Scenario.vm1).

End Contention.

(** A trace in which the connect calls and the scopes entered go in
    pairs: every connect call comes right after the entry of a scope,
    and every scope entered is followed at once by a connect call. *)
Inductive scoped : Trace -> Prop :=
| scoped_nil : scoped []
| scoped_other ev t :
    is_connect ev = false -> (forall scope, ev <> Ev_gcloud_enter scope true) ->
    scoped t -> scoped (ev :: t)
| scoped_connect scope hostname username pkey sock look_for_keys t :
    scoped t ->
    scoped (Ev_gcloud_enter scope true
            :: Ev_connect hostname username pkey sock look_for_keys :: t).

(** What a method adds to the history satisfies [Q]. *)
Definition adds {A} (Q : Trace -> Prop) (m : M A) : Prop := forall h, Q (m h).2.

(** The event agrees with [use_iap_tunnel]: a tunnel process is started
    only with the flag set, by the command of [proxy_command_of], and a
    connect call goes through a tunnel exactly when the flag is set. *)
Definition tunnelled (self : ComputeEngineSSHHook) (ev : Event) : Prop :=
  match ev with
  | Ev_ProxyCommand cmd => use_iap_tunnel self = true /\ proxy_command_of self = Some cmd
  | Ev_connect _ _ _ (Some _) _ => use_iap_tunnel self = true
  | Ev_connect _ _ _ None _ => use_iap_tunnel self = false
  | _ => True
  end.

(** * Properties *)

(** ** Strings *)

Lemma prefix_app (a b : string) :
  String.prefix a b = true <-> exists rest, b = a +:+ rest.
Proof.
  revert b. induction a as [|c a IH]; intros b; simpl.
  - split; [intros _; exists b; reflexivity | intros _; destruct b; reflexivity].
  - destruct b as [|c' b]; simpl.
    + split; [discriminate | intros [rest H]; discriminate].
    + destruct (Ascii.ascii_dec c c') as [->|Hne].
      * rewrite IH. split; intros [rest H]; exists rest; [rewrite H; reflexivity|].
        injection H as H. exact H.
      * split; [discriminate | intros [rest H]]. injection H as H1 H2. congruence.
Qed.

Lemma contains_unfold (needle hay : string) :
  Str.contains needle hay =
  if String.prefix needle hay then true
  else match hay with
       | EmptyString => false
       | String _ rest => Str.contains needle rest
       end.
Proof. destruct hay; reflexivity. Qed.

(** [Str.contains] decides whether the needle occurs in the string. *)
Lemma contains_app (needle hay : string) :
  Str.contains needle hay = true <->
  exists before after, hay = before +:+ needle +:+ after.
Proof.
  induction hay as [|c hay IH]; rewrite contains_unfold.
  - destruct (String.prefix needle EmptyString) eqn:Hp.
    + apply prefix_app in Hp as [rest Hp]. split; [intros _|reflexivity].
      exists EmptyString, rest. exact Hp.
    + split; [discriminate|]. intros [before [after H]].
      destruct before; simpl in H.
      * assert (String.prefix needle EmptyString = true) by (apply prefix_app; eauto).
        congruence.
      * discriminate.
  - destruct (String.prefix needle (String c hay)) eqn:Hp.
    + apply prefix_app in Hp as [rest Hp]. split; [intros _|reflexivity].
      exists EmptyString, rest. exact Hp.
    + rewrite IH. split.
      * intros [before [after H]]. exists (String c before), after. rewrite H. reflexivity.
      * intros [before [after H]]. destruct before as [|c' before]; simpl in H.
        -- assert (String.prefix needle (String c hay) = true) by (apply prefix_app; eauto).
           congruence.
        -- injection H as _ H. eauto.
Qed.

(** ** The monad *)

Lemma count_app p (a b : Trace) : count p (a ++ b) = (count p a + count p b)%nat.
Proof. unfold count. rewrite List.filter_app, length_app. reflexivity. Qed.

Lemma emits_ret {A} P (a : A) : emits P (ret a).
Proof. intros h. constructor. Qed.

Lemma emits_raise {A} P e : emits P (@raise A e).
Proof. intros h. constructor. Qed.

Lemma emits_of_result {A} P (r : Result A) : emits P (of_result r).
Proof. intros h. constructor. Qed.

Lemma emits_call {A} (P : Event -> Prop) ev (oracle : Trace -> Result A) :
  P ev -> emits P (call ev oracle).
Proof. intros H h. simpl. repeat constructor. exact H. Qed.

Lemma emits_bind {A B} P (m : M A) (f : A -> M B) :
  emits P m -> (forall a, emits P (f a)) -> emits P (bind m f).
Proof.
  intros Hm Hf h. unfold bind. specialize (Hm h).
  destruct (m h) as [[a|e] d]; simpl in *; [|exact Hm].
  specialize (Hf a (h ++ d)). destruct (f a (h ++ d)) as [r' d']; simpl in *.
  apply Forall_app; split; assumption.
Qed.

Lemma emits_try_except {A} P (m : M A) handler :
  emits P m -> (forall e, emits P (handler e)) -> emits P (try_except m handler).
Proof.
  intros Hm Hf h. unfold try_except. specialize (Hm h).
  destruct (m h) as [[a|e] d]; simpl in *; [exact Hm|].
  specialize (Hf e (h ++ d)). destruct (handler e (h ++ d)) as [r' d']; simpl in *.
  apply Forall_app; split; assumption.
Qed.

Lemma emits_impl {A} (P Q : Event -> Prop) (m : M A) :
  (forall ev, P ev -> Q ev) -> emits P m -> emits Q m.
Proof. intros HPQ H h. eapply Forall_impl; [|apply HPQ]. apply H. Qed.

(** ** Metadata injection *)

Lemma find_ssh_keys_app pre item post :
  find_ssh_keys pre = None -> item !! "key" = Some "ssh-keys" ->
  find_ssh_keys (pre ++ item :: post) = Some item.
Proof.
  intros Hpre Hkey. induction pre as [|x pre IH]; simpl in *.
  - rewrite decide_True by exact Hkey. reflexivity.
  - destruct (decide (x !! "key" = Some "ssh-keys")); [discriminate|]. auto.
Qed.

Lemma find_ssh_keys_snoc items_ item :
  find_ssh_keys items_ = None -> item !! "key" = Some "ssh-keys" ->
  find_ssh_keys (items_ ++ [item]) = Some item.
Proof. apply find_ssh_keys_app. Qed.

(** What the search of lines 318-325 does, by its three outcomes. *)
Lemma prepend_to_ssh_keys_spec keys (items_ : list (gmap string string)) :
  match prepend_to_ssh_keys keys items_ with
  | NoSshKeysItem => find_ssh_keys items_ = None
  | Prepended items' =>
      exists pre item v post,
        items_ = pre ++ item :: post /\ find_ssh_keys pre = None /\
        item !! "key" = Some "ssh-keys" /\ item !! "value" = Some v /\
        items' = pre ++ <["value" := keys +:+ v]> item :: post
  | SearchRaised _ =>
      exists item, find_ssh_keys items_ = Some item /\ item !! "value" = None
  end.
Proof.
  induction items_ as [|x rest IH]; simpl; [reflexivity|].
  destruct (decide (x !! "key" = Some "ssh-keys")) as [Hk|Hk].
  - destruct (x !! "value") as [v|] eqn:Hv.
    + exists [], x, v, rest. simpl. auto.
    + exists x. auto.
  - destruct (prepend_to_ssh_keys keys rest) as [|items'|e].
    + exact IH.
    + destruct IH as (pre & item & v & post & -> & Hpre & Hkey & Hval & ->).
      exists (x :: pre), item, v, post. simpl.
      rewrite decide_False by exact Hk. auto.
    + exact IH.
Qed.

Lemma add_keys_found keys metadata old :
  ssh_keys_value metadata = Some old ->
  exists pre item post,
    default [] (items metadata) = pre ++ item :: post /\
    add_keys_to_metadata keys metadata =
      Ok {| items := Some (pre ++ <["value" := keys +:+ old]> item :: post);
            other_entries := other_entries metadata |} /\
    ssh_keys_value {| items := Some (pre ++ <["value" := keys +:+ old]> item :: post);
                      other_entries := other_entries metadata |} = Some (keys +:+ old).
Proof.
  unfold ssh_keys_value, add_keys_to_metadata. intros Hold.
  pose proof (prepend_to_ssh_keys_spec keys (default [] (items metadata))) as Hs.
  destruct (prepend_to_ssh_keys keys (default [] (items metadata))) as [|items'|e].
  - rewrite Hs in Hold. discriminate.
  - destruct Hs as (pre & item & v & post & Heq & Hpre & Hkey & Hval & ->).
    rewrite Heq in Hold. rewrite (find_ssh_keys_app _ _ _ Hpre Hkey) in Hold.
    simpl in Hold. rewrite Hval in Hold. injection Hold as ->.
    exists pre, item, post. split; [exact Heq|]. split; [reflexivity|].
    simpl. rewrite find_ssh_keys_app; [|exact Hpre|].
    + simpl. apply lookup_insert_eq.
    + rewrite lookup_insert_ne by discriminate. exact Hkey.
  - destruct Hs as (item & Hfind & Hval). rewrite Hfind in Hold. simpl in Hold.
    rewrite Hval in Hold. discriminate.
Qed.

Lemma add_keys_not_found keys metadata :
  find_ssh_keys (default [] (items metadata)) = None ->
  add_keys_to_metadata keys metadata =
    Ok {| items := Some (default [] (items metadata)
                         ++ [<["key" := "ssh-keys"]> {["value" := keys]}]);
          other_entries := other_entries metadata |}.
Proof.
  unfold add_keys_to_metadata. intros Hnone.
  pose proof (prepend_to_ssh_keys_spec keys (default [] (items metadata))) as Hs.
  destruct (prepend_to_ssh_keys keys (default [] (items metadata))) as [|items'|e].
  - reflexivity.
  - destruct Hs as (pre & item & v & post & Heq & Hpre & Hkey & _).
    rewrite Heq, (find_ssh_keys_app _ _ _ Hpre Hkey) in Hnone. discriminate.
  - destruct Hs as (item & Hfind & _). congruence.
Qed.

(** The calls of [_authorize_compute_engine_instance_metadata] when the
    instance is read and the key line is put in. *)
Lemma authorize_metadata_trace env self pubkey h u info md md' :
  user self = Some u ->
  env_get_instance_info env h (zone self) (instance_name self) (project_id self) = Ok info ->
  info_metadata info = Some md ->
  add_keys_to_metadata (u +:+ ":" +:+ pubkey +:+ Str.nl) md = Ok md' ->
  _authorize_compute_engine_instance_metadata env self pubkey h =
    (env_set_instance_metadata env
       (h ++ [Ev_get_instance_info (zone self) (instance_name self) (project_id self)])
       (zone self) (instance_name self) md' (project_id self),
     [Ev_get_instance_info (zone self) (instance_name self) (project_id self);
      Ev_set_instance_metadata (zone self) (instance_name self) md' (project_id self)]).
Proof.
  intros Hu Hinfo Hmd Hadd.
  unfold _authorize_compute_engine_instance_metadata, bind, call, ret, of_result.
  rewrite Hinfo, Hu. simpl. rewrite Hmd. simpl. rewrite Hadd. simpl.
  rewrite !app_nil_r. reflexivity.
Qed.

(** C5: metadata injection puts the new entry first.  When the [ssh-keys]
    item of the instance metadata holds ["alice:KEY1\n"], injecting user
    [bob] with public key [KEY2] writes back ["bob:KEY2\nalice:KEY1\n"];
    in general the line [<user>:<public_key>\n] is put before the old
    value, which is kept as it was, and no other item changes; when no
    item has the key [ssh-keys], an item holding just that line is added
    after the existing items. *)
Theorem C5_metadata_injection_prepends env self pubkey h u info md :
  user self = Some u ->
  env_get_instance_info env h (zone self) (instance_name self) (project_id self) = Ok info ->
  info_metadata info = Some md ->
  let written md' :=
    (_authorize_compute_engine_instance_metadata env self pubkey h).2 =
      [Ev_get_instance_info (zone self) (instance_name self) (project_id self);
       Ev_set_instance_metadata (zone self) (instance_name self) md' (project_id self)] in
  let line := u +:+ ":" +:+ pubkey +:+ Str.nl in
  (u = "bob" -> pubkey = "KEY2" -> ssh_keys_value md = Some ("alice:KEY1" +:+ Str.nl) ->
   exists md', written md' /\
     ssh_keys_value md' = Some ("bob:KEY2" +:+ Str.nl +:+ "alice:KEY1" +:+ Str.nl))
  /\ (forall old, ssh_keys_value md = Some old ->
      exists pre item post,
        default [] (items md) = pre ++ item :: post /\
        let md' := {| items := Some (pre ++ <["value" := line +:+ old]> item :: post);
                      other_entries := other_entries md |} in
        written md' /\ ssh_keys_value md' = Some (line +:+ old))
  /\ (find_ssh_keys (default [] (items md)) = None ->
      written {| items := Some (default [] (items md)
                                ++ [<["key" := "ssh-keys"]> {["value" := line]}]);
                 other_entries := other_entries md |}).
Proof.
  intros Hu Hinfo Hmd written line.
  assert (Hgen : forall old, ssh_keys_value md = Some old ->
      exists pre item post,
        default [] (items md) = pre ++ item :: post /\
        let md' := {| items := Some (pre ++ <["value" := line +:+ old]> item :: post);
                      other_entries := other_entries md |} in
        written md' /\ ssh_keys_value md' = Some (line +:+ old)).
  { intros old Hold.
    destruct (add_keys_found line md old Hold) as (pre & item & post & Heq & Hadd & Hval).
    exists pre, item, post. split; [exact Heq|]. split; [|exact Hval].
    unfold written.
    rewrite (authorize_metadata_trace env self pubkey h u info md _ Hu Hinfo Hmd Hadd).
    reflexivity. }
  split; [|split].
  - intros -> -> Hold.
    destruct (Hgen _ Hold) as (pre & item & post & _ & Hw & Hval).
    eexists. split; [exact Hw|]. exact Hval.
  - exact Hgen.
  - intros Hnone. unfold written.
    rewrite (authorize_metadata_trace env self pubkey h u info md _ Hu Hinfo Hmd
               (add_keys_not_found line md Hnone)).
    reflexivity.
Qed.

Lemma C5_metadata_injection_prepends_witness :
  exists md',
    (_authorize_compute_engine_instance_metadata (Scenario.env 0 (Ok tt))
       (set_user (Some "bob") (set_use_oslogin false Scenario.vm1)) "KEY2" []).2 =
      [Ev_get_instance_info (PStr "us-central1-a") (PStr "vm1") (Some "p1");
       Ev_set_instance_metadata (PStr "us-central1-a") (PStr "vm1") md' (Some "p1")] /\
    ssh_keys_value md' = Some ("bob:KEY2" +:+ Str.nl +:+ "alice:KEY1" +:+ Str.nl).
Proof.
  refine (proj1 (C5_metadata_injection_prepends (Scenario.env 0 (Ok tt))
            (set_user (Some "bob") (set_use_oslogin false Scenario.vm1)) "KEY2" []
            "bob" {| info_metadata := Some Scenario.alice_metadata |} Scenario.alice_metadata
            eq_refl eq_refl eq_refl) eq_refl eq_refl _).
  vm_compute. reflexivity.
Defined.

Lemma emits_bind_strong {A B} P (m : M A) (f : A -> M B) :
  emits P m -> (forall a, (exists h, (m h).1 = Ok a) -> emits P (f a)) ->
  emits P (bind m f).
Proof.
  intros Hm Hf h. unfold bind. specialize (Hm h).
  destruct (m h) as [[a|e] d] eqn:Hmh; simpl in *; [|exact Hm].
  assert (Ha : exists h0, (m h0).1 = Ok a) by (exists h; rewrite Hmh; reflexivity).
  specialize (Hf a Ha (h ++ d)). destruct (f a (h ++ d)) as [r' d']; simpl in *.
  apply Forall_app; split; assumption.
Qed.

Ltac emits_step :=
  first
    [ apply emits_ret
    | apply emits_raise
    | apply emits_of_result
    | apply emits_call
    | apply emits_try_except; [|intros ?]
    | apply emits_bind; [|intros ?] ].

(** ** The calls of the handshake *)

Section Handshake.

Variable env : Env.
Variable P : Event -> Prop.
Variable user : option string.
Variable hostname : string.
Variable pkey : PKey.
Variable proxy_command : option string.

Hypothesis P_proxy : forall cmd, proxy_command = Some cmd -> P (Ev_ProxyCommand cmd).
Hypothesis P_enter : forall scope entered, P (Ev_gcloud_enter scope entered).
Hypothesis P_connect : forall sock, P (Ev_connect hostname user pkey sock false).

Lemma connect_attempt_emits :
  emits P (connect_attempt env user hostname pkey proxy_command).
Proof.
  unfold connect_attempt.
  apply emits_bind.
  - destruct proxy_command as [cmd|] eqn:Hp; [|apply emits_ret].
    destruct (truthy_str (Some cmd)); [|apply emits_ret].
    apply emits_bind; [apply emits_call; apply P_proxy; reflexivity|].
    intros p; apply emits_ret.
  - intros sock h. unfold Client.connect.
    destruct (env_gcloud_enter env h) as [[]|e]; simpl.
    + destruct (env_connect _ _ _ _ _ _ _); simpl; repeat constructor; auto.
    + repeat constructor; auto.
Qed.

(** An attempt is followed by a wait only when its handshake failed and
    it was not the last one. *)
Lemma connect_loop_swallows time_to_wait h :
  (try_except
     (client <- connect_attempt env user hostname pkey proxy_command;;
      ret (Some client))
     (fun exc =>
        match exc with
        | SSHException _ =>
            if time_to_wait =? max_time_to_wait then raise exc else ret None
        | _ => raise exc
        end) h).1 = Ok None ->
  time_to_wait <> max_time_to_wait.
Proof.
  unfold try_except, bind, ret, raise.
  destruct (connect_attempt env user hostname pkey proxy_command h) as [[c|e] d];
    simpl; [discriminate|].
  destruct e; simpl; try discriminate.
  destruct (time_to_wait =? max_time_to_wait) eqn:Hw; simpl; [discriminate|].
  intros _. apply Z.eqb_neq. exact Hw.
Qed.

Lemma connect_loop_emits waits :
  (forall w, In w waits -> w <> max_time_to_wait -> P (Ev_sleep InnerWait w)) ->
  emits P (connect_loop env user hostname pkey proxy_command waits).
Proof.
  induction waits as [|w waits IH]; intros Hwait; simpl; [apply emits_raise|].
  apply emits_bind_strong.
  - apply emits_try_except.
    + apply emits_bind; [apply connect_attempt_emits|intros c; apply emits_ret].
    + intros e. destruct e; try apply emits_raise.
      destruct (w =? max_time_to_wait); emits_step.
  - intros [c|] [h Hr]; [apply emits_ret|].
    apply connect_loop_swallows in Hr.
    apply emits_bind.
    + apply emits_call. apply Hwait; [left; reflexivity|exact Hr].
    + intros _. apply IH. intros w' Hin. apply Hwait. right. exact Hin.
Qed.

Lemma range_max_time_to_wait :
  range (max_time_to_wait + 1) = [0; 1; 2; 3; 4; 5].
Proof. reflexivity. Qed.

Lemma connect_to_instance_emits :
  (forall w, 0 <= w < max_time_to_wait -> P (Ev_sleep InnerWait w)) ->
  emits P (_connect_to_instance env user hostname pkey proxy_command).
Proof.
  intros Hwait. unfold _connect_to_instance. apply connect_loop_emits.
  rewrite range_max_time_to_wait. unfold max_time_to_wait in *.
  intros w Hin Hne. apply Hwait. simpl in Hin.
  destruct Hin as [<-|[<-|[<-|[<-|[<-|[<-|[]]]]]]]; lia.
Qed.

End Handshake.

(** ** The calls of one publish+handshake cycle *)

Lemma append_empty_r (s : string) : s +:+ EmptyString = s.
Proof.
  induction s as [|c s IH]; [reflexivity|].
  change (String c (s +:+ EmptyString) = String c s). f_equal. exact IH.
Qed.

Lemma add_keys_value keys metadata metadata' :
  add_keys_to_metadata keys metadata = Ok metadata' ->
  exists old, ssh_keys_value metadata' = Some (keys +:+ old).
Proof.
  destruct (find_ssh_keys (default [] (items metadata))) as [item|] eqn:Hfind.
  - destruct (item !! "value") as [old|] eqn:Hval.
    + destruct (add_keys_found keys metadata old) as (pre & it & post & _ & Hadd & Hv).
      { unfold ssh_keys_value. rewrite Hfind. simpl. exact Hval. }
      rewrite Hadd. intros [= <-]. eauto.
    + unfold add_keys_to_metadata.
      pose proof (prepend_to_ssh_keys_spec keys (default [] (items metadata))) as Hs.
      destruct (prepend_to_ssh_keys keys (default [] (items metadata))) as [|items'|e].
      * congruence.
      * destruct Hs as (pre & it & v & post & Heq & Hpre & Hkey & Hv & _).
        rewrite Heq, (find_ssh_keys_app _ _ _ Hpre Hkey) in Hfind. congruence.
      * discriminate.
  - rewrite (add_keys_not_found keys metadata Hfind). intros [= <-].
    exists EmptyString. unfold ssh_keys_value. simpl.
    rewrite find_ssh_keys_snoc; [|exact Hfind|reflexivity].
    rewrite append_empty_r. reflexivity.
Qed.

Section Cycle.

Variable env : Env.
Variable self : ComputeEngineSSHHook.
Variable hostname : string.
Variable privkey : PKey.
Variable pubkey : string.

Local Abbreviation cycle_ev := (cycle_event self hostname privkey pubkey).

Lemma authorize_os_login_events :
  use_oslogin self = true -> emits cycle_ev (_authorize_os_login env self pubkey).
Proof.
  intros Hos. unfold _authorize_os_login.
  apply emits_bind; [apply emits_call; constructor; exact Hos|intros email].
  apply emits_bind; [apply emits_call; constructor; exact Hos|intros now].
  apply emits_bind; [apply emits_of_result|intros expiration].
  apply emits_bind; [apply emits_call; constructor; [exact Hos|reflexivity]|intros response].
  destruct (posix_accounts response); emits_step.
Qed.

Lemma authorize_metadata_events :
  use_oslogin self = false ->
  emits cycle_ev (_authorize_compute_engine_instance_metadata env self pubkey).
Proof.
  intros Hos. unfold _authorize_compute_engine_instance_metadata.
  apply emits_bind; [apply emits_call; constructor; exact Hos|intros info].
  apply emits_bind_strong; [destruct (user self); emits_step|intros keys [h0 Hk]].
  destruct (user self) as [u|] eqn:Hu; [|discriminate].
  simpl in Hk. injection Hk as <-.
  apply emits_bind; [destruct (info_metadata info); emits_step|intros md].
  apply emits_bind_strong; [apply emits_of_result|intros md' [h1 Hmd']].
  simpl in Hmd'. apply add_keys_value in Hmd' as [old Hold].
  apply emits_call. econstructor; eauto.
Qed.

Lemma connect_to_instance_events user :
  emits cycle_ev (_connect_to_instance env user hostname privkey (proxy_command_of self)).
Proof.
  apply connect_to_instance_emits.
  - intros cmd Hcmd. constructor. exact Hcmd.
  - constructor.
  - constructor.
  - intros w Hw. constructor. exact Hw.
Qed.

Lemma publish_and_connect_events :
  emits cycle_ev (publish_and_connect env self hostname privkey pubkey).
Proof.
  unfold publish_and_connect.
  apply emits_bind; [|intros user; apply connect_to_instance_events].
  destruct (use_oslogin self) eqn:Hos.
  - apply emits_bind; [apply authorize_os_login_events; exact Hos|intros u; apply emits_ret].
  - apply emits_bind; [apply authorize_metadata_events; exact Hos|intros _; apply emits_ret].
Qed.

Lemma get_conn_loop_events retries :
  emits (loop_event self hostname privkey pubkey)
        (get_conn_loop env self hostname privkey pubkey retries).
Proof.
  induction retries as [|retry rest IH]; simpl; [apply emits_ret|].
  assert (Hgo : emits (loop_event self hostname privkey pubkey)
            (if retry =? max_retries self
             then raise max_retries_exceeded
             else
               delay <- call (Ev_randint 0 max_delay)
                             (fun h => Ok (env_randint env h 0 max_delay));;
               call (Ev_sleep OuterBackoff delay) (fun _ => Ok tt);;;
               get_conn_loop env self hostname privkey pubkey rest)).
  { destruct (retry =? max_retries self); [apply emits_raise|].
    apply emits_bind; [apply emits_call; apply le_randint|intros delay].
    apply emits_bind; [apply emits_call; apply le_backoff|intros _; exact IH]. }
  apply emits_try_except.
  - apply emits_bind; [|intros c; apply emits_ret].
    eapply emits_impl; [|apply publish_and_connect_events]. apply le_cycle.
  - intros exc. destruct exc; try apply emits_raise;
      (apply emits_bind; [|intros _; exact Hgo]);
      try (destruct (precondition_failed _)); emits_step.
Qed.

End Cycle.

(** ** The retry loop of [get_conn] *)

Lemma cycle_event_not_backoff self hostname privkey pubkey ev :
  cycle_event self hostname privkey pubkey ev -> is_backoff ev = false.
Proof. destruct 1; reflexivity. Qed.

Lemma loop_event_not_keygen self hostname privkey pubkey ev :
  loop_event self hostname privkey pubkey ev -> is_keygen ev = false.
Proof. destruct 1 as [ev []| |]; reflexivity. Qed.

Lemma loop_event_not_lookup self hostname privkey pubkey ev :
  loop_event self hostname privkey pubkey ev -> is_address_lookup ev = false.
Proof. destruct 1 as [ev []| |]; reflexivity. Qed.

Lemma loop_event_publishes self hostname privkey pubkey ev :
  loop_event self hostname privkey pubkey ev -> publishes (user self) pubkey ev.
Proof. destruct 1 as [ev []| |]; simpl; eauto. Qed.

Lemma count_none p (t : Trace) :
  Forall (fun ev => p ev = false) t -> count p t = 0%nat.
Proof.
  unfold count. induction 1 as [|ev t Hev _ IH]; simpl; [reflexivity|].
  rewrite Hev. exact IH.
Qed.

(** The handler goes on to the retry budget exactly for the retryable
    failures. *)
Lemma handled_retryable exc : handled exc = true <-> retryable exc.
Proof.
  unfold handled, retryable. destruct exc as [status text|msg|msg|cls msg]; simpl.
  - rewrite orb_false_r, Z.eqb_eq. split.
    + intros ->. left. eauto.
    + intros [[t [= -> _]]|[(b & a & [=])|[m [=]]]]. reflexivity.
  - rewrite orb_false_r, contains_app. split.
    + intros (b & a & ->). right. left. eauto.
    + intros [[t [=]]|[(b & a & [= ->])|[m [=]]]]. eauto.
  - split; [|reflexivity]. intros _. right. right. eauto.
  - split; [discriminate|]. intros [[t [=]]|[(b & a & [=])|[m [=]]]].
Qed.

(** One iteration of the loop whose cycle raised. *)
Lemma get_conn_loop_raised env self hostname privkey pubkey retry rest h exc d :
  publish_and_connect env self hostname privkey pubkey h = (Raise exc, d) ->
  get_conn_loop env self hostname privkey pubkey (retry :: rest) h =
    if handled exc then
      if retry =? max_retries self then (Raise max_retries_exceeded, d)
      else
        let backoff :=
          [Ev_randint 0 max_delay;
           Ev_sleep OuterBackoff (env_randint env (h ++ d) 0 max_delay)] in
        let next := get_conn_loop env self hostname privkey pubkey rest (h ++ d ++ backoff) in
        (next.1, d ++ backoff ++ next.2)
    else (Raise exc, d).
Proof.
  intros Hcycle. simpl. unfold try_except at 1. unfold bind at 1. rewrite Hcycle.
  unfold handled, bind, ret, raise, call.
  destruct exc as [status text|msg|msg|cls msg]; simpl;
    try (destruct (status =? 412)); try (destruct (Str.contains _ msg)); simpl;
    rewrite ?app_nil_r; try reflexivity;
    destruct (retry =? max_retries self); simpl; rewrite ?app_nil_r; try reflexivity;
    rewrite <- ?app_assoc; simpl;
    destruct (get_conn_loop env self hostname privkey pubkey rest _) as [r d2];
    simpl; rewrite <- ?app_assoc; reflexivity.
Qed.

(** C2: within one cycle of the retry loop of [get_conn], a raised
    exception leaves [get_conn] at once, unchanged and with no further
    call, if and only if it is not retryable; a retryable one (an
    [HttpError] of status 412, an [AirflowException] whose message
    contains [412 PRECONDITION FAILED], an [SSHException]) goes on to the
    retry budget: with retries left the backoff is slept and the next
    cycle runs, with none left the retries-exceeded error is raised. *)
Theorem C2_retry_iff_retryable env self hostname privkey pubkey retry rest h exc d :
  publish_and_connect env self hostname privkey pubkey h = (Raise exc, d) ->
  let loop := get_conn_loop env self hostname privkey pubkey in
  (loop (retry :: rest) h = (Raise exc, d) <-> ~ retryable exc)
  /\ (retryable exc -> retry <> max_retries self ->
      let backoff :=
        [Ev_randint 0 max_delay;
         Ev_sleep OuterBackoff (env_randint env (h ++ d) 0 max_delay)] in
      loop (retry :: rest) h =
        ((loop rest (h ++ d ++ backoff)).1, d ++ backoff ++ (loop rest (h ++ d ++ backoff)).2))
  /\ (retryable exc -> retry = max_retries self ->
      loop (retry :: rest) h = (Raise max_retries_exceeded, d)).
Proof.
  intros Hcycle loop. unfold loop.
  rewrite (get_conn_loop_raised _ _ _ _ _ retry rest _ _ _ Hcycle).
  rewrite <- handled_retryable.
  destruct (handled exc) eqn:Hh.
  - split; [|split].
    + split; [|intros Hn; exfalso; apply Hn; reflexivity].
      intros Heq Hfalse. destruct (retry =? max_retries self).
      * injection Heq as <-. discriminate Hh.
      * injection Heq as _ Heq. apply (f_equal length) in Heq.
        rewrite length_app in Heq. simpl in Heq. lia.
    + intros _ Hne. apply Z.eqb_neq in Hne. rewrite Hne. reflexivity.
    + intros _ Heq. apply Z.eqb_eq in Heq. rewrite Heq. reflexivity.
  - split; [|split]; try discriminate.
    split; [intros _; discriminate|reflexivity].
Qed.

Lemma C2_retry_iff_retryable_witness :
  get_conn_loop (Scenario.env 6 (Ok tt)) (set_max_retries 0 Scenario.vm1)
      "34.72.10.5" Scenario.key0 "ssh-rsa AAAAB3Nza0 root" [0] [] =
    (Raise max_retries_exceeded,
     (publish_and_connect (Scenario.env 6 (Ok tt)) (set_max_retries 0 Scenario.vm1)
        "34.72.10.5" Scenario.key0 "ssh-rsa AAAAB3Nza0 root" []).2).
Proof.
  refine (proj2 (proj2 (C2_retry_iff_retryable (Scenario.env 6 (Ok tt))
            (set_max_retries 0 Scenario.vm1) "34.72.10.5" Scenario.key0
            "ssh-rsa AAAAB3Nza0 root" 0 [] []
            (SSHException "Error reading SSH protocol banner") _ _)) _ eq_refl).
  - vm_compute. reflexivity.
  - right. right. eexists. reflexivity.
Defined.

(** C4: with [max_retries] 0, when the first publish+handshake cycle
    fails with a retryable failure, the loop of [get_conn] raises the
    retries-exceeded error having made the calls of that one cycle and
    no other: no random delay is drawn and no backoff is slept. *)
Theorem C4_zero_retries_no_backoff env self hostname privkey pubkey h exc d :
  max_retries self = 0 ->
  publish_and_connect env self hostname privkey pubkey h = (Raise exc, d) ->
  retryable exc ->
  get_conn_loop env self hostname privkey pubkey (range (max_retries self + 1)) h =
    (Raise max_retries_exceeded, d)
  /\ count is_backoff d = 0%nat.
Proof.
  intros Hmax Hcycle Hretry. split.
  - rewrite Hmax. change (range (0 + 1)) with [0].
    rewrite (get_conn_loop_raised _ _ _ _ _ 0 [] _ _ _ Hcycle).
    apply handled_retryable in Hretry. rewrite Hretry, Hmax. reflexivity.
  - apply count_none.
    pose proof (publish_and_connect_events env self hostname privkey pubkey h) as Hev.
    rewrite Hcycle in Hev. simpl in Hev.
    eapply Forall_impl; [exact Hev|]. intros ev. apply cycle_event_not_backoff.
Qed.

Lemma C4_zero_retries_no_backoff_witness :
  get_conn_loop (Scenario.env 0 (Raise (HttpError 412 "Precondition Failed")))
      (set_use_oslogin false (set_max_retries 0 Scenario.vm1))
      "34.72.10.5" Scenario.key0 "ssh-rsa AAAAB3Nza0 root" (range (0 + 1)) [] =
    (Raise max_retries_exceeded,
     (publish_and_connect (Scenario.env 0 (Raise (HttpError 412 "Precondition Failed")))
        (set_use_oslogin false (set_max_retries 0 Scenario.vm1))
        "34.72.10.5" Scenario.key0 "ssh-rsa AAAAB3Nza0 root" []).2)
  /\ count is_backoff
       (publish_and_connect (Scenario.env 0 (Raise (HttpError 412 "Precondition Failed")))
          (set_use_oslogin false (set_max_retries 0 Scenario.vm1))
          "34.72.10.5" Scenario.key0 "ssh-rsa AAAAB3Nza0 root" []).2 = 0%nat.
Proof.
  refine (C4_zero_retries_no_backoff
            (Scenario.env 0 (Raise (HttpError 412 "Precondition Failed")))
            (set_use_oslogin false (set_max_retries 0 Scenario.vm1))
            "34.72.10.5" Scenario.key0 "ssh-rsa AAAAB3Nza0 root" []
            (HttpError 412 "Precondition Failed") _ eq_refl _ _).
  - vm_compute. reflexivity.
  - left. eexists. reflexivity.
Defined.

(** ** [get_conn] as a whole *)

Lemma generate_ssh_key_trace env user h :
  (_generate_ssh_key env user h).2 = [Ev_RSAKey_generate 2048].
Proof.
  unfold _generate_ssh_key, try_except, bind, call, ret, raise.
  destruct (env_RSAKey_generate env h 2048) as [k|e]; simpl; [reflexivity|].
  destruct e; simpl; try reflexivity.
  destruct (String.eqb cls "OSError"); reflexivity.
Qed.

Lemma resolve_hostname_run env self h :
  resolve_hostname env self h =
    if truthy_str (hostname self) then (Ok (py_str_opt (hostname self)), [])
    else
      (env_get_instance_address env h (zone self) (instance_name self) (project_id self)
         (use_internal_ip self || use_iap_tunnel self),
       [Ev_get_instance_address (zone self) (instance_name self) (project_id self)
          (use_internal_ip self || use_iap_tunnel self)]).
Proof. unfold resolve_hostname. destruct (truthy_str (hostname self)); reflexivity. Qed.

(** The calls of [get_conn] once the attributes are settled: the address
    lookup if any, at most one key generation, then the calls of the
    retry loop for that address and that key. *)
Lemma get_conn_configured_calls env self h :
  required_missing self = false ->
  exists d_key d_loop hostname privkey pubkey,
    (get_conn_configured env self h).2 = (resolve_hostname env self h).2 ++ d_key ++ d_loop
    /\ (d_key = [] \/ d_key = [Ev_RSAKey_generate 2048])
    /\ Forall (loop_event self hostname privkey pubkey) d_loop
    /\ ((resolve_hostname env self h).1 = Ok hostname \/ d_loop = []).
Proof.
  unfold get_conn_configured. intros ->. unfold bind at 1.
  destruct (resolve_hostname env self h) as [[hn|e] d1]; simpl.
  - unfold bind at 1.
    pose proof (generate_ssh_key_trace env (user self) (h ++ d1)) as Hkey.
    destruct (_generate_ssh_key env (user self) (h ++ d1)) as [[[privkey pubkey]|e] d2];
      simpl in *; subst d2.
    + unfold bind.
      pose proof (get_conn_loop_events env self hn privkey pubkey
                    (range (max_retries self + 1))
                    ((h ++ d1) ++ [Ev_RSAKey_generate 2048])) as Hloop.
      destruct (get_conn_loop env self hn privkey pubkey _ _) as [[[c|]|e] d3];
        simpl in *; rewrite ?app_nil_r;
        exists [Ev_RSAKey_generate 2048], d3, hn, privkey, pubkey; auto.
    + exists [Ev_RSAKey_generate 2048], [], hn, Scenario.key0, EmptyString.
      simpl. auto.
  - exists [], [], EmptyString, Scenario.key0, EmptyString.
    simpl. rewrite app_nil_r. auto.
Qed.

Lemma get_conn_configured_missing env self h :
  required_missing self = true ->
  get_conn_configured env self h = (Raise (AirflowException (missing_message self)), []).
Proof. unfold get_conn_configured. intros ->. reflexivity. Qed.

Lemma load_connection_config_trace env self h :
  (_load_connection_config env self h).2 = [Ev_get_connection (gcp_conn_id self)].
Proof.
  unfold _load_connection_config.
  destruct (env_get_connection env h (gcp_conn_id self)) as [[conn|]|e]; try reflexivity.
  destruct (String.eqb (conn_type conn) "gcpssh"); reflexivity.
Qed.

Lemma default_project_id_trace env self h :
  Forall (fun ev => ev = Ev_project_id) (default_project_id env self h).2.
Proof.
  unfold default_project_id. destruct (negb (truthy_str (project_id self))); [|constructor].
  destruct (env_project_id env h); repeat constructor.
Qed.

(** [get_conn], stage by stage. *)
Lemma get_conn_run env self h :
  let loaded := _load_connection_config env self h in
  let defaulted := default_project_id env loaded.1.2 (h ++ loaded.2) in
  let configured := get_conn_configured env defaulted.1.2 (h ++ loaded.2 ++ defaulted.2) in
  get_conn env self h =
    match loaded.1.1 with
    | Raise e => ((Raise e, loaded.1.2), loaded.2)
    | Ok _ =>
        match defaulted.1.1 with
        | Raise e => ((Raise e, defaulted.1.2), loaded.2 ++ defaulted.2)
        | Ok _ => ((configured.1, defaulted.1.2), loaded.2 ++ defaulted.2 ++ configured.2)
        end
    end.
Proof.
  unfold get_conn.
  destruct (_load_connection_config env self h) as [[[[]|e] self1] d0]; simpl; [|reflexivity].
  destruct (default_project_id env self1 (h ++ d0)) as [[[[]|e] self2] d1]; simpl;
    [|reflexivity].
  destruct (get_conn_configured env self2 (h ++ d0 ++ d1)) as [r d2]. reflexivity.
Qed.

(** Putting the stages of [get_conn] together: what is called before the
    retry loop publishes nothing and generates at most one key, the loop
    generates none. *)
Lemma one_keypair_assembly (P : Event -> Prop) (d_config d_host d_key d_loop : Trace) :
  count is_keygen d_config = 0%nat -> count is_publish d_config = 0%nat ->
  count is_keygen d_host = 0%nat -> count is_publish d_host = 0%nat ->
  d_key = [] \/ d_key = [Ev_RSAKey_generate 2048] ->
  count is_keygen d_loop = 0%nat -> Forall P d_loop ->
  (count is_keygen (d_config ++ d_host ++ d_key ++ d_loop) <= 1)%nat
  /\ exists before cycles,
       d_config ++ d_host ++ d_key ++ d_loop = before ++ cycles
       /\ count is_publish before = 0%nat
       /\ count is_keygen cycles = 0%nat
       /\ Forall P cycles.
Proof.
  intros Hk1 Hp1 Hk2 Hp2 Hkey Hk3 HP.
  assert (Hgen : (count is_keygen d_key <= 1)%nat /\ count is_publish d_key = 0%nat).
  { destruct Hkey as [-> | ->]; split; unfold count; simpl; lia. }
  destruct Hgen as [Hk4 Hp4]. split.
  - rewrite !count_app, Hk1, Hk2, Hk3. lia.
  - exists (d_config ++ d_host ++ d_key), d_loop.
    split; [rewrite <- !app_assoc; reflexivity|].
    split; [rewrite !count_app, Hp1, Hp2, Hp4; reflexivity|].
    split; [exact Hk3|exact HP].
Qed.

(** C1, as the code has it: one call of [get_conn] generates at most one
    keypair, and it does so before the first publish+handshake cycle:
    the calls of [get_conn] split into a first part that publishes
    nothing and a second part, the cycles, that generates no key and in
    which every publish call publishes one and the same public key,
    whatever the number of cycles. *)
Theorem C1_one_keypair_per_get_conn env self h :
  let run := get_conn env self h in
  (count is_keygen run.2 <= 1)%nat
  /\ exists pubkey before cycles,
       run.2 = before ++ cycles
       /\ count is_publish before = 0%nat
       /\ count is_keygen cycles = 0%nat
       /\ Forall (publishes (user run.1.2) pubkey) cycles.
Proof.
  intros run. unfold run. rewrite get_conn_run.
  pose proof (load_connection_config_trace env self h) as Hd0.
  destruct (_load_connection_config env self h) as [[r0 self1] d0]. simpl in *. subst d0.
  set (d0 := [Ev_get_connection (gcp_conn_id self)]).
  assert (Hconfig : forall d1, Forall (fun ev => ev = Ev_project_id) d1 ->
            count is_keygen (d0 ++ d1) = 0%nat /\ count is_publish (d0 ++ d1) = 0%nat).
  { intros d1 Hd1. rewrite !count_app, !(count_none _ d1).
    - split; reflexivity.
    - eapply Forall_impl; [exact Hd1|]. intros ev ->. reflexivity.
    - eapply Forall_impl; [exact Hd1|]. intros ev ->. reflexivity. }
  assert (Hstop : forall self' d1, Forall (fun ev => ev = Ev_project_id) d1 ->
            (count is_keygen (d0 ++ d1) <= 1)%nat
            /\ exists pubkey before cycles,
                 d0 ++ d1 = before ++ cycles
                 /\ count is_publish before = 0%nat
                 /\ count is_keygen cycles = 0%nat
                 /\ Forall (publishes (user self') pubkey) cycles).
  { intros self' d1 Hd1. destruct (Hconfig d1 Hd1) as [Hk Hp]. split; [lia|].
    exists EmptyString, (d0 ++ d1), []. rewrite app_nil_r. repeat split; auto. }
  destruct r0 as [[]|e]; [|apply (Hstop self1 []); constructor].
  pose proof (default_project_id_trace env self1 (h ++ d0)) as Hd1.
  destruct (default_project_id env self1 (h ++ d0)) as [[r1 self2] d1]. simpl in Hd1.
  cbn [fst snd].
  destruct r1 as [[]|e]; [|apply (Hstop self2 d1 Hd1)].
  destruct (required_missing self2) eqn:Hmiss.
  { rewrite (get_conn_configured_missing _ _ _ Hmiss). cbn [fst snd].
    rewrite app_nil_r. apply (Hstop self2 d1 Hd1). }
  destruct (get_conn_configured_calls env self2 (h ++ d0 ++ d1) Hmiss)
    as (d_key & d_loop & hn & privkey & pubkey & -> & Hkey & Hloop & _).
  destruct (Hconfig d1 Hd1) as [Hk1 Hp1].
  assert (Hhost : count is_keygen (resolve_hostname env self2 (h ++ d0 ++ d1)).2 = 0%nat
                  /\ count is_publish (resolve_hostname env self2 (h ++ d0 ++ d1)).2 = 0%nat).
  { rewrite resolve_hostname_run.
    destruct (truthy_str (hostname self2)); split; reflexivity. }
  destruct Hhost as [Hk2 Hp2].
  assert (Hk3 : count is_keygen d_loop = 0%nat).
  { apply count_none. eapply Forall_impl; [exact Hloop|].
    intros ev. apply loop_event_not_keygen. }
  assert (Hp3 : Forall (publishes (user self2) pubkey) d_loop).
  { eapply Forall_impl; [exact Hloop|]. intros ev. apply loop_event_publishes. }
  rewrite (app_assoc d0 d1).
  pose proof (one_keypair_assembly (publishes (user self2) pubkey) (d0 ++ d1) _ d_key d_loop
                Hk1 Hp1 Hk2 Hp2 Hkey Hk3 Hp3) as [Hle Hsplit].
  split; [exact Hle|]. exists pubkey. exact Hsplit.
Qed.

(** C1 as stated fails: in the scenario of the handshake that fails once
    and then succeeds, the two cycles register the same public key, and
    one keypair was generated, although the generator would have given
    a different key at each call. *)
Lemma C1_counterexample :
  let d := (get_conn (Scenario.env 6 (Ok tt)) (set_max_retries 2 Scenario.vm1) []).2 in
  registered_keys d = ["ssh-rsa AAAAB3Nza0 root"; "ssh-rsa AAAAB3Nza0 root"]
  /\ count is_keygen d = 1%nat
  /\ ~ NoDup (registered_keys d).
Proof.
  vm_compute. split; [reflexivity|]. split; [reflexivity|].
  intros Hnd. inversion Hnd as [|x l Hin _]. apply Hin. left.
Qed.

Lemma loop_event_address self hostname privkey pubkey ev :
  loop_event self hostname privkey pubkey ev -> connects_to_address hostname ev.
Proof. destruct 1 as [ev []| |]; simpl; auto. Qed.

(** C7: once the attributes are settled, [get_conn] resolves the address
    as follows.  When [hostname] is set (a non-empty string), no call of
    [get_instance_address] is made and every connect call goes to exactly
    that string.  Otherwise the first call is [get_instance_address] for
    the zone, instance and project of the hook, asking for the internal
    address if and only if [use_internal_ip] or [use_iap_tunnel] is set;
    no second lookup follows, and every connect call goes to the address
    the lookup returned. *)
Theorem C7_address_resolution env self h :
  required_missing self = false ->
  let d := (get_conn_configured env self h).2 in
  (forall hn, hostname self = Some hn -> hn <> EmptyString ->
     resolve_hostname env self h = (Ok hn, [])
     /\ count is_address_lookup d = 0%nat
     /\ Forall (connects_to_address hn) d)
  /\ (truthy_str (hostname self) = false ->
      let internal := use_internal_ip self || use_iap_tunnel self in
      (internal = true <-> use_internal_ip self = true \/ use_iap_tunnel self = true)
      /\ exists d',
           d = Ev_get_instance_address (zone self) (instance_name self) (project_id self)
                 internal :: d'
           /\ count is_address_lookup d' = 0%nat
           /\ forall address,
                env_get_instance_address env h (zone self) (instance_name self)
                  (project_id self) internal = Ok address ->
                Forall (connects_to_address address) d').
Proof.
  intros Hreq d.
  destruct (get_conn_configured_calls env self h Hreq)
    as (d_key & d_loop & hn' & privkey & pubkey & Hd & Hkey & Hloop & Hhost).
  fold d in Hd. rewrite resolve_hostname_run in Hd, Hhost.
  assert (Hrest : count is_address_lookup (d_key ++ d_loop) = 0%nat).
  { rewrite count_app, (count_none _ d_loop).
    - destruct Hkey as [-> | ->]; reflexivity.
    - eapply Forall_impl; [exact Hloop|]. intros ev. apply loop_event_not_lookup. }
  assert (Hconn : forall address,
             d_loop = [] \/ hn' = address -> Forall (connects_to_address address) (d_key ++ d_loop)).
  { intros address Ha. apply Forall_app. split.
    - destruct Hkey as [-> | ->]; repeat constructor.
    - destruct Ha as [-> | <-]; [constructor|].
      eapply Forall_impl; [exact Hloop|]. intros ev. apply loop_event_address. }
  split.
  - intros hn Hhn Hne.
    assert (Ht : truthy_str (hostname self) = true).
    { rewrite Hhn. destruct hn; [contradiction|reflexivity]. }
    rewrite Ht in Hd, Hhost. rewrite resolve_hostname_run, Ht, Hhn. simpl in *.
    rewrite Hd. split; [reflexivity|]. split; [exact Hrest|].
    apply Hconn. destruct Hhost as [[= <-]|Hnil]; [|left; exact Hnil].
    right. rewrite Hhn. reflexivity.
  - intros Ht internal. rewrite Ht in Hd, Hhost. simpl in *. split.
    + unfold internal. rewrite orb_true_iff. reflexivity.
    + exists (d_key ++ d_loop). split; [exact Hd|]. split; [exact Hrest|].
      intros address Ha. apply Hconn. fold internal in Hhost. rewrite Ha in Hhost.
      destruct Hhost as [[= <-]|Hnil]; auto.
Qed.

Lemma C7_address_resolution_witness :
  resolve_hostname (Scenario.env 0 (Ok tt)) (set_hostname (Some "10.0.0.5") Scenario.vm1) [] =
    (Ok "10.0.0.5", [])
  /\ count is_address_lookup
       (get_conn_configured (Scenario.env 0 (Ok tt))
          (set_hostname (Some "10.0.0.5") Scenario.vm1) []).2 = 0%nat
  /\ Forall (connects_to_address "10.0.0.5")
       (get_conn_configured (Scenario.env 0 (Ok tt))
          (set_hostname (Some "10.0.0.5") Scenario.vm1) []).2.
Proof.
  refine (proj1 (C7_address_resolution (Scenario.env 0 (Ok tt))
            (set_hostname (Some "10.0.0.5") Scenario.vm1) [] eq_refl)
            "10.0.0.5" eq_refl _).
  discriminate.
Defined.

(** ** _load_connection_config *)

Lemma boolify_true (value : pyval) :
  _boolify value = true <->
  value = PBool true \/ exists s, value = PStr s /\ Str.lower s = "true".
Proof.
  destruct value as [|b|z|s]; simpl.
  - split; [discriminate|]. intros [[=]|(s & [=] & _)].
  - split; [intros ->; left; reflexivity|]. intros [[= ->]|(s & [=] & _)]. reflexivity.
  - split; [discriminate|]. intros [[=]|(s & [=] & _)].
  - destruct (String.eqb (Str.lower s) "false") eqn:Hf.
    + apply String.eqb_eq in Hf. split; [discriminate|].
      intros [[=]|(s' & [= <-] & Ht)]. rewrite Ht in Hf. discriminate.
    + destruct (String.eqb (Str.lower s) "true") eqn:Ht.
      * apply String.eqb_eq in Ht. split; [|reflexivity]. intros _. right. eauto.
      * apply String.eqb_neq in Ht. split; [discriminate|].
        intros [[=]|(s' & [= <-] & Ht')]. contradiction.
Qed.

Lemma load_cmd_timeout_flags conn self :
  flags (load_cmd_timeout conn self).2 = flags self.
Proof. unfold load_cmd_timeout. repeat case_match; reflexivity. Qed.

Lemma load_gcpssh_flags env conn self :
  flags (load_gcpssh env conn self).2 =
    (_boolify (env_get_field env "use_internal_ip" PNone),
     _boolify (env_get_field env "use_iap_tunnel" PNone),
     _boolify (env_get_field env "use_oslogin" PNone)).
Proof.
  unfold load_gcpssh. cbv zeta.
  match goal with
  | |- context [intify ?k ?v (expire_time ?s)] =>
      assert (Hflags : flags s =
                (_boolify (env_get_field env "use_internal_ip" PNone),
                 _boolify (env_get_field env "use_iap_tunnel" PNone),
                 _boolify (env_get_field env "use_oslogin" PNone))) by reflexivity;
      revert Hflags; generalize s
  end.
  intros self3 Hflags.
  destruct (intify _ _ _) as [t|e]; [|exact Hflags].
  pose proof (load_cmd_timeout_flags conn (set_expire_time t self3)) as Hcmd.
  change (flags (set_expire_time t self3)) with (flags self3) in Hcmd.
  destruct (load_cmd_timeout conn (set_expire_time t self3)) as [[[]|e] self4];
    cbn [snd] in *; rewrite <- Hflags, <- Hcmd; [|reflexivity].
  destruct (cmd_timeout self4); reflexivity.
Qed.

(** C9: for a connection of type [gcpssh], [_load_connection_config]
    assigns the three flags from the extra fields whatever they held
    before: each becomes [_boolify] of the field, which is true only for
    the bool [True] and for a string that reads [true] when lowered, so
    every other value, [None] of an absent field included, gives [False];
    a [use_oslogin] given as [True] to the constructor is replaced by
    [False] when the field is absent. *)
Theorem C9_gcpssh_flags_overwritten env self h conn :
  env_get_connection env h (gcp_conn_id self) = Ok (Some conn) ->
  conn_type conn = "gcpssh" ->
  let self' := (_load_connection_config env self h).1.2 in
  use_internal_ip self' = _boolify (env_get_field env "use_internal_ip" PNone)
  /\ use_iap_tunnel self' = _boolify (env_get_field env "use_iap_tunnel" PNone)
  /\ use_oslogin self' = _boolify (env_get_field env "use_oslogin" PNone)
  /\ (forall value,
        _boolify value = true <->
        value = PBool true \/ exists s, value = PStr s /\ Str.lower s = "true")
  /\ (env_get_field env "use_oslogin" PNone = PNone -> use_oslogin self' = false).
Proof.
  intros Hconn Htype self'.
  assert (Hflags :
    use_internal_ip self' = _boolify (env_get_field env "use_internal_ip" PNone)
    /\ use_iap_tunnel self' = _boolify (env_get_field env "use_iap_tunnel" PNone)
    /\ use_oslogin self' = _boolify (env_get_field env "use_oslogin" PNone)).
  { pose proof (load_gcpssh_flags env conn self) as Hf.
    unfold self', _load_connection_config. rewrite Hconn, Htype.
    change (String.eqb "gcpssh" "gcpssh") with true. cbv iota.
    unfold flags in Hf. simpl. injection Hf as -> -> ->. auto. }
  destruct Hflags as (H1 & H2 & H3).
  split; [exact H1|]. split; [exact H2|]. split; [exact H3|].
  split; [apply boolify_true|].
  intros Habsent. rewrite H3, Habsent. reflexivity.
Qed.

Lemma C9_gcpssh_flags_overwritten_witness :
  use_oslogin (init_defaults None) = true
  /\ use_oslogin (_load_connection_config Scenario.gcpssh_env (init_defaults None) []).1.2
     = false.
Proof.
  split; [reflexivity|].
  exact (proj2 (proj2 (proj2 (proj2
           (C9_gcpssh_flags_overwritten Scenario.gcpssh_env (init_defaults None) []
              {| conn_type := "gcpssh"; login := None; host := None;
                 extra := None; extra_dejson := ∅ |} eq_refl eq_refl)))) eq_refl).
Defined.

(** ** Missing attributes *)

Lemma missing_fields_spec self k :
  In k (missing_fields self) <->
  (k = "instance_name" /\ truthy (instance_name self) = false)
  \/ (k = "zone" /\ truthy (zone self) = false)
  \/ (k = "project_id" /\ truthy_str (project_id self) = false).
Proof.
  unfold missing_fields. rewrite filter_In. split.
  - intros [Hin Hmiss]. simpl in Hin.
    destruct Hin as [<-|[<-|[<-|[]]]]; apply negb_true_iff in Hmiss; auto.
  - intros [[-> H]|[[-> H]|[-> H]]]; (split; [simpl; auto|]);
      apply negb_true_iff; exact H.
Qed.

(** C10: when, once the connection is loaded and the project defaulted,
    one of [instance_name], [zone], [project_id] is unset, [get_conn]
    raises an [AirflowException] whose message lists the missing names
    and only them; up to then it has called only [get_connection] and
    the project of the Compute Engine hook: no address lookup, no key
    generation, no publish, no connect, no sleep. *)
Theorem C10_missing_fields_raise env self h :
  let loaded := _load_connection_config env self h in
  let defaulted := default_project_id env loaded.1.2 (h ++ loaded.2) in
  let self' := defaulted.1.2 in
  loaded.1.1 = Ok tt -> defaulted.1.1 = Ok tt ->
  truthy (instance_name self') = false \/ truthy (zone self') = false
  \/ truthy_str (project_id self') = false ->
  get_conn env self h =
    ((Raise (AirflowException
       ("Required parameters are missing: " +:+ repr_str_list (missing_fields self')
        +:+ ". These parameters be passed either as keyword parameter or as extra field in Airflow connection definition. Both are not set!")),
      self'),
     loaded.2 ++ defaulted.2)
  /\ (forall k, In k (missing_fields self') <->
        (k = "instance_name" /\ truthy (instance_name self') = false)
        \/ (k = "zone" /\ truthy (zone self') = false)
        \/ (k = "project_id" /\ truthy_str (project_id self') = false))
  /\ Forall (fun ev => is_config_call ev = true) (loaded.2 ++ defaulted.2).
Proof.
  intros loaded defaulted self' Hload Hdef Hunset.
  assert (Hmiss : required_missing self' = true).
  { unfold required_missing.
    destruct Hunset as [-> | [-> | ->]]; simpl; rewrite ?orb_true_r; reflexivity. }
  split; [|split].
  - rewrite get_conn_run. fold loaded. rewrite Hload. fold defaulted. rewrite Hdef.
    fold self'. rewrite (get_conn_configured_missing _ _ _ Hmiss). simpl.
    rewrite app_nil_r. reflexivity.
  - apply missing_fields_spec.
  - apply Forall_app. split.
    + unfold loaded. rewrite load_connection_config_trace. repeat constructor.
    + eapply Forall_impl; [apply default_project_id_trace|]. intros ev ->. reflexivity.
Qed.

Lemma C10_missing_fields_raise_witness :
  get_conn (Scenario.env 0 (Ok tt)) (init_defaults None) [] =
    ((Raise (AirflowException
       ("Required parameters are missing: ['instance_name', 'zone']"
        +:+ ". These parameters be passed either as keyword parameter or as extra field in Airflow connection definition. Both are not set!")),
      init_defaults (Some "p1")),
     [Ev_get_connection "google_cloud_default"; Ev_project_id]).
Proof.
  exact (proj1 (C10_missing_fields_raise (Scenario.env 0 (Ok tt)) (init_defaults None) []
                  eq_refl eq_refl (or_introl eq_refl))).
Defined.

(** ** OS Login *)

(** C8: with the login registry, the key is registered under the
    credentials' email with the expiration [int((now + expire_time) *
    1000000)], [now] being the clock read after the email, and the user
    returned is the [username] of the first POSIX account of the login
    profile; a cycle that uses OS Login makes every connect call as that
    user. *)
Theorem C8_os_login_registration env self pubkey h email e usec response account others :
  env_get_credentials_email env h = Ok email ->
  let now := env_time env (h ++ [Ev_get_credentials_email]) in
  float_of_int (expire_time self) = Ok e ->
  int_of_float (PrimFloat.mul (PrimFloat.add now e) 1000000%float) = Ok usec ->
  let ssh_public_key := {| key := pubkey; expiration_time_usec := usec |} in
  env_import_ssh_public_key env (h ++ [Ev_get_credentials_email; Ev_time]) email
    ssh_public_key (project_id self) = Ok response ->
  posix_accounts response = account :: others ->
  _authorize_os_login env self pubkey h =
    (Ok (username account),
     [Ev_get_credentials_email; Ev_time;
      Ev_import_ssh_public_key email ssh_public_key (project_id self)])
  /\ (use_oslogin self = true ->
      forall hostname privkey,
        Forall (connects_as (Some (username account)))
               (publish_and_connect env self hostname privkey pubkey h).2).
Proof.
  intros Hemail now He Husec ssh_public_key Himport Haccounts.
  assert (Hrun : _authorize_os_login env self pubkey h =
    (Ok (username account),
     [Ev_get_credentials_email; Ev_time;
      Ev_import_ssh_public_key email ssh_public_key (project_id self)])).
  { unfold _authorize_os_login, bind, call, of_result, ret, expiration_usec.
    rewrite Hemail. simpl. rewrite He. fold now. rewrite Husec. simpl.
    rewrite app_nil_r, <- app_assoc. simpl. unfold ssh_public_key in *.
    rewrite Himport, Haccounts. reflexivity. }
  split; [exact Hrun|].
  intros Hos hostname privkey. unfold publish_and_connect. rewrite Hos.
  unfold bind at 1. unfold bind at 1. rewrite Hrun. unfold ret at 1. cbv iota beta.
  pose proof (connect_to_instance_emits env (connects_as (Some (username account)))
                (Some (username account)) hostname privkey (proxy_command_of self)) as Hc.
  match goal with
  | |- context [_connect_to_instance _ _ _ _ _ ?h0] =>
      specialize (Hc (fun _ _ => I) (fun _ _ => I) (fun _ => eq_refl) (fun _ _ => I) h0);
      destruct (_connect_to_instance env (Some (username account)) hostname privkey
                  (proxy_command_of self) h0) as [r d]
  end.
  simpl in *. repeat constructor. exact Hc.
Qed.

Lemma C8_os_login_registration_witness :
  _authorize_os_login (Scenario.env 0 (Ok tt)) Scenario.vm1 "ssh-rsa AAAAB3Nza0 root" [] =
    (Ok "sa_p1",
     [Ev_get_credentials_email; Ev_time;
      Ev_import_ssh_public_key "sa@p1.iam.gserviceaccount.com"
        {| key := "ssh-rsa AAAAB3Nza0 root"; expiration_time_usec := 1700000300500000 |}
        (Some "p1")]).
Proof.
  refine (proj1 (C8_os_login_registration (Scenario.env 0 (Ok tt)) Scenario.vm1
            "ssh-rsa AAAAB3Nza0 root" [] "sa@p1.iam.gserviceaccount.com" 300%float
            1700000300500000
            {| posix_accounts := [ {| username := "sa_p1" |}; {| username := "ext_sa" |} ] |}
            {| username := "sa_p1" |} [ {| username := "ext_sa" |} ]
            eq_refl _ _ eq_refl eq_refl)).
  - vm_compute. reflexivity.
  - vm_compute. reflexivity.
Defined.

(** ** The schedule of the handshake loop *)

Lemma inner_waits_app (a b : Trace) : inner_waits (a ++ b) = inner_waits a ++ inner_waits b.
Proof. unfold inner_waits. apply omap_app. Qed.

Section Schedule.

Variable env : Env.
Variable user : option string.
Variable hostname : string.
Variable pkey : PKey.
Variable proxy_command : option string.

(** The tunnel process starts and the authorization scope is entered
    whenever asked. *)
Hypothesis proxy_starts : forall h cmd, exists p, env_ProxyCommand env h cmd = Ok p.
Hypothesis scope_enters : forall h, env_gcloud_enter env h = Ok tt.

(** One iteration of the loop of [_connect_to_instance]. *)
Lemma connect_loop_cons time_to_wait rest h :
  connect_loop env user hostname pkey proxy_command (time_to_wait :: rest) h =
    let attempt := connect_attempt env user hostname pkey proxy_command h in
    match attempt.1 with
    | Ok client => (Ok client, attempt.2)
    | Raise (SSHException msg) =>
        if time_to_wait =? max_time_to_wait then (Raise (SSHException msg), attempt.2)
        else
          let next := connect_loop env user hostname pkey proxy_command rest
                        (h ++ attempt.2 ++ [Ev_sleep InnerWait time_to_wait]) in
          (next.1, attempt.2 ++ Ev_sleep InnerWait time_to_wait :: next.2)
    | Raise exc => (Raise exc, attempt.2)
    end.
Proof.
  cbn [connect_loop]. unfold bind at 1. unfold try_except at 1. unfold bind at 1.
  destruct (connect_attempt env user hostname pkey proxy_command h) as [[c|e] d];
    cbn [fst snd].
  - unfold ret. cbn. rewrite !app_nil_r. reflexivity.
  - destruct e; unfold raise; cbn; rewrite ?app_nil_r; try reflexivity.
    destruct (time_to_wait =? max_time_to_wait); cbn; rewrite ?app_nil_r; [reflexivity|].
    unfold bind, call. cbn. rewrite <- ?app_assoc.
    destruct (connect_loop env user hostname pkey proxy_command rest _) as [r2 d2].
    cbn. rewrite <- ?app_assoc. reflexivity.
Qed.

(** One attempt makes one connect call, answered by the handshake at a
    history with as many connect calls as before. *)
Lemma connect_attempt_once h :
  exists h' sock,
    count is_connect h' = count is_connect h
    /\ count is_connect (connect_attempt env user hostname pkey proxy_command h).2 = 1%nat
    /\ inner_waits (connect_attempt env user hostname pkey proxy_command h).2 = []
    /\ match env_connect env h' hostname user pkey sock false with
       | Ok _ => exists c, (connect_attempt env user hostname pkey proxy_command h).1 = Ok c
       | Raise e => (connect_attempt env user hostname pkey proxy_command h).1 = Raise e
       end.
Proof.
  assert (Hcount : forall t,
            count is_connect (t ++ [Ev_gcloud_enter (Client.fresh_scope t) true]) =
            count is_connect t).
  { intros t. rewrite count_app. unfold count at 2. simpl. lia. }
  unfold connect_attempt, bind, Client.connect.
  destruct proxy_command as [cmd|]; [destruct (truthy_str (Some cmd))|].
  - unfold call, ret. destruct (proxy_starts h cmd) as [p Hp]. rewrite Hp.
    cbn [fst snd]. rewrite !app_nil_r, scope_enters.
    exists ((h ++ [Ev_ProxyCommand cmd])
            ++ [Ev_gcloud_enter (Client.fresh_scope (h ++ [Ev_ProxyCommand cmd])) true]),
           (Some p).
    rewrite Hcount, count_app.
    destruct (env_connect env _ hostname user pkey (Some p) false); cbn [fst snd];
      repeat split; eauto; unfold count; simpl; lia.
  - unfold ret. cbn [fst snd]. rewrite !app_nil_r, scope_enters.
    exists (h ++ [Ev_gcloud_enter (Client.fresh_scope h) true]), None.
    rewrite Hcount.
    destruct (env_connect env _ hostname user pkey None false); cbn [fst snd];
      repeat split; eauto.
  - unfold ret. cbn [fst snd]. rewrite !app_nil_r, scope_enters.
    exists (h ++ [Ev_gcloud_enter (Client.fresh_scope h) true]), None.
    rewrite Hcount.
    destruct (env_connect env _ hostname user pkey None false); cbn [fst snd];
      repeat split; eauto.
Qed.

(** The handshake fails with an [SSHException] on the first [fails]
    connect calls counted from [start], and succeeds on the next. *)
Variable start fails : nat.

Hypothesis handshake_fails :
  forall h a u k s l, (count is_connect h < start + fails)%nat ->
    exists msg, env_connect env h a u k s l = Raise (SSHException msg).
Hypothesis handshake_succeeds :
  forall h a u k s l, count is_connect h = (start + fails)%nat ->
    env_connect env h a u k s l = Ok tt.

Lemma connect_loop_schedule n : forall i h,
  (i + S n = 6)%nat -> count is_connect h = (start + i)%nat -> (i <= fails)%nat ->
  let run := connect_loop env user hostname pkey proxy_command
               (map Z.of_nat (seq i (S n))) h in
  count is_connect run.2 = Nat.min (fails + 1 - i) (S n)
  /\ inner_waits run.2 = map Z.of_nat (seq i (Nat.min (fails - i) n))
  /\ ((fails < i + S n)%nat -> exists c, run.1 = Ok c)
  /\ ((i + S n <= fails)%nat -> exists msg, run.1 = Raise (SSHException msg)).
Proof.
  induction n as [|n IH]; intros i h Hlen Hcount Hi run.
  all: unfold run; clear run;
    change (map Z.of_nat (seq i (S ?m))) with (Z.of_nat i :: map Z.of_nat (seq (S i) m));
    rewrite connect_loop_cons; cbv zeta;
    destruct (connect_attempt_once h) as (h' & sock & Hh' & Hc1 & Hw1 & Hres);
    destruct (connect_attempt env user hostname pkey proxy_command h) as [r d];
    cbn [fst snd] in *; rewrite Hcount in Hh'.
  - (* the last attempt *)
    assert (i = 5)%nat as -> by lia.
    destruct (Nat.eq_dec fails 5%nat) as [->|Hne].
    + rewrite (handshake_succeeds h' _ _ _ _ _ Hh') in Hres. destruct Hres as [c ->].
      cbn [fst snd]. rewrite Hc1, Hw1. repeat split; eauto; lia.
    + destruct (handshake_fails h' hostname user pkey sock false) as [msg Hmsg]; [lia|].
      rewrite Hmsg in Hres. subst r.
      change (Z.of_nat 5 =? max_time_to_wait) with true. cbn [fst snd].
      rewrite Hc1, Hw1.
      replace (Nat.min (fails - 5) 0)%nat with 0%nat by lia.
      replace (Nat.min (fails + 1 - 5) 1)%nat with 1%nat by lia.
      repeat split; eauto; lia.
  - destruct (Nat.eq_dec fails i) as [->|Hne].
    + rewrite (handshake_succeeds h' _ _ _ _ _ Hh') in Hres. destruct Hres as [c ->].
      cbn [fst snd]. rewrite Hc1, Hw1.
      replace (Nat.min (i + 1 - i) (S (S n)))%nat with 1%nat by lia.
      replace (Nat.min (i - i) (S n))%nat with 0%nat by lia.
      repeat split; eauto; lia.
    + destruct (handshake_fails h' hostname user pkey sock false) as [msg Hmsg]; [lia|].
      rewrite Hmsg in Hres. subst r.
      assert (Hw : (Z.of_nat i =? max_time_to_wait) = false).
      { apply Z.eqb_neq. unfold max_time_to_wait. lia. }
      rewrite Hw.
      specialize (IH (S i) (h ++ d ++ [Ev_sleep InnerWait (Z.of_nat i)])).
      cbv zeta in IH.
      destruct (connect_loop env user hostname pkey proxy_command
                  (map Z.of_nat (seq (S i) (S n))) _) as [r2 d2].
      cbn [fst snd] in *.
      destruct IH as (IHc & IHw & IHok & IHfail); [lia| |lia|].
      { rewrite !count_app, Hcount, Hc1. unfold count. simpl. lia. }
      change (d ++ Ev_sleep InnerWait (Z.of_nat i) :: d2)
        with (d ++ [Ev_sleep InnerWait (Z.of_nat i)] ++ d2).
      rewrite !count_app, !inner_waits_app, Hc1, Hw1, IHc, IHw.
      split; [unfold count; simpl; lia|]. split.
      * replace (Nat.min (fails - i) (S n))%nat with (S (Nat.min (fails - S i) n))%nat by lia.
        reflexivity.
      * split; intros H; [apply IHok|apply IHfail]; lia.
Qed.

End Schedule.

(** C6, as the code has it: the handshake loop makes at most 6 connect
    attempts.  When the handshake fails with an [SSHException] on the
    first [fails] attempts and succeeds on the next, the loop makes
    [fails + 1] attempts, at most 6; after the failed attempt number
    [i + 1], for [i] from 0 to 4, it sleeps [i] seconds, so the waits are
    0,1,2,3,4 at most; with up to 5 failures the client is returned, the
    failures being swallowed; the failure of the 6th attempt is raised
    again, and no sleep follows it. *)
Theorem C6_handshake_schedule env user hostname pkey proxy_command h fails :
  (forall h' cmd, exists p, env_ProxyCommand env h' cmd = Ok p) ->
  (forall h', env_gcloud_enter env h' = Ok tt) ->
  (forall h' a u k s l, (count is_connect h' < count is_connect h + fails)%nat ->
     exists msg, env_connect env h' a u k s l = Raise (SSHException msg)) ->
  (forall h' a u k s l, count is_connect h' = (count is_connect h + fails)%nat ->
     env_connect env h' a u k s l = Ok tt) ->
  let run := _connect_to_instance env user hostname pkey proxy_command h in
  count is_connect run.2 = Nat.min (fails + 1) 6
  /\ inner_waits run.2 = map Z.of_nat (seq 0 (Nat.min fails 5))
  /\ ((fails <= 5)%nat -> exists client, run.1 = Ok client)
  /\ ((6 <= fails)%nat ->
      (exists msg, run.1 = Raise (SSHException msg)) /\ inner_waits run.2 = [0; 1; 2; 3; 4]).
Proof.
  intros Hproxy Henter Hfail Hok run.
  pose proof (connect_loop_schedule env user hostname pkey proxy_command Hproxy Henter
                (count is_connect h) fails Hfail Hok 5 0 h eq_refl) as Hs.
  cbv zeta in Hs. unfold run, _connect_to_instance. clear run.
  change (range (max_time_to_wait + 1)) with (map Z.of_nat (seq 0 6)).
  set (run := connect_loop env user hostname pkey proxy_command (map Z.of_nat (seq 0 6)) h)
    in *.
  destruct Hs as (Hc & Hw & Hsucc & Hraise); [lia|lia|].
  replace (fails + 1 - 0)%nat with (fails + 1)%nat in Hc by lia.
  replace (fails - 0)%nat with fails in Hw by lia.
  split; [exact Hc|]. split; [exact Hw|]. split.
  - intros Hle. apply Hsucc. lia.
  - intros Hge. split; [apply Hraise; lia|].
    rewrite Hw. replace (Nat.min fails 5) with 5%nat by lia. reflexivity.
Qed.

Lemma C6_handshake_schedule_witness :
  let run := _connect_to_instance (Scenario.env 2 (Ok tt)) (Some "root") "34.72.10.5"
               Scenario.key0 None [] in
  count is_connect run.2 = 3%nat
  /\ inner_waits run.2 = [0; 1]
  /\ exists client, run.1 = Ok client.
Proof.
  destruct (C6_handshake_schedule (Scenario.env 2 (Ok tt)) (Some "root") "34.72.10.5"
              Scenario.key0 None [] 2) as (Hc & Hw & Hsucc & _).
  - intros h' cmd. eexists. reflexivity.
  - reflexivity.
  - intros h' a u k s l Hlt. eexists. simpl.
    destruct (Nat.ltb_spec (count is_connect h') 2) as [_|Hge]; [reflexivity|].
    change (count is_connect []) with 0%nat in Hlt. lia.
  - intros h' a u k s l Heq. simpl.
    destruct (Nat.ltb_spec (count is_connect h') 2) as [Hlt|_]; [|reflexivity].
    change (count is_connect []) with 0%nat in Heq. lia.
  - split; [exact Hc|]. split; [exact Hw|]. apply Hsucc. lia.
Defined.

(** C6 as stated fails: when all six attempts fail, the waits between
    them are 0,1,2,3,4; the loop never sleeps 5 seconds. *)
Lemma C6_counterexample :
  let run := _connect_to_instance (Scenario.env 6 (Ok tt)) (Some "root") "34.72.10.5"
               Scenario.key0 None [] in
  run.1 = Raise (SSHException "Error reading SSH protocol banner")
  /\ count is_connect run.2 = 6%nat
  /\ inner_waits run.2 = [0; 1; 2; 3; 4]
  /\ inner_waits run.2 <> [0; 1; 2; 3; 4; 5].
Proof.
  vm_compute. repeat split. discriminate.
Qed.

(** ** The authorization scope *)

(** C3 fails on the code: when [super().connect] raises, the scope the
    client entered is never left.  One failed connect leaves scope 0
    open; [_connect_to_instance] whose six attempts fail raises with its
    six scopes open; a client that connected leaves its scope when it is
    closed. *)
Theorem C3_scope_left_open_after_failed_connect :
  let failing := Scenario.env 6 (Ok tt) in
  let once := Client.connect failing Client.new "34.72.10.5" (Some "root")
                Scenario.key0 None false [] in
  let attempts := _connect_to_instance failing (Some "root") "34.72.10.5"
                    Scenario.key0 None [] in
  let connected := _connect_to_instance (Scenario.env 0 (Ok tt)) (Some "root") "34.72.10.5"
                     Scenario.key0 None [] in
  (once.1.1 = Raise (SSHException "Error reading SSH protocol banner")
   /\ open_scopes once.2 = [0%nat])
  /\ (attempts.1 = Raise (SSHException "Error reading SSH protocol banner")
      /\ open_scopes attempts.2 = [0; 1; 2; 3; 4; 5]%nat)
  /\ (connected.1 = Ok {| decorator := Some 0%nat |}
      /\ open_scopes connected.2 = [0%nat]
      /\ open_scopes (connected.2 ++ (Client.close {| decorator := Some 0%nat |} connected.2).2)
         = []).
Proof.
  vm_compute. repeat split.
Qed.

(** * Further properties *)

(** ** Loading the connection *)

(** X1: a connection that is absent or of another type than [gcpssh]
    leaves every attribute of the hook as it was, [cmd_timeout] included
    (it stays [NOTSET]); the only call made is [get_connection]. *)
Theorem X1_other_connection_changes_nothing env self h found :
  env_get_connection env h (gcp_conn_id self) = Ok found ->
  (forall conn, found = Some conn -> conn_type conn <> "gcpssh") ->
  _load_connection_config env self h =
    ((Ok tt, self), [Ev_get_connection (gcp_conn_id self)]).
Proof.
  intros Hfound Hother. unfold _load_connection_config. rewrite Hfound.
  destruct found as [conn|]; [|reflexivity].
  destruct (String.eqb (conn_type conn) "gcpssh") eqn:Heq; [|reflexivity].
  apply String.eqb_eq in Heq. exfalso. exact (Hother conn eq_refl Heq).
Qed.

Lemma X1_other_connection_changes_nothing_witness :
  _load_connection_config (Scenario.env 0 (Ok tt)) Scenario.vm1 [] =
    ((Ok tt, Scenario.vm1), [Ev_get_connection "google_cloud_default"]).
Proof.
  refine (X1_other_connection_changes_nothing (Scenario.env 0 (Ok tt)) Scenario.vm1 [] _
            eq_refl _).
  intros conn [= <-]. discriminate.
Defined.

Lemma load_cmd_timeout_spec conn self r self' :
  load_cmd_timeout conn self = (r, self') ->
  (cmd_timeout self <> NOTSET -> r = Ok tt /\ self' = self)
  /\ (cmd_timeout self = NOTSET ->
      match extra conn, extra_dejson conn !! "cmd_timeout" with
      | Some _, Some v =>
          if truthy v
          then match py_int v with
               | Ok z => r = Ok tt /\ cmd_timeout self' = TimeoutInt z
               | Raise e => r = Raise e /\ self' = self
               end
          else r = Ok tt /\ cmd_timeout self' = TimeoutNone
      | _, _ => r = Ok tt /\ self' = self
      end).
Proof.
  unfold load_cmd_timeout. intros Hrun. split.
  - intros Hset. destruct (extra conn); [|injection Hrun as <- <-; auto].
    destruct (extra_dejson conn !! "cmd_timeout");
      destruct (cmd_timeout self); try contradiction; injection Hrun as <- <-; auto.
  - intros Hnot. rewrite Hnot in Hrun. destruct (extra conn); [|injection Hrun as <- <-; auto].
    destruct (extra_dejson conn !! "cmd_timeout") as [v|]; [|injection Hrun as <- <-; auto].
    destruct (truthy v); [|injection Hrun as <- <-; auto].
    destruct (py_int v); injection Hrun as <- <-; auto.
Qed.

(** The hook [load_gcpssh] hands to [load_cmd_timeout] has the
    [cmd_timeout] it started with. *)
Lemma load_gcpssh_unfold env conn self :
  exists self3,
    cmd_timeout self3 = cmd_timeout self
    /\ kept_attributes self3 = kept_attributes self
    /\ load_gcpssh env conn self =
       match intify "expire_time" (env_get_field env "expire_time" PNone) (expire_time self) with
       | Raise e => (Raise e, self3)
       | Ok t =>
           match load_cmd_timeout conn (set_expire_time t self3) with
           | (Raise e, self4) => (Raise e, self4)
           | (Ok _, self4) =>
               (Ok tt,
                match cmd_timeout self4 with
                | NOTSET => set_cmd_timeout (TimeoutInt CMD_TIMEOUT) self4
                | _ => self4
                end)
           end
       end.
Proof.
  unfold load_gcpssh. cbv zeta.
  match goal with
  | |- context [intify ?k ?v (expire_time ?s)] => exists s
  end.
  split; [reflexivity|]. split; reflexivity.
Qed.

(** X2: after a [gcpssh] connection is loaded without error,
    [cmd_timeout] is never [NOTSET]: a value given to the constructor is
    kept; otherwise it is the [cmd_timeout] of the connection's extra
    ([None] when that value is falsy), and [CMD_TIMEOUT] when the extra
    has none. *)
Theorem X2_cmd_timeout_settled env self h conn self' d :
  env_get_connection env h (gcp_conn_id self) = Ok (Some conn) ->
  conn_type conn = "gcpssh" ->
  _load_connection_config env self h = ((Ok tt, self'), d) ->
  cmd_timeout self' <> NOTSET
  /\ (cmd_timeout self <> NOTSET -> cmd_timeout self' = cmd_timeout self)
  /\ (cmd_timeout self = NOTSET ->
      match extra conn, extra_dejson conn !! "cmd_timeout" with
      | Some _, Some v =>
          if truthy v then exists z, py_int v = Ok z /\ cmd_timeout self' = TimeoutInt z
          else cmd_timeout self' = TimeoutNone
      | _, _ => cmd_timeout self' = TimeoutInt CMD_TIMEOUT
      end).
Proof.
  intros Hconn Htype. unfold _load_connection_config. rewrite Hconn, Htype.
  change (String.eqb "gcpssh" "gcpssh") with true. cbv iota.
  destruct (load_gcpssh_unfold env conn self) as (self3 & Hct & _ & ->).
  destruct (intify _ _ _) as [t|e]; cbv iota beta; [|discriminate].
  destruct (load_cmd_timeout conn (set_expire_time t self3)) as [r4 self4] eqn:Hcmd.
  apply load_cmd_timeout_spec in Hcmd as [Hkeep Hnew].
  change (cmd_timeout (set_expire_time t self3)) with (cmd_timeout self3) in *.
  rewrite Hct in *.
  destruct r4 as [[]|e]; cbv iota beta; [|discriminate].
  intros Heq. injection Heq as Hs Hd. clear Hd. subst self'.
  assert (Hfinal : forall c, cmd_timeout self4 = c ->
            cmd_timeout (match cmd_timeout self4 with
                         | NOTSET => set_cmd_timeout (TimeoutInt CMD_TIMEOUT) self4
                         | _ => self4
                         end) =
            match c with NOTSET => TimeoutInt CMD_TIMEOUT | _ => c end).
  { intros c Hc. rewrite Hc. destruct c; simpl; congruence. }
  destruct (cmd_timeout self) eqn:Hself.
  - specialize (Hnew eq_refl). split; [|split; [congruence|]].
    + rewrite (Hfinal _ eq_refl). destruct (cmd_timeout self4); discriminate.
    + intros _. destruct (extra conn); [destruct (extra_dejson conn !! "cmd_timeout") as [v|]|].
      * destruct (truthy v).
        -- destruct (py_int v) as [z|e]; destruct Hnew as [Hr Hc]; [|discriminate].
           rewrite (Hfinal _ Hc). eauto.
        -- destruct Hnew as [_ Hc]. rewrite (Hfinal _ Hc). reflexivity.
      * destruct Hnew as [_ ->]. rewrite (Hfinal NOTSET); [reflexivity|exact Hct].
      * destruct Hnew as [_ ->]. rewrite (Hfinal NOTSET); [reflexivity|exact Hct].
  - destruct Hkeep as [_ ->]; [discriminate|]. rewrite (Hfinal TimeoutNone Hct).
    split; [discriminate|]. split; [reflexivity|discriminate].
  - destruct Hkeep as [_ ->]; [discriminate|]. rewrite (Hfinal (TimeoutInt seconds) Hct).
    split; [discriminate|]. split; [reflexivity|discriminate].
Qed.

Lemma X2_cmd_timeout_settled_witness :
  cmd_timeout (_load_connection_config Scenario.gcpssh_env (init_defaults None) []).1.2
    = TimeoutInt CMD_TIMEOUT.
Proof.
  refine (proj2 (proj2 (X2_cmd_timeout_settled Scenario.gcpssh_env (init_defaults None) []
           {| conn_type := "gcpssh"; login := None; host := None;
              extra := None; extra_dejson := ∅ |}
           (_load_connection_config Scenario.gcpssh_env (init_defaults None) []).1.2
           [Ev_get_connection "google_cloud_default"] eq_refl eq_refl _)) eq_refl).
  vm_compute. reflexivity.
Defined.

Lemma load_cmd_timeout_kept conn self :
  kept_attributes (load_cmd_timeout conn self).2 = kept_attributes self.
Proof. unfold load_cmd_timeout. repeat case_match; reflexivity. Qed.

Lemma load_kept_attributes env self h :
  kept_attributes (_load_connection_config env self h).1.2 = kept_attributes self.
Proof.
  unfold _load_connection_config.
  destruct (env_get_connection env h (gcp_conn_id self)) as [[conn|]|e]; try reflexivity.
  destruct (String.eqb (conn_type conn) "gcpssh"); [|reflexivity]. cbn [fst snd].
  destruct (load_gcpssh_unfold env conn self) as (self3 & _ & Hk3 & ->).
  destruct (intify _ _ _) as [t|e]; [|exact Hk3].
  pose proof (load_cmd_timeout_kept conn (set_expire_time t self3)) as Hk4.
  change (kept_attributes (set_expire_time t self3)) with (kept_attributes self3) in Hk4.
  destruct (load_cmd_timeout conn (set_expire_time t self3)) as [[[]|e] self4];
    cbn [fst snd] in *; rewrite <- Hk3, <- Hk4; [|reflexivity].
  destruct (cmd_timeout self4); reflexivity.
Qed.

(** X3: [_load_connection_config] never assigns [project_id] (skipped
    on purpose), [max_retries], [gcp_conn_id] or [impersonation_chain]:
    whatever the connection holds and whether loading raises or not, the
    hook keeps the values the constructor was given. *)
Theorem X3_load_keeps_project_and_budget env self h :
  let self' := (_load_connection_config env self h).1.2 in
  project_id self' = project_id self
  /\ max_retries self' = max_retries self
  /\ gcp_conn_id self' = gcp_conn_id self
  /\ impersonation_chain self' = impersonation_chain self.
Proof.
  intros self'. pose proof (load_kept_attributes env self h) as Hkept.
  fold self' in Hkept. unfold kept_attributes in Hkept.
  injection Hkept as H1 H2 H3 H4. auto.
Qed.

(** ** intify *)


(** X5: an [expire_time] field that is not a number stops [get_conn]
    before anything else is asked: the [AirflowException] of [intify]
    is raised after the single call of [get_connection]. *)
Theorem X5_bad_expire_time_stops_get_conn env self h conn s :
  env_get_connection env h (gcp_conn_id self) = Ok (Some conn) ->
  conn_type conn = "gcpssh" ->
  env_get_field env "expire_time" PNone = PStr s ->
  Str.is_empty (Str.strip s) = false ->
  py_int_str s = None ->
  (get_conn env self h).1.1 =
    Raise (AirflowException (intify_message "expire_time" (PStr s)))
  /\ (get_conn env self h).2 = [Ev_get_connection (gcp_conn_id self)].
Proof.
  intros Hconn Htype Hfield Hblank Hint.
  rewrite get_conn_run.
  assert (Hload : (_load_connection_config env self h).1.1 =
                    Raise (AirflowException (intify_message "expire_time" (PStr s)))).
  { unfold _load_connection_config. rewrite Hconn, Htype.
    change (String.eqb "gcpssh" "gcpssh") with true. cbv iota.
    destruct (load_gcpssh_unfold env conn self) as (self3 & _ & _ & ->).
    rewrite Hfield. unfold intify, py_int. rewrite Hblank, Hint. reflexivity. }
  pose proof (load_connection_config_trace env self h) as Htrace.
  destruct (_load_connection_config env self h) as [[r self1] d]. cbn [fst snd] in *.
  subst r d. split; reflexivity.
Qed.

Lemma X5_bad_expire_time_stops_get_conn_witness :
  (get_conn Cases.bad_expire_env (init_defaults None) []).1.1 =
    Raise (AirflowException (intify_message "expire_time" (PStr "soon")))
  /\ (get_conn Cases.bad_expire_env (init_defaults None) []).2 =
     [Ev_get_connection "google_cloud_default"].
Proof.
  refine (X5_bad_expire_time_stops_get_conn Cases.bad_expire_env (init_defaults None) []
            {| conn_type := "gcpssh"; login := None; host := None;
               extra := None; extra_dejson := ∅ |} "soon" eq_refl eq_refl eq_refl _ _).
  - vm_compute. reflexivity.
  - vm_compute. reflexivity.
Defined.

(** ** The project *)

Lemma loop_event_not_project self hostname privkey pubkey ev :
  loop_event self hostname privkey pubkey ev -> is_project_call ev = false.
Proof. destruct 1 as [ev []| |]; reflexivity. Qed.

(** X6: a [project_id] given to the constructor is the one [get_conn]
    uses: neither the connection nor the Compute Engine hook replaces
    it, and the hook's own project is never asked for. *)
Theorem X6_given_project_id_is_kept env self h :
  truthy_str (project_id self) = true ->
  project_id (get_conn env self h).1.2 = project_id self
  /\ count is_project_call (get_conn env self h).2 = 0%nat.
Proof.
  intros Hgiven. rewrite get_conn_run.
  pose proof (load_kept_attributes env self h) as Hp.
  apply (f_equal (fun k => k.1.1.2)) in Hp. cbn [fst snd kept_attributes] in Hp.
  pose proof (load_connection_config_trace env self h) as Hd0.
  destruct (_load_connection_config env self h) as [[r0 self1] d0].
  cbn [fst snd] in *. subst d0.
  destruct r0 as [[]|e]; cbn [fst snd]; [|split; [exact Hp|reflexivity]].
  unfold default_project_id at 1 2 3. rewrite Hp, Hgiven. cbn [negb fst snd].
  unfold default_project_id. rewrite Hp, Hgiven. cbn [negb fst snd].
  rewrite app_nil_r. split; [exact Hp|].
  change (Ev_get_connection (gcp_conn_id self) :: ?x)
    with ([Ev_get_connection (gcp_conn_id self)] ++ x).
  rewrite count_app. change (count is_project_call [Ev_get_connection _]) with 0%nat.
  destruct (required_missing self1) eqn:Hmiss.
  - rewrite (get_conn_configured_missing _ _ _ Hmiss). reflexivity.
  - match goal with
    | |- context [get_conn_configured env self1 ?h0] =>
        destruct (get_conn_configured_calls env self1 h0 Hmiss)
          as (d_key & d_loop & hn & privkey & pubkey & -> & Hkey & Hloop & _)
    end.
    rewrite resolve_hostname_run, !count_app, (count_none _ d_loop).
    + destruct (truthy_str (hostname self1)), Hkey as [-> | ->]; reflexivity.
    + eapply Forall_impl; [exact Hloop|]. intros ev. apply loop_event_not_project.
Qed.

Lemma X6_given_project_id_is_kept_witness :
  project_id (get_conn (Scenario.env 0 (Ok tt)) Scenario.vm1 []).1.2 = Some "p1"
  /\ count is_project_call (get_conn (Scenario.env 0 (Ok tt)) Scenario.vm1 []).2 = 0%nat.
Proof.
  exact (X6_given_project_id_is_kept (Scenario.env 0 (Ok tt)) Scenario.vm1 [] eq_refl).
Defined.

(** ** Publishing to the metadata *)

(** X7: two injections in a row stack their lines, newest first, in
    the one [ssh-keys] item: after a first injection a second one always
    succeeds, adds no item, and leaves [keys2] followed by [keys1]
    followed by what was there. *)
Theorem X7_injections_stack keys1 keys2 metadata metadata1 :
  add_keys_to_metadata keys1 metadata = Ok metadata1 ->
  exists old metadata2,
    ssh_keys_value metadata1 = Some (keys1 +:+ old)
    /\ add_keys_to_metadata keys2 metadata1 = Ok metadata2
    /\ ssh_keys_value metadata2 = Some (keys2 +:+ keys1 +:+ old)
    /\ length (default [] (items metadata2)) = length (default [] (items metadata1))
    /\ other_entries metadata2 = other_entries metadata.
Proof.
  intros Hfirst.
  assert (Hother : other_entries metadata1 = other_entries metadata).
  { unfold add_keys_to_metadata in Hfirst.
    destruct (prepend_to_ssh_keys keys1 _); try discriminate;
      injection Hfirst as <-; reflexivity. }
  destruct (add_keys_value _ _ _ Hfirst) as [old Hold].
  destruct (add_keys_found keys2 metadata1 _ Hold) as (pre & item & post & Heq & Hadd & Hval).
  exists old. eexists. split; [exact Hold|]. split; [exact Hadd|]. split; [exact Hval|].
  split; [|exact Hother].
  rewrite Heq. cbn. rewrite !length_app. reflexivity.
Qed.

Lemma X7_injections_stack_witness :
  exists old metadata2,
    ssh_keys_value
      {| items := Some [<["value" := "bob:KEY2" +:+ Str.nl +:+ "alice:KEY1" +:+ Str.nl]>
                          Scenario.alice_item];
         other_entries := other_entries Scenario.alice_metadata |}
      = Some (("bob:KEY2" +:+ Str.nl) +:+ old)
    /\ add_keys_to_metadata ("carol:KEY3" +:+ Str.nl)
         {| items := Some [<["value" := "bob:KEY2" +:+ Str.nl +:+ "alice:KEY1" +:+ Str.nl]>
                             Scenario.alice_item];
            other_entries := other_entries Scenario.alice_metadata |} = Ok metadata2
    /\ ssh_keys_value metadata2
       = Some (("carol:KEY3" +:+ Str.nl) +:+ ("bob:KEY2" +:+ Str.nl) +:+ old)
    /\ length (default [] (items metadata2)) = 1%nat
    /\ other_entries metadata2 = other_entries Scenario.alice_metadata.
Proof.
  refine (X7_injections_stack ("bob:KEY2" +:+ Str.nl) ("carol:KEY3" +:+ Str.nl)
            Scenario.alice_metadata _ _).
  vm_compute. reflexivity.
Defined.

(** X8: [_authorize_compute_engine_instance_metadata] writes nothing
    when it fails before the write: with no user ([TypeError]), with an
    instance description without metadata ([KeyError]), or with an
    [ssh-keys] item that has no value ([KeyError]), the only call made is
    the read of the instance. *)
Theorem X8_no_write_after_early_failure env self pubkey h info :
  env_get_instance_info env h (zone self) (instance_name self) (project_id self) = Ok info ->
  let run := _authorize_compute_engine_instance_metadata env self pubkey h in
  let read := [Ev_get_instance_info (zone self) (instance_name self) (project_id self)] in
  (user self = None ->
   run = (Raise (OtherError "TypeError"
                   "unsupported operand type(s) for +: 'NoneType' and 'str'"), read))
  /\ (user self <> None -> info_metadata info = None ->
      run = (Raise (OtherError "KeyError" "'metadata'"), read))
  /\ (user self <> None ->
      forall metadata item,
        info_metadata info = Some metadata ->
        find_ssh_keys (default [] (items metadata)) = Some item ->
        item !! "value" = None ->
        run = (Raise (OtherError "KeyError" "'value'"), read)).
Proof.
  intros Hinfo run read. unfold run, read.
  unfold _authorize_compute_engine_instance_metadata, bind, call, ret, raise, of_result.
  rewrite Hinfo. split; [|split].
  - intros ->. reflexivity.
  - intros Hu Hmd. destruct (user self); [|contradiction]. rewrite Hmd. reflexivity.
  - intros Hu metadata item Hmd Hfind Hval. destruct (user self) as [u|]; [|contradiction].
    rewrite Hmd. cbn [fst snd].
    assert (Hadd : add_keys_to_metadata (u +:+ ":" +:+ pubkey +:+ Str.nl) metadata =
                     Raise (OtherError "KeyError" "'value'")).
    { unfold add_keys_to_metadata.
      pose proof (prepend_to_ssh_keys_spec (u +:+ ":" +:+ pubkey +:+ Str.nl)
                    (default [] (items metadata))) as Hs.
      clear -Hs Hfind Hval. revert Hs Hfind.
      generalize (default [] (items metadata)). intros its.
      induction its as [|x rest IH]; [discriminate|]. simpl.
      destruct (decide (x !! "key" = Some "ssh-keys")).
      - intros _ [= ->]. rewrite Hval. reflexivity.
      - intros _ Hfind. specialize (IH (prepend_to_ssh_keys_spec _ rest) Hfind).
        destruct (prepend_to_ssh_keys _ rest); try discriminate.
        injection IH as <-. reflexivity. }
    rewrite Hadd. reflexivity.
Qed.

Lemma X8_no_write_after_early_failure_witness :
  _authorize_compute_engine_instance_metadata (Scenario.env 0 (Ok tt))
    (set_user None Scenario.vm1) "KEY2" [] =
    (Raise (OtherError "TypeError" "unsupported operand type(s) for +: 'NoneType' and 'str'"),
     [Ev_get_instance_info (PStr "us-central1-a") (PStr "vm1") (Some "p1")]).
Proof.
  exact (proj1 (X8_no_write_after_early_failure (Scenario.env 0 (Ok tt))
                  (set_user None Scenario.vm1) "KEY2" []
                  {| info_metadata := Some Scenario.alice_metadata |} eq_refl) eq_refl).
Defined.

(** ** Publishing and the handshake *)

Lemma publish_and_connect_unfold env self hostname privkey pubkey :
  publish_and_connect env self hostname privkey pubkey =
    (user <- publish env self pubkey;;
     _connect_to_instance env user hostname privkey (proxy_command_of self)).
Proof. reflexivity. Qed.

(** The publishing step makes no handshake call and at most one publish
    call, which is its last call when it succeeds. *)
Lemma publish_calls env self pubkey h :
  let run := publish env self pubkey h in
  count is_handshake run.2 = 0%nat
  /\ (count is_publish run.2 <= 1)%nat
  /\ (forall u, run.1 = Ok u ->
      exists d1 ev, run.2 = d1 ++ [ev] /\ is_publish ev = true).
Proof.
  unfold publish. destruct (use_oslogin self).
  - unfold _authorize_os_login, bind, call, ret, raise, of_result.
    destruct (env_get_credentials_email env h) as [email|e]; cbn [fst snd];
      [|repeat split; [unfold count; simpl; lia|discriminate]].
    destruct (expiration_usec _ _) as [usec|e]; cbn [fst snd];
      [|repeat split; [unfold count; simpl; lia|discriminate]].
    destruct (env_import_ssh_public_key env _ _ _ _) as [response|e]; cbn [fst snd];
      [|repeat split; [unfold count; simpl; lia|discriminate]].
    destruct (posix_accounts response) as [|account others]; cbn [fst snd].
    + repeat split; [unfold count; simpl; lia|discriminate].
    + repeat split; [unfold count; simpl; lia|]. intros u _.
      exists [Ev_get_credentials_email; Ev_time]. eexists. split; reflexivity.
  - unfold _authorize_compute_engine_instance_metadata, bind, call, ret, raise, of_result.
    destruct (env_get_instance_info env h _ _ _) as [info|e]; cbn [fst snd];
      [|repeat split; [unfold count; simpl; lia|discriminate]].
    destruct (user self) as [u|]; cbn [fst snd];
      [|repeat split; [unfold count; simpl; lia|discriminate]].
    destruct (info_metadata info) as [metadata|]; cbn [fst snd];
      [|repeat split; [unfold count; simpl; lia|discriminate]].
    destruct (add_keys_to_metadata _ metadata) as [metadata'|e]; cbn [fst snd];
      [|repeat split; [unfold count; simpl; lia|discriminate]].
    destruct (env_set_instance_metadata env _ _ _ _ _) as [[]|e]; cbn [fst snd].
    + repeat split; [unfold count; simpl; lia|]. intros u' _.
      exists [Ev_get_instance_info (zone self) (instance_name self) (project_id self)].
      eexists. split; reflexivity.
    + repeat split; [unfold count; simpl; lia|discriminate].
Qed.

Lemma connect_to_instance_publishes_nothing env user hostname pkey proxy_command h :
  count is_publish (_connect_to_instance env user hostname pkey proxy_command h).2 = 0%nat.
Proof.
  apply count_none.
  apply (connect_to_instance_emits env (fun ev => is_publish ev = false));
    intros; reflexivity.
Qed.

(** X9: in every publish+handshake cycle the key is published before
    the handshake starts: the calls of the cycle split into a publishing
    part without any handshake call (tunnel, scope, connect, wait) and a
    handshake part without any publish call; at most one publish call is
    made, and when the handshake part is not empty the publishing part
    ended with that call. *)
Theorem X9_publish_precedes_handshake env self hostname privkey pubkey h :
  exists d_publish d_handshake,
    (publish_and_connect env self hostname privkey pubkey h).2 = d_publish ++ d_handshake
    /\ count is_handshake d_publish = 0%nat
    /\ count is_publish d_handshake = 0%nat
    /\ (count is_publish d_publish <= 1)%nat
    /\ (d_handshake <> [] ->
        exists d1 ev, d_publish = d1 ++ [ev] /\ is_publish ev = true).
Proof.
  rewrite publish_and_connect_unfold. unfold bind.
  destruct (publish_calls env self pubkey h) as (Hhand & Hpub & Hlast).
  destruct (publish env self pubkey h) as [[u|e] d]; cbn [fst snd] in *.
  - pose proof (connect_to_instance_publishes_nothing env u hostname privkey
                  (proxy_command_of self) (h ++ d)) as Hnone.
    destruct (_connect_to_instance env u hostname privkey (proxy_command_of self) (h ++ d))
      as [r d2]. cbn [fst snd] in *.
    exists d, d2. repeat split; auto. intros _. apply (Hlast u eq_refl).
  - exists d, []. rewrite app_nil_r. repeat split; auto. intros H. contradiction.
Qed.

(** X10: when publishing fails, by either strategy and for whatever
    reason, the cycle ends there: the error is raised unchanged and no
    handshake call is made. *)
Theorem X10_failed_publish_skips_handshake env self hostname privkey pubkey h e :
  (publish env self pubkey h).1 = Raise e ->
  publish_and_connect env self hostname privkey pubkey h =
    (Raise e, (publish env self pubkey h).2)
  /\ count is_handshake (publish_and_connect env self hostname privkey pubkey h).2 = 0%nat.
Proof.
  intros Hfail. rewrite publish_and_connect_unfold. unfold bind.
  destruct (publish_calls env self pubkey h) as (Hhand & _).
  destruct (publish env self pubkey h) as [r d]. cbn [fst snd] in *. subst r.
  split; [reflexivity|exact Hhand].
Qed.

Lemma X10_failed_publish_skips_handshake_witness :
  publish_and_connect (Scenario.env 0 (Raise (HttpError 500 "Internal Server Error")))
      (set_use_oslogin false Scenario.vm1) "34.72.10.5" Scenario.key0 "KEY2" [] =
    (Raise (HttpError 500 "Internal Server Error"),
     (publish (Scenario.env 0 (Raise (HttpError 500 "Internal Server Error")))
        (set_use_oslogin false Scenario.vm1) "KEY2" []).2)
  /\ count is_handshake
       (publish_and_connect (Scenario.env 0 (Raise (HttpError 500 "Internal Server Error")))
          (set_use_oslogin false Scenario.vm1) "34.72.10.5" Scenario.key0 "KEY2" []).2
     = 0%nat.
Proof.
  refine (X10_failed_publish_skips_handshake
            (Scenario.env 0 (Raise (HttpError 500 "Internal Server Error")))
            (set_use_oslogin false Scenario.vm1) "34.72.10.5" Scenario.key0 "KEY2" []
            (HttpError 500 "Internal Server Error") _).
  vm_compute. reflexivity.
Defined.

(** ** OS Login without an account *)

(** X11: when the login profile returned by the registry has no POSIX
    account, [_authorize_os_login] raises [IndexError] after the key has
    been registered; the error is not retryable, so the retry loop of
    [get_conn] ends with it at once, without handshake or backoff. *)
Theorem X11_no_posix_account env self hostname privkey pubkey retry rest h email usec response :
  use_oslogin self = true ->
  env_get_credentials_email env h = Ok email ->
  expiration_usec (env_time env (h ++ [Ev_get_credentials_email])) (expire_time self)
    = Ok usec ->
  let ssh_public_key := {| key := pubkey; expiration_time_usec := usec |} in
  let calls := [Ev_get_credentials_email; Ev_time;
                Ev_import_ssh_public_key email ssh_public_key (project_id self)] in
  env_import_ssh_public_key env (h ++ [Ev_get_credentials_email; Ev_time]) email
    ssh_public_key (project_id self) = Ok response ->
  posix_accounts response = [] ->
  _authorize_os_login env self pubkey h =
    (Raise (OtherError "IndexError" "list index out of range"), calls)
  /\ get_conn_loop env self hostname privkey pubkey (retry :: rest) h =
     (Raise (OtherError "IndexError" "list index out of range"), calls).
Proof.
  intros Hos Hemail Husec ssh_public_key calls Himport Hnone.
  assert (Hauth : _authorize_os_login env self pubkey h =
            (Raise (OtherError "IndexError" "list index out of range"), calls)).
  { unfold _authorize_os_login, bind, call, of_result, ret, raise.
    rewrite Hemail. cbn [fst snd]. rewrite Husec. cbn [fst snd].
    rewrite app_nil_r, <- app_assoc. cbn [app]. unfold ssh_public_key in Himport.
    rewrite Himport, Hnone. reflexivity. }
  split; [exact Hauth|].
  rewrite (get_conn_loop_raised env self hostname privkey pubkey retry rest h
             (OtherError "IndexError" "list index out of range") calls); [reflexivity|].
  unfold publish_and_connect, bind. rewrite Hos. unfold bind. rewrite Hauth. reflexivity.
Qed.

Lemma X11_no_posix_account_witness :
  _authorize_os_login
    (Cases.with_import (fun _ _ _ _ => Ok {| posix_accounts := [] |}) (Scenario.env 0 (Ok tt)))
    Scenario.vm1 "KEY2" [] =
    (Raise (OtherError "IndexError" "list index out of range"),
     [Ev_get_credentials_email; Ev_time;
      Ev_import_ssh_public_key "sa@p1.iam.gserviceaccount.com"
        {| key := "KEY2"; expiration_time_usec := 1700000300500000 |} (Some "p1")]).
Proof.
  refine (proj1 (X11_no_posix_account
            (Cases.with_import (fun _ _ _ _ => Ok {| posix_accounts := [] |})
               (Scenario.env 0 (Ok tt)))
            Scenario.vm1 "34.72.10.5" Scenario.key0 "KEY2" 0 [] []
            "sa@p1.iam.gserviceaccount.com" 1700000300500000 {| posix_accounts := [] |}
            eq_refl eq_refl _ eq_refl eq_refl)).
  vm_compute. reflexivity.
Defined.

(** ** A key that cannot be generated *)

(** X12: a failure of the key generator is never retried.  When
    [RSAKey.generate] raises an [SSHException] or an [OSError],
    [get_conn] raises an [AirflowException] that quotes it, having made
    the address lookup, if any, and the one generator call: no publish
    call, no handshake, no backoff follows. *)
Theorem X12_keygen_failure_is_fatal env self h address d_host e msg :
  required_missing self = false ->
  resolve_hostname env self h = (Ok address, d_host) ->
  env_RSAKey_generate env (h ++ d_host) 2048 = Raise e ->
  e = SSHException msg \/ e = OtherError "OSError" msg ->
  get_conn_configured env self h =
    (Raise (AirflowException ("Error encountered creating ssh keys, " +:+ msg)),
     d_host ++ [Ev_RSAKey_generate 2048]).
Proof.
  intros Hreq Hhost Hgen He.
  unfold get_conn_configured. rewrite Hreq. unfold bind at 1. rewrite Hhost.
  unfold bind at 1.
  assert (Hkey : _generate_ssh_key env (user self) (h ++ d_host) =
            (Raise (AirflowException ("Error encountered creating ssh keys, " +:+ msg)),
             [Ev_RSAKey_generate 2048])).
  { unfold _generate_ssh_key, try_except, bind, call, raise. rewrite Hgen.
    destruct He as [-> | ->]; reflexivity. }
  rewrite Hkey. reflexivity.
Qed.

Lemma X12_keygen_failure_is_fatal_witness :
  get_conn_configured
    (Cases.with_keygen (fun _ _ => Raise (SSHException "No usable entropy source"))
       (Scenario.env 0 (Ok tt)))
    Scenario.vm1 [] =
    (Raise (AirflowException
              ("Error encountered creating ssh keys, " +:+ "No usable entropy source")),
     [Ev_get_instance_address (PStr "us-central1-a") (PStr "vm1") (Some "p1") false]
     ++ [Ev_RSAKey_generate 2048]).
Proof.
  exact (X12_keygen_failure_is_fatal
           (Cases.with_keygen (fun _ _ => Raise (SSHException "No usable entropy source"))
              (Scenario.env 0 (Ok tt)))
           Scenario.vm1 [] "34.72.10.5" _ (SSHException "No usable entropy source")
           "No usable entropy source" eq_refl eq_refl eq_refl (or_introl eq_refl)).
Defined.

(** ** The retry budget *)

Lemma range_nonpositive n : n <= 0 -> range n = [].
Proof.
  intros Hn. unfold range. replace (Z.to_nat n) with 0%nat by lia. reflexivity.
Qed.

(** X13: with a negative [max_retries] no publish+handshake cycle is
    made at all: once the address is resolved and the key generated,
    [get_conn] raises "Unable to establish SSH connection." without any
    publish call, handshake or backoff. *)
Theorem X13_negative_budget_makes_no_cycle env self h address d_host keypair d_key :
  required_missing self = false ->
  max_retries self < 0 ->
  resolve_hostname env self h = (Ok address, d_host) ->
  _generate_ssh_key env (user self) (h ++ d_host) = (Ok keypair, d_key) ->
  get_conn_configured env self h = (Raise unable_to_connect, d_host ++ d_key).
Proof.
  intros Hreq Hneg Hhost Hkey.
  unfold get_conn_configured. rewrite Hreq. unfold bind at 1. rewrite Hhost.
  unfold bind at 1. rewrite Hkey. destruct keypair as [privkey pubkey].
  rewrite range_nonpositive by lia. unfold bind, ret, raise. cbn.
  rewrite !app_nil_r. reflexivity.
Qed.

Lemma X13_negative_budget_makes_no_cycle_witness :
  get_conn_configured (Scenario.env 0 (Ok tt)) (set_max_retries (-1) Scenario.vm1) [] =
    (Raise unable_to_connect,
     [Ev_get_instance_address (PStr "us-central1-a") (PStr "vm1") (Some "p1") false]
     ++ [Ev_RSAKey_generate 2048]).
Proof.
  refine (X13_negative_budget_makes_no_cycle (Scenario.env 0 (Ok tt))
            (set_max_retries (-1) Scenario.vm1) [] "34.72.10.5" _ _ _
            eq_refl _ eq_refl eq_refl).
  reflexivity.
Defined.

Section Exhaustion.

Variable env : Env.
Variable self : ComputeEngineSSHHook.
Variable hostname : string.
Variable privkey : PKey.
Variable pubkey : string.

(** Every cycle fails with a retryable failure. *)
Hypothesis always_retryable :
  forall h, exists exc d,
    publish_and_connect env self hostname privkey pubkey h = (Raise exc, d)
    /\ retryable exc.

Lemma exhaustion_from n : forall i h,
  Z.of_nat (i + n) = max_retries self ->
  let run := get_conn_loop env self hostname privkey pubkey
               (map Z.of_nat (seq i (S n))) h in
  run.1 = Raise max_retries_exceeded
  /\ count is_backoff run.2 = (2 * n)%nat.
Proof.
  induction n as [|n IH]; intros i h Hmax run; unfold run; clear run;
    change (map Z.of_nat (seq i (S ?m))) with (Z.of_nat i :: map Z.of_nat (seq (S i) m));
    destruct (always_retryable h) as (exc & d & Hcycle & Hretry);
    rewrite (get_conn_loop_raised _ _ _ _ _ _ _ _ _ _ Hcycle);
    apply handled_retryable in Hretry; rewrite Hretry;
    assert (Hd : count is_backoff d = 0%nat)
      by (apply count_none;
          pose proof (publish_and_connect_events env self hostname privkey pubkey h) as Hev;
          rewrite Hcycle in Hev; eapply Forall_impl; [exact Hev|];
          intros ev; apply cycle_event_not_backoff).
  - replace (Z.of_nat i =? max_retries self) with true
      by (symmetry; apply Z.eqb_eq; lia).
    cbn [fst snd]. split; [reflexivity|]. rewrite Hd. reflexivity.
  - replace (Z.of_nat i =? max_retries self) with false
      by (symmetry; apply Z.eqb_neq; lia).
    cbv zeta. cbn [fst snd].
    match goal with
    | |- context [get_conn_loop _ _ _ _ _ _ ?h0] =>
        destruct (IH (S i) h0) as [Hr Hc]; [lia|]
    end.
    cbv zeta in Hr, Hc. split; [exact Hr|].
    rewrite !count_app, Hd, Hc. unfold count at 1. simpl. lia.
Qed.

End Exhaustion.

(** X14: when every publish+handshake cycle fails with a retryable
    failure, the loop of [get_conn] with a budget of [max_retries >= 0]
    ends with the retries-exceeded error after [max_retries] backoffs
    (a random delay drawn and slept each time): none follows the last
    cycle. *)
Theorem X14_budget_exhausted env self hostname privkey pubkey h :
  0 <= max_retries self ->
  (forall h', exists exc d,
     publish_and_connect env self hostname privkey pubkey h' = (Raise exc, d)
     /\ retryable exc) ->
  let run := get_conn_loop env self hostname privkey pubkey (range (max_retries self + 1)) h in
  run.1 = Raise max_retries_exceeded
  /\ count is_backoff run.2 = (2 * Z.to_nat (max_retries self))%nat.
Proof.
  intros Hmax Hall run. unfold run, range.
  replace (Z.to_nat (max_retries self + 1)) with (S (Z.to_nat (max_retries self))) by lia.
  apply (exhaustion_from env self hostname privkey pubkey Hall (Z.to_nat (max_retries self)) 0 h).
  lia.
Qed.

Lemma X14_budget_exhausted_witness :
  let run := get_conn_loop Contention.env (Contention.hook 3) "34.72.10.5" Scenario.key0
               "KEY2" (range (3 + 1)) [] in
  run.1 = Raise max_retries_exceeded /\ count is_backoff run.2 = 6%nat.
Proof.
  refine (X14_budget_exhausted Contention.env (Contention.hook 3) "34.72.10.5"
            Scenario.key0 "KEY2" [] _ _).
  - simpl. lia.
  - intros h'. exists (HttpError 412 "Precondition Failed"). eexists. split.
    + vm_compute. reflexivity.
    + left. eexists. reflexivity.
Defined.

(** ** How many calls [get_conn] can make *)

Lemma count_le_impl (p q : Event -> bool) (t : Trace) :
  (forall ev, p ev = true -> q ev = true) -> (count p t <= count q t)%nat.
Proof.
  intros Hpq. unfold count. induction t as [|ev t IH]; simpl; [lia|].
  destruct (p ev) eqn:Hp.
  - rewrite (Hpq ev Hp). simpl. lia.
  - destruct (q ev); simpl; lia.
Qed.

Lemma connect_attempt_at_most_one env user hostname pkey proxy_command h :
  (count is_connect (connect_attempt env user hostname pkey proxy_command h).2 <= 1)%nat.
Proof.
  unfold connect_attempt, bind, call, ret, Client.connect.
  destruct proxy_command as [cmd|]; [destruct (truthy_str (Some cmd))|].
  - destruct (env_ProxyCommand env h cmd) as [p|e]; cbn [fst snd];
      [|unfold count; simpl; lia].
    destruct (env_gcloud_enter env _) as [[]|e]; cbn [fst snd].
    + destruct (env_connect env _ _ _ _ _ _); unfold count; simpl; lia.
    + unfold count; simpl; lia.
  - cbn [fst snd]. destruct (env_gcloud_enter env _) as [[]|e]; cbn [fst snd].
    + destruct (env_connect env _ _ _ _ _ _); unfold count; simpl; lia.
    + unfold count; simpl; lia.
  - cbn [fst snd]. destruct (env_gcloud_enter env _) as [[]|e]; cbn [fst snd].
    + destruct (env_connect env _ _ _ _ _ _); unfold count; simpl; lia.
    + unfold count; simpl; lia.
Qed.

Lemma connect_loop_at_most env user hostname pkey proxy_command waits : forall h,
  (count is_connect (connect_loop env user hostname pkey proxy_command waits h).2
   <= length waits)%nat.
Proof.
  induction waits as [|w waits IH]; intros h; [unfold count; simpl; lia|].
  rewrite connect_loop_cons. cbv zeta.
  pose proof (connect_attempt_at_most_one env user hostname pkey proxy_command h) as H1.
  destruct (connect_attempt env user hostname pkey proxy_command h) as [[c|e] d];
    cbn [fst snd length] in *; [lia|].
  destruct e; cbn [fst snd]; try lia.
  destruct (w =? max_time_to_wait); cbn [fst snd]; [lia|].
  change (d ++ Ev_sleep InnerWait w :: ?x) with (d ++ [Ev_sleep InnerWait w] ++ x).
  rewrite !count_app. specialize (IH (h ++ d ++ [Ev_sleep InnerWait w])).
  change (count is_connect [Ev_sleep InnerWait w]) with 0%nat. lia.
Qed.

(** One cycle publishes at most once, makes at most 6 connect calls and
    no backoff. *)
Lemma cycle_budget env self hostname privkey pubkey h :
  let d := (publish_and_connect env self hostname privkey pubkey h).2 in
  (count is_publish d <= 1)%nat /\ (count is_connect d <= 6)%nat
  /\ count is_backoff d = 0%nat.
Proof.
  intros d. split; [|split].
  - unfold d. rewrite publish_and_connect_unfold. unfold bind.
    destruct (publish_calls env self pubkey h) as (_ & Hone & _).
    destruct (publish env self pubkey h) as [[u|e] d1]; cbn [fst snd] in *; [|lia].
    pose proof (connect_to_instance_publishes_nothing env u hostname privkey
                  (proxy_command_of self) (h ++ d1)) as Hnone.
    destruct (_connect_to_instance env u hostname privkey (proxy_command_of self) (h ++ d1))
      as [r d2]. cbn [fst snd] in *. rewrite count_app. lia.
  - unfold d. rewrite publish_and_connect_unfold. unfold bind.
    destruct (publish_calls env self pubkey h) as (Hhand & _).
    assert (Hc : (count is_connect (publish env self pubkey h).2 <= 0)%nat).
    { rewrite <- Hhand. apply count_le_impl. intros [] H; try discriminate; reflexivity. }
    destruct (publish env self pubkey h) as [[u|e] d1]; cbn [fst snd] in *; [|lia].
    pose proof (connect_loop_at_most env u hostname privkey (proxy_command_of self)
                  (range (max_time_to_wait + 1)) (h ++ d1)) as H6.
    fold (_connect_to_instance env u hostname privkey (proxy_command_of self)) in H6.
    destruct (_connect_to_instance env u hostname privkey (proxy_command_of self) (h ++ d1))
      as [r d2]. cbn [fst snd] in *. rewrite count_app.
    change (length (range (max_time_to_wait + 1))) with 6%nat in H6. lia.
  - apply count_none.
    eapply Forall_impl; [apply publish_and_connect_events|].
    intros ev. apply cycle_event_not_backoff.
Qed.

(** One iteration of the loop whose cycle returned a client. *)
Lemma get_conn_loop_returned env self hostname privkey pubkey retry rest h client d :
  publish_and_connect env self hostname privkey pubkey h = (Ok client, d) ->
  get_conn_loop env self hostname privkey pubkey (retry :: rest) h = (Ok (Some client), d).
Proof.
  intros Hcycle. simpl. unfold try_except, bind, ret. rewrite Hcycle.
  cbn. rewrite app_nil_r. reflexivity.
Qed.

Lemma loop_budget env self hostname privkey pubkey n : forall i h,
  Z.of_nat (i + n) = max_retries self ->
  let run := get_conn_loop env self hostname privkey pubkey
               (map Z.of_nat (seq i (S n))) h in
  (count is_publish run.2 <= S n)%nat
  /\ (count is_connect run.2 <= 6 * S n)%nat
  /\ (count is_backoff run.2 <= 2 * n)%nat.
Proof.
  induction n as [|n IH]; intros i h Hmax run; unfold run; clear run;
    change (map Z.of_nat (seq i (S ?m))) with (Z.of_nat i :: map Z.of_nat (seq (S i) m));
    destruct (cycle_budget env self hostname privkey pubkey h) as (Hp & Hc & Hb);
    cbv zeta in Hp, Hc, Hb;
    destruct (publish_and_connect env self hostname privkey pubkey h) as [[c|exc] d] eqn:Hcycle;
    cbn [fst snd] in *;
    try (rewrite (get_conn_loop_returned _ _ _ _ _ _ _ _ _ _ Hcycle); cbn [fst snd]; lia);
    rewrite (get_conn_loop_raised _ _ _ _ _ _ _ _ _ _ Hcycle);
    (destruct (handled exc); [|cbn [fst snd]; lia]).
  - replace (Z.of_nat i =? max_retries self) with true
      by (symmetry; apply Z.eqb_eq; lia).
    cbn [fst snd]. lia.
  - replace (Z.of_nat i =? max_retries self) with false
      by (symmetry; apply Z.eqb_neq; lia).
    cbv zeta. cbn [fst snd].
    match goal with
    | |- context [get_conn_loop _ _ _ _ _ _ ?h0] =>
        destruct (IH (S i) h0) as (IHp & IHc & IHb); [lia|]
    end.
    cbv zeta in IHp, IHc, IHb. rewrite !count_app.
    change (count is_publish [Ev_randint 0 max_delay; Ev_sleep OuterBackoff _]) with 0%nat.
    change (count is_connect [Ev_randint 0 max_delay; Ev_sleep OuterBackoff _]) with 0%nat.
    change (count is_backoff [Ev_randint 0 max_delay; Ev_sleep OuterBackoff _]) with 2%nat.
    lia.
Qed.

Lemma range_loop_budget env self hostname privkey pubkey h :
  let run := get_conn_loop env self hostname privkey pubkey (range (max_retries self + 1)) h in
  let cycles := Z.to_nat (max_retries self + 1) in
  (count is_publish run.2 <= cycles)%nat
  /\ (count is_connect run.2 <= 6 * cycles)%nat
  /\ (count is_backoff run.2 <= 2 * (cycles - 1))%nat.
Proof.
  intros run cycles. unfold run, cycles, range.
  destruct (Z.to_nat (max_retries self + 1)) as [|n] eqn:Hn.
  - unfold count. simpl. lia.
  - replace (S n - 1)%nat with n by lia.
    apply (loop_budget env self hostname privkey pubkey n 0 h). lia.
Qed.

(** The calls of [get_conn_configured], with the calls of its loop. *)
Lemma get_conn_configured_loop env self h :
  required_missing self = false ->
  exists d_key d_loop,
    (get_conn_configured env self h).2 = (resolve_hostname env self h).2 ++ d_key ++ d_loop
    /\ (d_key = [] \/ d_key = [Ev_RSAKey_generate 2048])
    /\ (d_loop = [] \/
        exists hostname privkey pubkey h',
          d_loop = (get_conn_loop env self hostname privkey pubkey
                      (range (max_retries self + 1)) h').2).
Proof.
  unfold get_conn_configured. intros ->. unfold bind at 1.
  destruct (resolve_hostname env self h) as [[hn|e] d1]; cbn [fst snd].
  - unfold bind at 1.
    pose proof (generate_ssh_key_trace env (user self) (h ++ d1)) as Hkey.
    destruct (_generate_ssh_key env (user self) (h ++ d1)) as [[[privkey pubkey]|e] d2];
      cbn [fst snd] in *; subst d2.
    + unfold bind.
      destruct (get_conn_loop env self hn privkey pubkey (range (max_retries self + 1))
                  ((h ++ d1) ++ [Ev_RSAKey_generate 2048])) as [r d3] eqn:Hloop.
      exists [Ev_RSAKey_generate 2048], d3. split.
      * destruct r as [[c|]|e]; cbn; rewrite ?app_nil_r; reflexivity.
      * split; [auto|]. right. exists hn, privkey, pubkey, ((h ++ d1) ++ [Ev_RSAKey_generate 2048]).
        rewrite Hloop. reflexivity.
    + exists [Ev_RSAKey_generate 2048], []. auto.
  - exists [], []. rewrite !app_nil_r. auto.
Qed.

Lemma default_project_id_max_retries env self h :
  max_retries (default_project_id env self h).1.2 = max_retries self.
Proof.
  unfold default_project_id. destruct (negb (truthy_str (project_id self))); [|reflexivity].
  destruct (env_project_id env h); reflexivity.
Qed.

(** X15: whatever the collaborators answer, one call of [get_conn] with
    a budget of [max_retries] makes at most [max_retries + 1] publish
    calls, at most [6 * (max_retries + 1)] connect calls and at most
    [max_retries] backoffs (each a random delay drawn and slept); with a
    negative budget it makes none of them. *)
Theorem X15_get_conn_call_budget env self h :
  let run := get_conn env self h in
  let cycles := Z.to_nat (max_retries self + 1) in
  (count is_publish run.2 <= cycles)%nat
  /\ (count is_connect run.2 <= 6 * cycles)%nat
  /\ (count is_backoff run.2 <= 2 * (cycles - 1))%nat.
Proof.
  intros run cycles. unfold run. rewrite get_conn_run.
  pose proof (load_kept_attributes env self h) as Hmax0.
  apply (f_equal (fun k => k.1.2)) in Hmax0. cbn [fst snd kept_attributes] in Hmax0.
  pose proof (load_connection_config_trace env self h) as Hd0.
  destruct (_load_connection_config env self h) as [[r0 self1] d0].
  cbn [fst snd] in *. subst d0.
  set (d0 := [Ev_get_connection (gcp_conn_id self)]).
  assert (Hzero : forall d1, Forall (fun ev => ev = Ev_project_id) d1 ->
            count is_publish (d0 ++ d1) = 0%nat /\ count is_connect (d0 ++ d1) = 0%nat
            /\ count is_backoff (d0 ++ d1) = 0%nat).
  { intros d1 Hd1. rewrite !count_app, !(count_none _ d1);
      [repeat split| | |]; eapply Forall_impl; try exact Hd1; intros ev ->; reflexivity. }
  destruct r0 as [[]|e].
  2: { destruct (Hzero [] ltac:(constructor)) as (H1 & H2 & H3). rewrite app_nil_r in *.
       cbn [fst snd]. lia. }
  pose proof (default_project_id_trace env self1 (h ++ d0)) as Hd1.
  pose proof (default_project_id_max_retries env self1 (h ++ d0)) as Hmax1.
  destruct (default_project_id env self1 (h ++ d0)) as [[r1 self2] d1].
  cbn [fst snd] in *. destruct (Hzero d1 Hd1) as (H1 & H2 & H3).
  destruct r1 as [[]|e]; cbn [fst snd]; [|lia].
  destruct (required_missing self2) eqn:Hmiss.
  { rewrite (get_conn_configured_missing _ _ _ Hmiss). cbn [fst snd].
    rewrite app_nil_r. lia. }
  destruct (get_conn_configured_loop env self2 (h ++ d0 ++ d1) Hmiss)
    as (d_key & d_loop & -> & Hkey & Hloop).
  assert (Hhost : count is_publish (resolve_hostname env self2 (h ++ d0 ++ d1)).2 = 0%nat
                  /\ count is_connect (resolve_hostname env self2 (h ++ d0 ++ d1)).2 = 0%nat
                  /\ count is_backoff (resolve_hostname env self2 (h ++ d0 ++ d1)).2 = 0%nat).
  { rewrite resolve_hostname_run.
    destruct (truthy_str (hostname self2)); repeat split; reflexivity. }
  destruct Hhost as (G1 & G2 & G3).
  assert (Hk : count is_publish d_key = 0%nat /\ count is_connect d_key = 0%nat
               /\ count is_backoff d_key = 0%nat).
  { destruct Hkey as [-> | ->]; repeat split; reflexivity. }
  destruct Hk as (K1 & K2 & K3).
  assert (Hl : (count is_publish d_loop <= cycles)%nat
               /\ (count is_connect d_loop <= 6 * cycles)%nat
               /\ (count is_backoff d_loop <= 2 * (cycles - 1))%nat).
  { destruct Hloop as [-> | (hn & privkey & pubkey & h' & ->)].
    - unfold count. simpl. lia.
    - unfold cycles. rewrite <- Hmax0, <- Hmax1. apply range_loop_budget. }
  destruct Hl as (L1 & L2 & L3).
  rewrite (app_assoc d0 d1).
  rewrite !(count_app _ (d0 ++ d1)), !(count_app _ (resolve_hostname _ _ _).2),
    !(count_app _ d_key).
  rewrite H1, H2, H3, G1, G2, G3, K1, K2, K3. lia.
Qed.

(** ** Failures that are not retried *)



(** ** What [get_conn] never calls *)

(** A call that is neither a configuration call, nor the address lookup,
    nor the key generation, nor a call of the retry loop is never made. *)
Lemma get_conn_never (p : Event -> bool) env self h :
  (forall conn_id, p (Ev_get_connection conn_id) = false) ->
  p Ev_project_id = false ->
  (forall z n i b, p (Ev_get_instance_address z n i b) = false) ->
  p (Ev_RSAKey_generate 2048) = false ->
  (forall self' hostname privkey pubkey ev,
     loop_event self' hostname privkey pubkey ev -> p ev = false) ->
  count p (get_conn env self h).2 = 0%nat.
Proof.
  intros Hconn Hproj Hlookup Hgen Hloop. apply count_none. rewrite get_conn_run.
  pose proof (load_connection_config_trace env self h) as Hd0.
  destruct (_load_connection_config env self h) as [[r0 self1] d0].
  cbn [fst snd] in *. subst d0.
  destruct r0 as [[]|e]; cbn [fst snd]; [|repeat constructor; apply Hconn].
  pose proof (default_project_id_trace env self1 (h ++ [Ev_get_connection (gcp_conn_id self)]))
    as Hd1.
  destruct (default_project_id env self1 _) as [[r1 self2] d1]. cbn [fst snd] in *.
  assert (Hp1 : Forall (fun ev => p ev = false) d1).
  { eapply Forall_impl; [exact Hd1|]. intros ev ->. exact Hproj. }
  destruct r1 as [[]|e]; cbn [fst snd]; [|constructor; [apply Hconn|exact Hp1]].
  constructor; [apply Hconn|]. apply Forall_app. split; [exact Hp1|].
  destruct (required_missing self2) eqn:Hmiss.
  { rewrite (get_conn_configured_missing _ _ _ Hmiss). constructor. }
  match goal with
  | |- context [get_conn_configured env self2 ?h0] =>
      destruct (get_conn_configured_calls env self2 h0 Hmiss)
        as (d_key & d_loop & hn & privkey & pubkey & -> & Hkey & Hev & _)
  end.
  rewrite resolve_hostname_run. apply Forall_app. split.
  - destruct (truthy_str (hostname self2)); repeat constructor. apply Hlookup.
  - apply Forall_app. split.
    + destruct Hkey as [-> | ->]; repeat constructor. exact Hgen.
    + eapply Forall_impl; [exact Hev|]. intros ev. apply Hloop.
Qed.

(** X17: [get_conn] never leaves an authorization scope and never
    closes a client, on any path: it makes no scope-exit call and no
    close call, whether it returns or raises. *)
Theorem X17_get_conn_releases_nothing env self h :
  count is_release (get_conn env self h).2 = 0%nat.
Proof.
  apply get_conn_never; try reflexivity.
  intros self' hostname privkey pubkey ev Hev. destruct Hev as [ev []| |]; reflexivity.
Qed.

(** ** Connect calls and authorization scopes *)

Lemma scoped_app (a b : Trace) : scoped a -> scoped b -> scoped (a ++ b).
Proof.
  induction 1 as [|ev t Hc Hne Hs IH|scope hn u k sock l t Hs IH]; intros Hb; simpl.
  - exact Hb.
  - apply scoped_other; auto.
  - apply scoped_connect; auto.
Qed.

Lemma scoped_single ev :
  is_connect ev = false -> (forall scope, ev <> Ev_gcloud_enter scope true) -> scoped [ev].
Proof. intros H1 H2. constructor; [exact H1|exact H2|constructor]. Qed.

Lemma scoped_no_handshake (t : Trace) :
  Forall (fun ev => is_handshake ev = false) t -> scoped t.
Proof.
  induction 1 as [|ev t Hev _ IH]; constructor; [| |exact IH].
  - destruct ev; try reflexivity. discriminate.
  - intros scope ->. discriminate.
Qed.

(** In a scoped trace a connect call is never first, and comes right
    after the entry of a scope. *)
Lemma scoped_connect_preceded (t : Trace) :
  scoped t ->
  forall before ev after,
    t = before ++ ev :: after -> is_connect ev = true ->
    exists before' scope, before = before' ++ [Ev_gcloud_enter scope true].
Proof.
  induction 1 as [|ev0 t Hc Hne Hs IH|scope hn u k sock l t Hs IH];
    intros before ev after Heq Hev.
  - destruct before; discriminate.
  - destruct before as [|x before]; simpl in Heq; injection Heq as -> ->.
    + congruence.
    + destruct (IH _ _ _ eq_refl Hev) as (b' & s & ->). exists (x :: b'), s. reflexivity.
  - destruct before as [|x before]; simpl in Heq; injection Heq as <- Heq.
    + discriminate.
    + destruct before as [|y before]; simpl in Heq; injection Heq as <- Heq.
      * exists [], scope. reflexivity.
      * destruct (IH _ _ _ Heq Hev) as (b' & s & ->).
        exists (Ev_gcloud_enter scope true :: Ev_connect hn u k sock l :: b'), s.
        reflexivity.
Qed.

Section Adds.

Variable Q : Trace -> Prop.
Hypothesis Q_nil : Q [].
Hypothesis Q_app : forall a b, Q a -> Q b -> Q (a ++ b).

Lemma adds_ret {A} (a : A) : adds Q (ret a).
Proof. intros h. exact Q_nil. Qed.

Lemma adds_raise {A} e : adds Q (@raise A e).
Proof. intros h. exact Q_nil. Qed.

Lemma adds_of_result {A} (r : Result A) : adds Q (of_result r).
Proof. intros h. exact Q_nil. Qed.

Lemma adds_call {A} ev (oracle : Trace -> Result A) : Q [ev] -> adds Q (call ev oracle).
Proof. intros H h. exact H. Qed.

Lemma adds_bind {A B} (m : M A) (f : A -> M B) :
  adds Q m -> (forall a, adds Q (f a)) -> adds Q (bind m f).
Proof.
  intros Hm Hf h. unfold bind. specialize (Hm h).
  destruct (m h) as [[a|e] d]; cbn [fst snd] in *; [|exact Hm].
  specialize (Hf a (h ++ d)). destruct (f a (h ++ d)) as [r' d']. cbn [fst snd] in *.
  apply Q_app; assumption.
Qed.

Lemma adds_try_except {A} (m : M A) handler :
  adds Q m -> (forall e, adds Q (handler e)) -> adds Q (try_except m handler).
Proof.
  intros Hm Hf h. unfold try_except. specialize (Hm h).
  destruct (m h) as [[a|e] d]; cbn [fst snd] in *; [exact Hm|].
  specialize (Hf e (h ++ d)). destruct (handler e (h ++ d)) as [r' d']. cbn [fst snd] in *.
  apply Q_app; assumption.
Qed.

End Adds.

Lemma connect_attempt_scoped env user hostname pkey proxy_command :
  adds scoped (connect_attempt env user hostname pkey proxy_command).
Proof.
  unfold connect_attempt.
  apply (adds_bind scoped scoped_app).
  - destruct proxy_command as [cmd|]; [|apply adds_ret; constructor].
    destruct (truthy_str (Some cmd)); [|apply adds_ret; constructor].
    apply (adds_bind scoped scoped_app); [|intros p; apply adds_ret; constructor].
    apply adds_call. apply scoped_single; [reflexivity|discriminate].
  - intros sock h. unfold Client.connect.
    destruct (env_gcloud_enter env h) as [[]|e]; cbn [fst snd].
    + destruct (env_connect env _ _ _ _ _ _); cbn [fst snd app];
        apply scoped_connect; constructor.
    + apply scoped_single; [reflexivity|discriminate].
Qed.

Lemma connect_loop_scoped env user hostname pkey proxy_command waits :
  adds scoped (connect_loop env user hostname pkey proxy_command waits).
Proof.
  induction waits as [|w waits IH]; simpl; [apply adds_raise; constructor|].
  apply (adds_bind scoped scoped_app).
  - apply (adds_try_except scoped scoped_app).
    + apply (adds_bind scoped scoped_app); [apply connect_attempt_scoped|].
      intros c. apply adds_ret. constructor.
    + intros e. destruct e; try (apply adds_raise; constructor).
      destruct (w =? max_time_to_wait); [apply adds_raise|apply adds_ret]; constructor.
  - intros [c|]; [apply adds_ret; constructor|].
    apply (adds_bind scoped scoped_app); [|intros _; exact IH].
    apply adds_call. apply scoped_single; [reflexivity|discriminate].
Qed.

Lemma count_zero_forall p (t : Trace) :
  count p t = 0%nat -> Forall (fun ev => p ev = false) t.
Proof.
  unfold count. induction t as [|ev t IH]; simpl; [constructor|].
  destruct (p ev) eqn:Hp; simpl; [discriminate|]. intros H. constructor; auto.
Qed.

Lemma publish_and_connect_scoped env self hostname privkey pubkey :
  adds scoped (publish_and_connect env self hostname privkey pubkey).
Proof.
  rewrite publish_and_connect_unfold.
  apply (adds_bind scoped scoped_app).
  - intros h. apply scoped_no_handshake, count_zero_forall.
    apply (publish_calls env self pubkey h).
  - intros u. apply connect_loop_scoped.
Qed.

Lemma get_conn_loop_scoped env self hostname privkey pubkey retries :
  adds scoped (get_conn_loop env self hostname privkey pubkey retries).
Proof.
  induction retries as [|retry rest IH]; simpl; [apply adds_ret; constructor|].
  assert (Hgo : adds scoped
            (if retry =? max_retries self
             then raise max_retries_exceeded
             else
               delay <- call (Ev_randint 0 max_delay)
                             (fun h => Ok (env_randint env h 0 max_delay));;
               call (Ev_sleep OuterBackoff delay) (fun _ => Ok tt);;;
               get_conn_loop env self hostname privkey pubkey rest)).
  { destruct (retry =? max_retries self); [apply adds_raise; constructor|].
    apply (adds_bind scoped scoped_app);
      [apply adds_call, scoped_single; [reflexivity|discriminate]|intros delay].
    apply (adds_bind scoped scoped_app);
      [apply adds_call, scoped_single; [reflexivity|discriminate]|intros _; exact IH]. }
  apply (adds_try_except scoped scoped_app).
  - apply (adds_bind scoped scoped_app); [apply publish_and_connect_scoped|].
    intros c. apply adds_ret. constructor.
  - intros exc. destruct exc; try (apply adds_raise; constructor);
      (apply (adds_bind scoped scoped_app); [|intros _; exact Hgo]);
      try (destruct (precondition_failed _));
      first [apply adds_ret; constructor | apply adds_raise; constructor].
Qed.

Lemma get_conn_configured_scoped env self : adds scoped (get_conn_configured env self).
Proof.
  unfold get_conn_configured.
  destruct (required_missing self); [apply adds_raise; constructor|].
  apply (adds_bind scoped scoped_app).
  - unfold resolve_hostname. destruct (negb (truthy_str (hostname self)));
      [|apply adds_ret; constructor].
    apply adds_call, scoped_single; [reflexivity|discriminate].
  - intros hn. apply (adds_bind scoped scoped_app).
    + intros h. rewrite generate_ssh_key_trace.
      apply scoped_single; [reflexivity|discriminate].
    + intros [privkey pubkey].
      apply (adds_bind scoped scoped_app); [apply get_conn_loop_scoped|].
      intros [c|]; [apply adds_ret|apply adds_raise]; constructor.
Qed.

(** X18: in every run of [get_conn], connect calls and authorization
    scopes go in pairs: each connect call is made right after a scope
    was entered, and a scope is entered only to make a connect call
    right away; no connect call is ever made outside a scope or after a
    scope failed to open. *)
Theorem X18_connect_only_inside_scope env self h :
  scoped (get_conn env self h).2
  /\ forall before ev after,
       (get_conn env self h).2 = before ++ ev :: after -> is_connect ev = true ->
       exists before' scope, before = before' ++ [Ev_gcloud_enter scope true].
Proof.
  assert (Hs : scoped (get_conn env self h).2).
  { rewrite get_conn_run.
    pose proof (load_connection_config_trace env self h) as Hd0.
    destruct (_load_connection_config env self h) as [[r0 self1] d0].
    cbn [fst snd] in *. subst d0.
    assert (H0 : scoped [Ev_get_connection (gcp_conn_id self)])
      by (apply scoped_single; [reflexivity|discriminate]).
    destruct r0 as [[]|e]; cbn [fst snd]; [|exact H0].
    pose proof (default_project_id_trace env self1
                  (h ++ [Ev_get_connection (gcp_conn_id self)])) as Hd1.
    destruct (default_project_id env self1 _) as [[r1 self2] d1]. cbn [fst snd] in *.
    assert (H1 : scoped d1).
    { apply scoped_no_handshake. eapply Forall_impl; [exact Hd1|].
      intros ev ->. reflexivity. }
    destruct r1 as [[]|e]; cbn [fst snd]; [|exact (scoped_app _ _ H0 H1)].
    apply (scoped_app _ _ H0). apply scoped_app; [exact H1|].
    apply get_conn_configured_scoped. }
  split; [exact Hs|]. apply scoped_connect_preceded. exact Hs.
Qed.

(** ** Closing a client *)

Lemma open_scopes_from_app opened (a b : Trace) :
  open_scopes_from opened (a ++ b) = open_scopes_from (open_scopes_from opened a) b.
Proof.
  revert opened. induction a as [|ev a IH]; intros opened; [reflexivity|].
  destruct ev; simpl; try apply IH. destruct entered; apply IH.
Qed.

Lemma open_scopes_app (a b : Trace) :
  open_scopes (a ++ b) = open_scopes_from (open_scopes a) b.
Proof. apply open_scopes_from_app. Qed.

Lemma not_in_filter_out (scope : nat) (opened : list nat) :
  ~ In scope (List.filter (fun s => negb (Nat.eqb s scope)) opened).
Proof.
  intros Hin. apply filter_In in Hin as [_ Hne].
  rewrite Nat.eqb_refl in Hne. discriminate.
Qed.

(** X19: [close] leaves the scope of the client, if it holds one, and
    forgets it: the scope is no longer open, a second [close] leaves no
    scope again but only closes the client, and [__exit__] makes the same
    calls as [close]. *)
Theorem X19_close_releases_once client h :
  let closed := Client.close client h in
  closed.1 = (Ok tt, Client.new)
  /\ (Client.close closed.1.2 (h ++ closed.2)).2 = [Ev_close]
  /\ (Client.__exit__ client h).2 = closed.2
  /\ forall scope, decorator client = Some scope ->
       closed.2 = [Ev_gcloud_exit scope; Ev_close]
       /\ ~ In scope (open_scopes (h ++ closed.2)).
Proof.
  intros closed. unfold closed, Client.close, Client.__exit__, Client.close, Client.new.
  cbn [fst snd decorator].
  split; [reflexivity|]. split; [reflexivity|].
  split; [destruct (decorator client); reflexivity|].
  intros scope Hdec. rewrite Hdec. split; [reflexivity|].
  rewrite open_scopes_app. cbn. apply not_in_filter_out.
Qed.

Lemma X19_close_releases_once_witness :
  (Client.close {| decorator := Some 4%nat |} [Ev_gcloud_enter 4 true]).2
    = [Ev_gcloud_exit 4; Ev_close]
  /\ ~ In 4%nat (open_scopes ([Ev_gcloud_enter 4 true]
                              ++ (Client.close {| decorator := Some 4%nat |}
                                    [Ev_gcloud_enter 4 true]).2)).
Proof.
  exact (proj2 (proj2 (proj2 (X19_close_releases_once {| decorator := Some 4%nat |}
                                [Ev_gcloud_enter 4 true]))) 4%nat eq_refl).
Defined.

Lemma connect_attempt_returns env user hostname pkey proxy_command h client d :
  connect_attempt env user hostname pkey proxy_command h = (Ok client, d) ->
  exists d0 scope sock,
    d = d0 ++ [Ev_gcloud_enter scope true; Ev_connect hostname user pkey sock false]
    /\ decorator client = Some scope.
Proof.
  unfold connect_attempt, bind, call, ret, Client.connect.
  destruct proxy_command as [cmd|]; [destruct (truthy_str (Some cmd))|].
  - destruct (env_ProxyCommand env h cmd) as [p|e]; cbn [fst snd]; [|discriminate].
    destruct (env_gcloud_enter env _) as [[]|e]; cbn [fst snd]; [|discriminate].
    destruct (env_connect env _ _ _ _ _ _); cbn [fst snd]; [|discriminate].
    intros [= <- <-]. exists [Ev_ProxyCommand cmd]. eexists _, _. split; reflexivity.
  - cbn [fst snd]. destruct (env_gcloud_enter env _) as [[]|e]; cbn [fst snd]; [|discriminate].
    destruct (env_connect env _ _ _ _ _ _); cbn [fst snd]; [|discriminate].
    intros [= <- <-]. exists []. eexists _, _. split; reflexivity.
  - cbn [fst snd]. destruct (env_gcloud_enter env _) as [[]|e]; cbn [fst snd]; [|discriminate].
    destruct (env_connect env _ _ _ _ _ _); cbn [fst snd]; [|discriminate].
    intros [= <- <-]. exists []. eexists _, _. split; reflexivity.
Qed.

Lemma connect_loop_returns env user hostname pkey proxy_command waits : forall h client,
  (connect_loop env user hostname pkey proxy_command waits h).1 = Ok client ->
  exists d0 scope sock,
    (connect_loop env user hostname pkey proxy_command waits h).2 =
      d0 ++ [Ev_gcloud_enter scope true; Ev_connect hostname user pkey sock false]
    /\ decorator client = Some scope.
Proof.
  induction waits as [|w waits IH]; intros h client; [discriminate|].
  rewrite connect_loop_cons. cbv zeta.
  destruct (connect_attempt env user hostname pkey proxy_command h) as [[c|e] d] eqn:Hatt;
    cbn [fst snd].
  - intros [= <-]. apply (connect_attempt_returns _ _ _ _ _ _ _ _ Hatt).
  - destruct e; cbn [fst snd]; try discriminate.
    destruct (w =? max_time_to_wait); cbn [fst snd]; [discriminate|].
    intros Hnext. destruct (IH _ _ Hnext) as (d0 & scope & sock & -> & Hdec).
    exists (d ++ Ev_sleep InnerWait w :: d0), scope, sock.
    split; [|exact Hdec]. rewrite <- app_assoc. reflexivity.
Qed.

(** X20: the client [_connect_to_instance] returns is the one of the
    last attempt: it holds the scope entered for the connect call that
    succeeded, that scope is open when the client is returned, and
    closing the client leaves it. *)
Theorem X20_returned_client_holds_its_scope env user hostname pkey proxy_command h client :
  let run := _connect_to_instance env user hostname pkey proxy_command h in
  run.1 = Ok client ->
  exists scope,
    decorator client = Some scope
    /\ (exists d0 sock,
          run.2 = d0 ++ [Ev_gcloud_enter scope true;
                         Ev_connect hostname user pkey sock false])
    /\ In scope (open_scopes (h ++ run.2))
    /\ ~ In scope (open_scopes (h ++ run.2 ++ (Client.close client (h ++ run.2)).2)).
Proof.
  intros run Hok.
  destruct (connect_loop_returns env user hostname pkey proxy_command _ h client Hok)
    as (d0 & scope & sock & Hrun & Hdec).
  fold (_connect_to_instance env user hostname pkey proxy_command) in Hrun. fold run in Hrun.
  exists scope. split; [exact Hdec|]. split; [eauto|]. split.
  - rewrite Hrun, !app_assoc, open_scopes_app. cbn. apply in_or_app. right. left. reflexivity.
  - unfold Client.close. rewrite Hdec. cbn [fst snd app].
    rewrite (app_assoc h), open_scopes_app. cbn. apply not_in_filter_out.
Qed.

Lemma X20_returned_client_holds_its_scope_witness :
  let run := _connect_to_instance (Scenario.env 2 (Ok tt)) (Some "root") "34.72.10.5"
               Scenario.key0 None [] in
  exists scope,
    decorator {| decorator := Some 2%nat |} = Some scope
    /\ (exists d0 sock,
          run.2 = d0 ++ [Ev_gcloud_enter scope true;
                         Ev_connect "34.72.10.5" (Some "root") Scenario.key0 sock false])
    /\ In scope (open_scopes ([] ++ run.2))
    /\ ~ In scope (open_scopes ([] ++ run.2
                                ++ (Client.close {| decorator := Some 2%nat |}
                                      ([] ++ run.2)).2)).
Proof.
  refine (X20_returned_client_holds_its_scope (Scenario.env 2 (Ok tt)) (Some "root")
            "34.72.10.5" Scenario.key0 None [] {| decorator := Some 2%nat |} _).
  vm_compute. reflexivity.
Defined.

(** ** The tunnel *)

(** The tunnel command is never empty, so it is used whenever it is
    built. *)
Lemma proxy_command_truthy self :
  truthy_str (proxy_command_of self) = use_iap_tunnel self.
Proof.
  unfold proxy_command_of. destruct (use_iap_tunnel self); [|reflexivity].
  destruct (truthy_str (impersonation_chain self)); reflexivity.
Qed.

Lemma connect_attempt_tunnelled env self user hostname pkey :
  emits (tunnelled self) (connect_attempt env user hostname pkey (proxy_command_of self)).
Proof.
  pose proof (proxy_command_truthy self) as Ht. intros h.
  unfold connect_attempt, bind, call, ret, Client.connect.
  destruct (proxy_command_of self) as [cmd|] eqn:Hp.
  - rewrite Ht. destruct (use_iap_tunnel self) eqn:Hflag.
    + destruct (env_ProxyCommand env h cmd) as [p|e]; cbn [fst snd].
      * destruct (env_gcloud_enter env _) as [[]|e]; cbn [fst snd].
        -- destruct (env_connect env _ _ _ _ _ _); cbn [fst snd app];
             repeat constructor; simpl; auto.
        -- repeat constructor; simpl; auto.
      * repeat constructor; simpl; auto.
    + cbn [fst snd]. destruct (env_gcloud_enter env _) as [[]|e]; cbn [fst snd].
      * destruct (env_connect env _ _ _ _ _ _); cbn [fst snd app];
          repeat constructor; simpl; auto.
      * repeat constructor.
  - simpl in Ht. cbn [fst snd]. destruct (env_gcloud_enter env _) as [[]|e]; cbn [fst snd].
    + destruct (env_connect env _ _ _ _ _ _); cbn [fst snd app];
        repeat constructor; simpl; auto.
    + repeat constructor.
Qed.

(** The handshake loop makes the calls of its attempts and its waits. *)
Lemma connect_loop_emits_attempts (P : Event -> Prop) env user hostname pkey proxy_command waits :
  emits P (connect_attempt env user hostname pkey proxy_command) ->
  (forall w, P (Ev_sleep InnerWait w)) ->
  emits P (connect_loop env user hostname pkey proxy_command waits).
Proof.
  intros Hattempt Hwait. induction waits as [|w waits IH]; simpl; [apply emits_raise|].
  apply emits_bind.
  - apply emits_try_except.
    + apply emits_bind; [exact Hattempt|intros c; apply emits_ret].
    + intros e. destruct e; try apply emits_raise.
      destruct (w =? max_time_to_wait); emits_step.
  - intros [c|]; [apply emits_ret|].
    apply emits_bind; [apply emits_call; apply Hwait|intros _; exact IH].
Qed.

(** X21: every publish+handshake cycle agrees with [use_iap_tunnel]:
    with the flag set each connect call is given a tunnel and every
    tunnel process is started with the gcloud command of the hook;
    without it no tunnel process is ever started and each connect call
    is direct. *)
Theorem X21_tunnel_follows_flag env self hostname privkey pubkey h :
  Forall (tunnelled self) (publish_and_connect env self hostname privkey pubkey h).2.
Proof.
  rewrite publish_and_connect_unfold.
  apply (emits_bind (tunnelled self)).
  - intros h'. destruct (publish_calls env self pubkey h') as (Hhand & _).
    apply count_zero_forall in Hhand.
    eapply Forall_impl; [exact Hhand|]. intros ev Hev.
    destruct ev; try exact I; discriminate.
  - intros u. apply connect_loop_emits_attempts.
    + apply connect_attempt_tunnelled.
    + intros w. exact I.
Qed.

(** ** The host of the connection *)

Lemma load_cmd_timeout_target conn self :
  target_attributes (load_cmd_timeout conn self).2 = target_attributes self.
Proof. unfold load_cmd_timeout. repeat case_match; reflexivity. Qed.

Lemma load_gcpssh_target env conn self :
  target_attributes (load_gcpssh env conn self).2 =
    (env_get_field env "instance_name" (instance_name self),
     env_get_field env "zone" (zone self),
     if truthy_str (login conn) then login conn else user self,
     if truthy_str (host conn) then host conn else hostname self).
Proof.
  unfold load_gcpssh. cbv zeta.
  match goal with
  | |- context [intify ?k ?v (expire_time ?s)] =>
      assert (Htarget : target_attributes s =
                (env_get_field env "instance_name" (instance_name self),
                 env_get_field env "zone" (zone self),
                 if truthy_str (login conn) then login conn else user self,
                 if truthy_str (host conn) then host conn else hostname self))
        by reflexivity;
      revert Htarget; generalize s
  end.
  intros self3 Htarget.
  destruct (intify _ _ _) as [t|e]; [|exact Htarget].
  pose proof (load_cmd_timeout_target conn (set_expire_time t self3)) as Hcmd.
  change (target_attributes (set_expire_time t self3)) with (target_attributes self3) in Hcmd.
  destruct (load_cmd_timeout conn (set_expire_time t self3)) as [[[]|e] self4];
    cbn [snd] in *; rewrite <- Htarget, <- Hcmd; [|reflexivity].
  destruct (cmd_timeout self4); reflexivity.
Qed.

Lemma default_project_id_hostname env self h :
  hostname (default_project_id env self h).1.2 = hostname self.
Proof.
  unfold default_project_id. destruct (negb (truthy_str (project_id self))); [|reflexivity].
  destruct (env_project_id env h); reflexivity.
Qed.

(** X22: the host and the login of a [gcpssh] connection, when not
    empty, replace the [hostname] and the [user] given to the
    constructor; [get_conn] then makes no address lookup and every
    connect call goes to the host of the connection. *)
Theorem X22_connection_host_is_the_address env self h conn address :
  env_get_connection env h (gcp_conn_id self) = Ok (Some conn) ->
  conn_type conn = "gcpssh" ->
  host conn = Some address -> address <> EmptyString ->
  let self' := (_load_connection_config env self h).1.2 in
  hostname self' = Some address
  /\ user self' = (if truthy_str (login conn) then login conn else user self)
  /\ count is_address_lookup (get_conn env self h).2 = 0%nat
  /\ Forall (connects_to_address address) (get_conn env self h).2.
Proof.
  intros Hconn Htype Hhost Hne self'.
  assert (Htruthy : truthy_str (host conn) = true).
  { rewrite Hhost. destruct address; [contradiction|reflexivity]. }
  assert (Htarget : hostname self' = Some address
                    /\ user self' = (if truthy_str (login conn) then login conn else user self)).
  { pose proof (load_gcpssh_target env conn self) as Ht.
    unfold self', _load_connection_config. rewrite Hconn, Htype.
    change (String.eqb "gcpssh" "gcpssh") with true. cbv iota. cbn [fst snd].
    unfold target_attributes in Ht. injection Ht as _ _ Hu Hh.
    rewrite Hh, Hu, Htruthy, Hhost. split; reflexivity. }
  destruct Htarget as [Hh Hu]. split; [exact Hh|]. split; [exact Hu|].
  rewrite get_conn_run. fold self'.
  pose proof (load_connection_config_trace env self h) as Hd0.
  destruct (_load_connection_config env self h) as [[r0 self1] d0].
  cbn [fst snd] in *. subst d0 self'.
  set (d0 := [Ev_get_connection (gcp_conn_id self)]).
  assert (H0 : forall d1, Forall (fun ev => ev = Ev_project_id) d1 ->
            count is_address_lookup (d0 ++ d1) = 0%nat
            /\ Forall (connects_to_address address) (d0 ++ d1)).
  { intros d1 Hd1. split.
    - rewrite count_app, (count_none _ d1); [reflexivity|].
      eapply Forall_impl; [exact Hd1|]. intros ev ->. reflexivity.
    - apply Forall_app. split; [repeat constructor|].
      eapply Forall_impl; [exact Hd1|]. intros ev ->. exact I. }
  destruct r0 as [[]|e]; cbn [fst snd].
  2: { destruct (H0 [] ltac:(constructor)) as [Hc Hf]. rewrite app_nil_r in *. auto. }
  pose proof (default_project_id_trace env self1 (h ++ d0)) as Hd1.
  pose proof (default_project_id_hostname env self1 (h ++ d0)) as Hh2.
  destruct (default_project_id env self1 (h ++ d0)) as [[r1 self2] d1].
  cbn [fst snd] in *. rewrite Hh in Hh2. destruct (H0 d1 Hd1) as [Hc Hf].
  destruct r1 as [[]|e]; cbn [fst snd]; [|auto].
  destruct (required_missing self2) eqn:Hmiss.
  { rewrite (get_conn_configured_missing _ _ _ Hmiss). cbn [fst snd].
    rewrite app_nil_r. auto. }
  destruct (get_conn_configured_calls env self2 (h ++ d0 ++ d1) Hmiss)
    as (d_key & d_loop & hn & privkey & pubkey & -> & Hkey & Hloop & Haddr).
  assert (Hresolve : resolve_hostname env self2 (h ++ d0 ++ d1) = (Ok address, [])).
  { rewrite resolve_hostname_run, Hh2. destruct address; [contradiction|reflexivity]. }
  rewrite Hresolve in *. cbn [fst snd app] in *.
  rewrite (app_assoc d0 d1). split.
  - rewrite (count_app _ (d0 ++ d1)), Hc, count_app, (count_none _ d_loop).
    + destruct Hkey as [-> | ->]; reflexivity.
    + eapply Forall_impl; [exact Hloop|]. intros ev. apply loop_event_not_lookup.
  - apply Forall_app. split; [exact Hf|]. apply Forall_app. split.
    + destruct Hkey as [-> | ->]; repeat constructor.
    + destruct Haddr as [[= <-]| ->]; [|constructor].
      eapply Forall_impl; [exact Hloop|]. intros ev. apply loop_event_address.
Qed.

Lemma X22_connection_host_is_the_address_witness :
  hostname (_load_connection_config
              (Cases.with_connection Cases.host_connection (Scenario.env 0 (Ok tt)))
              Scenario.vm1 []).1.2 = Some "10.0.0.5"
  /\ user (_load_connection_config
             (Cases.with_connection Cases.host_connection (Scenario.env 0 (Ok tt)))
             Scenario.vm1 []).1.2 = Some "deploy"
  /\ count is_address_lookup
       (get_conn (Cases.with_connection Cases.host_connection (Scenario.env 0 (Ok tt)))
          Scenario.vm1 []).2 = 0%nat
  /\ Forall (connects_to_address "10.0.0.5")
       (get_conn (Cases.with_connection Cases.host_connection (Scenario.env 0 (Ok tt)))
          Scenario.vm1 []).2.
Proof.
  refine (X22_connection_host_is_the_address
            (Cases.with_connection Cases.host_connection (Scenario.env 0 (Ok tt)))
            Scenario.vm1 [] Cases.host_connection "10.0.0.5" eq_refl eq_refl eq_refl _).
  discriminate.
Defined.
